(** * plugin.video.areena: catalog parsing and stream resolution

    A shallow embedding of the pure core of the Yle Areena add-on
    (resources/lib/misc.py, yle.py, kaltura.py and router.py) together with
    the properties its specification states.

    Conventions of the embedding.
    - A Python [str] is a [string]; one [ascii] stands for one character.
      The alphabet table of [sort_alphabetical_categories] holds letters
      outside ASCII, written here in UTF-8; they are only ever compared for
      equality.
    - A Python [int] is a [Z].  A Python [float] is an IEEE-754 binary64
      value, carried by [spec_float] of the Standard Library.
    - A value decoded by [json.loads] (and [None]) is a [json].
    - An exception is a constructor of [exn]; code that can raise returns a
      [res].  Code that logs or talks to the network runs in the monad [M],
      which records the events in order.
    - [log] calls that only dump a response are debug output and are left
      out; the one call that reports an unknown stream type is kept. *)

From Stdlib Require Import ZArith List String Ascii Bool Lia Arith.
From Stdlib Require Import Sorting.Permutation Sorting.Sorted.
From Stdlib Require Import Floats.SpecFloat DecimalString DecimalPos.
From Equations Require Import Equations.
Import ListNotations.

Local Open Scope string_scope.
Local Open Scope Z_scope.

(* ===================================================================== *)
(** * Python run-time values                                              *)
(* ===================================================================== *)

Module Py.

(** The exception classes the modelled code can raise.  [NotModelled] is no
    Python exception: it ends a run that leaves the fragment modelled here
    (see [int_of_count]). *)
Inductive exn : Type :=
| AttributeError
| KeyError
| IndexError
| TypeError
| ValueError
| StopIteration
| UnboundLocalError
| NameError
| HTTPError
| NotModelled.

(** [except (AttributeError, LookupError, TypeError, ValueError)]:
    [KeyError] and [IndexError] are the subclasses of [LookupError]. *)
Definition caught_by_parser (e : exn) : bool :=
  match e with
  | AttributeError | KeyError | IndexError | TypeError | ValueError => true
  | StopIteration | UnboundLocalError | NameError | HTTPError
  | NotModelled => false
  end.

Inductive res (A : Type) : Type :=
| Ok (a : A)
| Raise (e : exn).
Arguments Ok {A} a.
Arguments Raise {A} e.

Definition rbind {A B} (r : res A) (f : A -> res B) : res B :=
  match r with
  | Ok a => f a
  | Raise e => Raise e
  end.

(** [try: r except (AttributeError, LookupError, TypeError, ValueError): d] *)
Definition try_except {A} (r : res A) (d : A) : res A :=
  match r with
  | Ok a => Ok a
  | Raise e => if caught_by_parser e then Ok d else Raise e
  end.

Definition is_ok {A} (r : res A) : bool :=
  match r with Ok _ => true | Raise _ => false end.

(** Values produced by [json.loads]; [JNull] is [None]. A [dict] keeps its
    keys in insertion order and holds each key once. *)
#[warnings="-register-all"]
Inductive json : Type :=
| JNull
| JBool (b : bool)
| JInt (n : Z)
| JFloat (f : spec_float)
| JStr (s : string)
| JList (l : list json)
| JDict (kv : list (string * json)).

Definition float_is_zero (f : spec_float) : bool :=
  match f with S754_zero _ => true | _ => false end.

(** Truth value of an object, as tested by [not x] and [x or y]. *)
Definition truthy (v : json) : bool :=
  match v with
  | JNull => false
  | JBool b => b
  | JInt n => negb (n =? 0)
  | JFloat f => negb (float_is_zero f)
  | JStr s => negb (String.eqb s "")
  | JList l => match l with [] => false | _ => true end
  | JDict kv => match kv with [] => false | _ => true end
  end.

(** [x or y] *)
Definition py_or (x y : json) : json := if truthy x then x else y.

Fixpoint assoc (k : string) (kv : list (string * json)) : option json :=
  match kv with
  | [] => None
  | (k', v) :: rest => if String.eqb k k' then Some v else assoc k rest
  end.

(** [v.get(k, d)]: only a [dict] has the method. *)
Definition get (v : json) (k : string) (d : json) : res json :=
  match v with
  | JDict kv => Ok (match assoc k kv with Some x => x | None => d end)
  | _ => Raise AttributeError
  end.

(** [v[k]] for a string key [k]. *)
Definition item (v : json) (k : string) : res json :=
  match v with
  | JDict kv => match assoc k kv with Some x => Ok x | None => Raise KeyError end
  | _ => Raise TypeError
  end.

(** [l[i]] on a Python list, negative indices counting from the end. *)
Definition list_item {A} (l : list A) (i : Z) : res A :=
  let n := Z.of_nat (List.length l) in
  let j := if i <? 0 then i + n else i in
  if (j <? 0) || (n <=? j) then Raise IndexError
  else match nth_error l (Z.to_nat j) with
       | Some x => Ok x
       | None => Raise IndexError
       end.

(** [v[i]] for an integer index [i]. *)
Definition item_int (v : json) (i : Z) : res json :=
  match v with
  | JList l => list_item l i
  | JStr s =>
      rbind (list_item (list_ascii_of_string s) i)
            (fun c => Ok (JStr (String c EmptyString)))
  | JDict _ => Raise KeyError
  | _ => Raise TypeError
  end.

(** The elements [for x in v] runs over: a list yields its items, a dict its
    keys, a string its characters; anything else is not iterable. *)
Definition iter (v : json) : res (list json) :=
  match v with
  | JList l => Ok l
  | JDict kv => Ok (map (fun p => JStr (fst p)) kv)
  | JStr s => Ok (map (fun c => JStr (String c EmptyString)) (list_ascii_of_string s))
  | _ => Raise TypeError
  end.

End Py.
Import Py.

(* ===================================================================== *)
(** * String operations of the Python library                             *)
(* ===================================================================== *)

Module Str.

Fixpoint starts_with (w s : string) : bool :=
  match w, s with
  | EmptyString, _ => true
  | String a w', String b s' => Ascii.eqb a b && starts_with w' s'
  | String _ _, EmptyString => false
  end.

(** Index of the first occurrence of [w] in [s], if any. *)
Fixpoint find_first (w s : string) : option nat :=
  if starts_with w s then Some O
  else match s with
       | EmptyString => None
       | String _ s' => option_map S (find_first w s')
       end.

(** [s.find(w)] *)
Definition find (w s : string) : Z :=
  match find_first w s with
  | Some i => Z.of_nat i
  | None => -1
  end.

Fixpoint drop (n : nat) (s : string) : string :=
  match n, s with
  | O, _ => s
  | S n', String _ s' => drop n' s'
  | S _, EmptyString => EmptyString
  end.

(** [s[start:]] *)
Definition slice_from (start : Z) (s : string) : string :=
  if 0 <=? start then drop (Z.to_nat start) s
  else drop (Z.to_nat (Z.of_nat (String.length s) + start)) s.

(** [s.split(c)] for a one-character separator [c]. *)
Fixpoint split (c : ascii) (s : string) : list string :=
  match s with
  | EmptyString => [EmptyString]
  | String a s' =>
      if Ascii.eqb a c then EmptyString :: split c s'
      else match split c s' with
           | seg :: rest => String a seg :: rest
           | [] => [String a EmptyString]
           end
  end.

Definition is_digit (a : ascii) : bool :=
  let n := nat_of_ascii a in (48 <=? n)%nat && (n <=? 57)%nat.

End Str.

(* ===================================================================== *)
(** * Python floats (IEEE-754 binary64)                                   *)
(* ===================================================================== *)

Module Float.

Definition prec : Z := 53.
Definition emax : Z := 1024.

Definition mul : spec_float -> spec_float -> spec_float := SFmul prec emax.
Definition add : spec_float -> spec_float -> spec_float := SFadd prec emax.

(** The float nearest to [num / den] (ties to even), for [0 <= num] and
    [0 < den]; this is the correctly rounded quotient of two integers. *)
Definition of_ratio (num den : Z) : spec_float :=
  if num <=? 0 then S754_zero false
  else
    let '(q, e, l) := SFdiv_core_binary prec emax num 0 den 0 in
    binary_round_aux prec emax false q e l.

(** [float(n)] for an int [n >= 0]. *)
Definition of_Z (n : Z) : spec_float := of_ratio n 1.

(** The value of a non-negative finite float as a fraction. *)
Definition to_ratio (f : spec_float) : option (Z * Z) :=
  match f with
  | S754_zero _ => Some (0, 1)
  | S754_finite false m e =>
      Some (if 0 <=? e then (Zpos m * 2 ^ e, 1) else (Zpos m, 2 ^ (- e)))
  | _ => None
  end.

(** [f == n] for a float [f] and an int [n]: the comparison is exact. *)
Definition eq_Z (f : spec_float) (n : Z) : bool :=
  match f with
  | S754_zero _ => n =? 0
  | S754_finite s m e =>
      let v := if s then Zneg m else Zpos m in
      if 0 <=? e then v * 2 ^ e =? n else v =? n * 2 ^ (- e)
  | _ => false
  end.

Definition dec (n : Z) : string := NilZero.string_of_int (Z.to_int n).

(** ** [repr] of a float: the shortest decimal string that reads back as the
    same float. *)

(** [num/den < 10^k] *)
Definition below_pow10 (num den k : Z) : bool :=
  if 0 <=? k then num <? den * 10 ^ k else num * 10 ^ (- k) <? den.

(** The [E] with [10^E <= num/den < 10^(E+1)], searched upwards from [E]. *)
Fixpoint exp10 (fuel : nat) (num den E : Z) : Z :=
  match fuel with
  | O => E
  | S fuel' =>
      if below_pow10 num den (E + 1) then E else exp10 fuel' num den (E + 1)
  end.

(** [c * 10^k] read back as a float. *)
Definition of_scaled (c k : Z) : spec_float :=
  if 0 <=? k then of_ratio (c * 10 ^ k) 1 else of_ratio c (10 ^ (- k)).

Definition same_float (x y : spec_float) : bool :=
  match x, y with
  | S754_finite sx mx ex, S754_finite sy my ey =>
      Bool.eqb sx sy && Pos.eqb mx my && (ex =? ey)
  | _, _ => false
  end.

(** The candidates with [nd] digits next to [num/den]: [lo * 10^k] and
    [(lo+1) * 10^k].  Returns the one that reads back as [x], the nearer of
    the two when both do. *)
Definition candidate (x : spec_float) (num den E : Z) (nd : Z)
  : option (Z * Z) :=
  let k := E - nd + 1 in
  let lo := if 0 <=? k then num / (den * 10 ^ k)
            else (num * 10 ^ (- k)) / den in
  let hi := lo + 1 in
  let ok_lo := same_float (of_scaled lo k) x in
  let ok_hi := same_float (of_scaled hi k) x in
  (* twice the distance from [lo], in units of [10^k / scale] *)
  let '(twice_rem, scale) :=
    if 0 <=? k then (2 * (num - lo * den * 10 ^ k), den * 10 ^ k)
    else (2 * (num * 10 ^ (- k) - lo * den), den) in
  match ok_lo, ok_hi with
  | true, false => Some (lo, k)
  | false, true => Some (hi, k)
  | true, true =>
      if twice_rem <? scale then Some (lo, k)
      else if scale <? twice_rem then Some (hi, k)
      else if Z.even lo then Some (lo, k) else Some (hi, k)
  | false, false => None
  end.

Fixpoint shortest (fuel : nat) (x : spec_float) (num den E nd : Z)
  : Z * Z :=
  match fuel with
  | O => (0, 0)
  | S fuel' =>
      match candidate x num den E nd with
      | Some r => r
      | None => shortest fuel' x num den E (nd + 1)
      end
  end.

Fixpoint strip_zeros (fuel : nat) (c k : Z) : Z * Z :=
  match fuel with
  | O => (c, k)
  | S fuel' =>
      if (c mod 10 =? 0) && negb (c =? 0) then strip_zeros fuel' (c / 10) (k + 1)
      else (c, k)
  end.

Fixpoint zeros (n : nat) : string :=
  match n with O => "" | S n' => String "0" (zeros n') end.

Definition take (n : nat) (s : string) : string := String.substring 0 n s.

(** Layout of the digits [ds], the decimal point standing after the first
    [decpt] of them: exponent notation when [decpt <= -4] or [decpt > 16]. *)
Definition layout (ds : string) (decpt : Z) : string :=
  let n := Z.of_nat (String.length ds) in
  if (decpt <=? -4) || (16 <? decpt) then
    let e := decpt - 1 in
    let mant := match ds with
                | String d EmptyString => ds
                | String d rest => String d ("." ++ rest)
                | EmptyString => ds
                end in
    let ea := dec (Z.abs e) in
    mant ++ "e" ++ (if e <? 0 then "-" else "+")
         ++ (if Z.abs e <? 10 then "0" ++ ea else ea)
  else if decpt <=? 0 then
    "0." ++ zeros (Z.to_nat (- decpt)) ++ ds
  else if n <=? decpt then
    ds ++ zeros (Z.to_nat (decpt - n)) ++ ".0"
  else
    take (Z.to_nat decpt) ds ++ "." ++ Str.drop (Z.to_nat decpt) ds.

(** The shortest digits that read back as [x = num/den > 0], laid out. *)
Definition repr_search (x : spec_float) (num den : Z) : string :=
  let E := exp10 700 num den (-350) in
  let '(c0, k0) := shortest 17 x num den E 1 in
  let '(c, k) := strip_zeros 20 c0 k0 in
  let ds := dec c in
  layout ds (Z.of_nat (String.length ds) + k).

(** An integral value below 1e16 prints as that integer followed by ".0";
    [repr_search] gives the same string there, and this case spares the
    search. *)
Definition repr_pos (x : spec_float) (num den : Z) : string :=
  if (num mod den =? 0) && (num / den <? 10 ^ 16) then
    dec (num / den) ++ ".0"
  else repr_search x num den.

(** [repr(x)], which is also [str(x)]. *)
Definition repr (x : spec_float) : string :=
  match x with
  | S754_nan => "nan"
  | S754_infinity s => if s then "-inf" else "inf"
  | S754_zero s => if s then "-0.0" else "0.0"
  | S754_finite s m e =>
      match to_ratio (S754_finite false m e) with
      | Some (num, den) =>
          (if s then "-" else "") ++ repr_pos (S754_finite false m e) num den
      | None => ""
      end
  end.

Fixpoint digits_value_aux (acc : Z) (s : string) : Z :=
  match s with
  | EmptyString => acc
  | String c s' =>
      digits_value_aux (10 * acc + Z.of_nat (nat_of_ascii c) - 48) s'
  end.

(** The number written by a string of decimal digits. *)
Definition digits_value (s : string) : Z := digits_value_aux 0 s.

End Float.

(* ===================================================================== *)
(** * Effects: log lines and network requests                             *)
(* ===================================================================== *)

Inductive event : Type :=
| Log (msg : string)
| HttpGet (url : string)
| HttpPost (url : string) (body : json).

(** A computation yields the events it caused, in order, and either a value
    or the exception that ended it. *)
Definition M (A : Type) : Type := (list event * res A)%type.

Definition ret {A} (a : A) : M A := ([], Ok a).
Definition raise {A} (e : exn) : M A := ([], Raise e).
Definition lift {A} (r : res A) : M A := ([], r).
Definition log (msg : string) : M unit := ([Log msg], Ok tt).

Definition bind {A B} (c : M A) (k : A -> M B) : M B :=
  match c with
  | (t, Ok a) => let (t', r) := k a in ((t ++ t')%list, r)
  | (t, Raise e) => (t, Raise e)
  end.

Declare Scope py_scope.
Delimit Scope py_scope with py.
Notation "x <- c ;; k" := (bind c (fun x => k))
  (at level 61, c at next level, right associativity) : py_scope.
Notation "c ;;; k" := (bind c (fun _ => k))
  (at level 61, right associativity) : py_scope.
Notation "x <~ r ;; k" := (rbind r (fun x => k))
  (at level 61, r at next level, right associativity) : py_scope.
Local Open Scope py_scope.

(* ===================================================================== *)
(** * resources/lib/misc.py                                               *)
(* ===================================================================== *)

(** [extract_suffix(word, string)] *)
Definition extract_suffix (word s : string) : string :=
  let start := Str.find word s + Z.of_nat (String.length word) in
  Str.slice_from start s.

(* ===================================================================== *)
(** * resources/lib/misc.py: ISO-8601 durations                           *)
(* ===================================================================== *)

Module Iso8601.

(** The named groups of the period pattern. *)
Record groups : Type := Groups {
  g_sign : option string;
  g_years : option string;
  g_months : option string;
  g_weeks : option string;
  g_days : option string;
  g_separator : option string;
  g_hours : option string;
  g_minutes : option string;
  g_seconds : option string
}.

(** [[0-9]+] is greedy: the longest run of digits, and what follows it. *)
Fixpoint span_digits (s : string) : string * string :=
  match s with
  | String c s' =>
      if Str.is_digit c then
        let (d, r) := span_digits s' in (String c d, r)
      else (EmptyString, s)
  | EmptyString => (EmptyString, EmptyString)
  end.

Definition is_decimal_sign (c : ascii) : bool :=
  Ascii.eqb c "," || Ascii.eqb c ".".

(** [[0-9]+([,.][0-9]+)?]: the number text and the rest.  No shorter match
    can be followed by a designator letter, so backtracking never changes
    the outcome. *)
Definition scan_number (s : string) : option (string * string) :=
  let (d, r) := span_digits s in
  match d with
  | EmptyString => None
  | _ =>
      match r with
      | String c r' =>
          if is_decimal_sign c then
            let (f, r'') := span_digits r' in
            match f with
            | EmptyString => Some (d, r)
            | _ => Some (d ++ String c f, r'')
            end
          else Some (d, r)
      | EmptyString => Some (d, r)
      end
  end.

(** An optional group [(NUMBER)X]: the number if the group matches. *)
Definition component (x : ascii) (s : string) : option string * string :=
  match scan_number s with
  | Some (n, String c r) => if Ascii.eqb c x then (Some n, r) else (None, s)
  | _ => (None, s)
  end.

(** An optional group [(NUMBER X)] of the date part: the group text keeps
    the designator. *)
Definition date_component (x : ascii) (s : string) : option string * string :=
  match component x s with
  | (Some n, r) => (Some (n ++ String x EmptyString), r)
  | (None, r) => (None, r)
  end.

(** Word characters of [\b] among the ASCII characters; no other character
    can follow the [P] of a match. *)
Definition is_word (c : ascii) : bool :=
  let n := nat_of_ascii c in
  Str.is_digit c
  || ((65 <=? n)%nat && (n <=? 90)%nat)
  || ((97 <=? n)%nat && (n <=? 122)%nat)
  || (n =? 95)%nat.

(** [\b] right after the [P]: the next character is no word character, or
    the string ends. *)
Definition boundary_after_word (s : string) : bool :=
  match s with
  | EmptyString => true
  | String c _ => negb (is_word c)
  end.

(** [$]: at the end, or before a newline that ends the string. *)
Definition at_end (s : string) : bool :=
  match s with
  | EmptyString => true
  | String c EmptyString => Ascii.eqb c "010"
  | _ => false
  end.

(** [re.match(rgx, s)], as the groups of the match. *)
Definition match_period (s : string) : option groups :=
  let (sign, s1) :=
    match s with
    | String c r =>
        if Ascii.eqb c "+" || Ascii.eqb c "-"
        then (Some (String c EmptyString), r) else (None, s)
    | EmptyString => (None, s)
    end in
  match s1 with
  | String "P" s2 =>
      if boundary_after_word s2 then None
      else
        let (years, s3) := date_component "Y" s2 in
        let (months, s4) := date_component "M" s3 in
        let (weeks, s5) := date_component "W" s4 in
        let (days, s6) := date_component "D" s5 in
        match s6 with
        | String "T" s7 =>
            let (hours, s8) := component "H" s7 in
            let (minutes, s9) := component "M" s8 in
            let (seconds, s10) := component "S" s9 in
            if at_end s10 then
              Some (Groups sign years months weeks days (Some "T")
                           hours minutes seconds)
            else None
        | _ =>
            if at_end s6 then
              Some (Groups sign years months weeks days None None None None)
            else None
        end
  | _ => None
  end.

(** [float(text)] for the text of a number group: digits, then possibly a
    decimal sign and digits.  Only [.] is a decimal point for [float]. *)
Definition float_of_text (text : string) : res spec_float :=
  let (d, r) := span_digits text in
  match r with
  | EmptyString => Ok (Float.of_Z (Float.digits_value d))
  | String c f =>
      if Ascii.eqb c "." then
        Ok (Float.of_ratio (Float.digits_value (d ++ f))
                           (10 ^ Z.of_nat (String.length f)))
      else Raise ValueError
  end.

(** [float(match.get(name) or 0)] *)
Definition float_or_zero (g : option string) : res spec_float :=
  match g with
  | Some text => float_of_text text
  | None => Ok (Float.of_Z 0)
  end.

End Iso8601.

(** [get_duration_seconds(time_stamp)].  [re.match] raises [TypeError] on
    anything but a string, and [None.groupdict()] raises [AttributeError]
    when there is no match; both are handled by returning [""].  The
    conversions to [float] stand outside the [try]. *)
Definition get_duration_seconds (time_stamp : json) : res string :=
  match time_stamp with
  | JStr s =>
      match Iso8601.match_period s with
      | None => Ok ""
      | Some g =>
          h <~ Iso8601.float_or_zero (Iso8601.g_hours g) ;;
          m <~ Iso8601.float_or_zero (Iso8601.g_minutes g) ;;
          sec <~ Iso8601.float_or_zero (Iso8601.g_seconds g) ;;
          Ok (Float.repr
                (Float.add
                   (Float.add (Float.mul h (Float.of_Z 3600))
                              (Float.mul m (Float.of_Z 60)))
                   sec))
      end
  | _ => Ok ""
  end.

(* ===================================================================== *)
(** * resources/lib/yle.py: tokens and provider routing                   *)
(* ===================================================================== *)

(** [extract_token(url)] *)
Definition extract_token (url : string) : string :=
  extract_suffix "token=" url.

(** [media_data.split("-")]: a method of [str] only. *)
Definition py_split (v : json) (c : ascii) : res (list string) :=
  match v with
  | JStr s => Ok (Str.split c s)
  | _ => Raise AttributeError
  end.

Definition str_in (s : string) (l : list string) : bool :=
  existsb (String.eqb s) l.

(** [get_kaltura_id_or_none(media_data)].  In the last branch [media_id] is
    never bound, so [return media_id] raises [UnboundLocalError] after the
    log line. *)
Definition get_kaltura_id_or_none (media_data : json) : M string :=
  if negb (truthy media_data) then ret ""
  else
    media_info <- lift (py_split media_data "-") ;;
    media_host <- lift (list_item media_info 0) ;;
    if String.eqb media_host "29" then
      lift (list_item media_info 1)
    else if str_in media_host ["55"; "67"] then
      ret ""
    else
      log ("Unknown stream media type: "
             ++ match media_data with JStr s => s | _ => "" end) ;;;
      raise UnboundLocalError.


(* ===================================================================== *)
(** * resources/lib/yle.py: catalog parsing                               *)
(* ===================================================================== *)

(** [v == s] for a string constant [s]. *)
Definition py_eq_str (v : json) (s : string) : bool :=
  match v with
  | JStr x => String.eqb x s
  | _ => false
  end.

(** [v == n] for an int constant [n]; [True] and [False] are the ints 1
    and 0. *)
Definition py_eq_int (v : json) (n : Z) : bool :=
  match v with
  | JInt x => x =? n
  | JBool b => (if b then 1 else 0) =? n
  | JFloat f => Float.eq_Z f n
  | _ => false
  end.

(** [get_package_path(locale)]: [None] for an unknown locale. *)
Definition get_package_path (locale : string) : option string :=
  if String.eqb locale "fi" then Some "/tv/ohjelmat/"
  else if String.eqb locale "sv" then Some "/tv/program/"
  else None.

(** [create_api_query(url, limit, offset)] *)
Definition create_api_query (url : string) (limit offset : Z) : string :=
  url ++ "&limit=" ++ Float.dec limit ++ "&offset=" ++ Float.dec offset.

(** [get_api_stream_url(media_id)] *)
Definition get_api_stream_url (media_id : string) : string :=
  "https://player.api.yle.fi/v1/preview/" ++ media_id ++ ".json?"
  ++ "language=fin&" ++ "ssl=true&" ++ "countryCode=FI&"
  ++ "host=areenaylefi" ++ "&app_id=player_static_prod"
  ++ "&app_key=8930d72170e48303cf5f3867780d549b".

(** [get_api_list_url(content_or_packages, token, language)] *)
Definition get_api_list_url (content_or_packages token language : string)
  : string :=
  "https://areena.api.yle.fi/v1/ui/" ++ content_or_packages ++ "/list?"
  ++ "token=" ++ token ++ "&" ++ "language=" ++ language ++ "&"
  ++ "v=9&" ++ "app_id=areena_web_personal_prod&"
  ++ "app_key=6c64d890124735033c50099ca25dd2fe".

(** [api_data] of a listing entry: [kwdict(type=..., yle_id=...)]. *)
Record api_data : Type := ApiData {
  api_type : json;
  api_yle_id : string
}.

(** [media_data] of a listing entry. *)
Record media_data : Type := MediaData {
  md_name : string;
  md_description : json;
  md_duration : string;
  md_image : string;
  md_api_data : api_data
}.

Section Parser.

(** [str(v)] of a list or a dict, which the parser only ever splices into a
    title or an image address. *)
Variable container_str : json -> string.

(** [str(v)], as an f-string formats [v]. *)
Definition py_str (v : json) : string :=
  match v with
  | JStr s => s
  | JInt n => Float.dec n
  | JFloat f => Float.repr f
  | JBool b => if b then "True" else "False"
  | JNull => "None"
  | JList _ | JDict _ => container_str v
  end.

(** [get_image_url(_version, _id)] *)
Definition get_image_url (_version _id : json) : string :=
  "https://images.cdn.yle.fi/image/upload/"
  ++ "ar_16:9,w_720,c_fit,d_yle-areena.jpg,f_auto,fl_lossy,q_auto:eco/"
  ++ "v" ++ py_str _version ++ "/" ++ py_str _id ++ ".jpg".

(** [next(i.get("raw") for i in l if i.get("rawType") == "duration")] over
    the items [l]; [None] when the generator is exhausted
    ([StopIteration]). *)
Fixpoint first_duration (l : list json) : res (option json) :=
  match l with
  | [] => Ok None
  | i :: rest =>
      t <~ get i "rawType" JNull ;;
      if py_eq_str t "duration" then
        raw <~ get i "raw" JNull ;; Ok (Some raw)
      else first_duration rest
  end.

(** [extract_duration_timestamp(json_data)] *)
Definition extract_duration_timestamp (json_data : json) : res string :=
  l <~ iter json_data ;;
  r <~ first_duration l ;;
  match r with
  | Some raw => get_duration_seconds raw
  | None => Ok ""
  end.

(** The image of an entry: the [try] block around [get_image_url]. *)
Definition entry_image (entry : json) : res string :=
  try_except
    (img <~ item entry "image" ;;
     v <~ item img "version" ;;
     img' <~ item entry "image" ;;
     i <~ item img' "id" ;;
     Ok (get_image_url v i))
    "".

(** The duration of an entry: the [try] block around
    [extract_duration_timestamp]. *)
Definition entry_duration (entry : json) : res string :=
  try_except
    (labels <~ item entry "labels" ;;
     extract_duration_timestamp labels)
    "".

(** [x.split("/")[-1]] *)
Definition last_segment (v : json) : res string :=
  segs <~ py_split v "/" ;; list_item segs (-1).

(** One turn of the loop of [get_category_content]. *)
Definition parse_entry (locale : string) (title_prefix : json) (entry : json)
  : res media_data :=
  _name <~ get entry "title" (JStr "") ;;
  p <~ get entry "pointer" (JDict []) ;;
  _type <~ get p "type" (JStr "") ;;
  p' <~ get entry "pointer" (JDict []) ;;
  uri <~ get p' "uri" (JStr "") ;;
  _id <~ last_segment uri ;;
  _description <~ get entry "description" (JStr "") ;;
  _id <~ (if py_eq_str _type "package" then
            match get_package_path locale with
            | Some path => Ok (path ++ _id)
            | None => Raise TypeError
            end
          else Ok _id) ;;
  _image <~ entry_image entry ;;
  _duration <~ entry_duration entry ;;
  Ok (MediaData (py_str title_prefix ++ " " ++ py_str _name)
                _description _duration _image
                (ApiData _type _id)).

Fixpoint parse_entries (locale : string) (title_prefix : json)
  (l : list json) : res (list media_data) :=
  match l with
  | [] => Ok []
  | entry :: rest =>
      md <~ parse_entry locale title_prefix entry ;;
      mds <~ parse_entries locale title_prefix rest ;;
      Ok (md :: mds)
  end.

(** [get_category_content(site, locale, title_prefix)]; [site] is the
    decoded body [site.json()]. *)
Definition get_category_content (site : json) (locale : string)
  (title_prefix : json) : res (list media_data) :=
  json_data <~ item site "data" ;;
  let title_prefix := py_or title_prefix (JStr "") in
  entries <~ iter json_data ;;
  parse_entries locale title_prefix entries.

(** [get_query_content(res, locale)] *)
Definition get_query_content (site : json) (locale : string)
  : res (list media_data * json) :=
  content <~ get_category_content site locale JNull ;;
  meta <~ item site "meta" ;;
  count <~ item meta "count" ;;
  Ok (content, count).

End Parser.

(** [get_stream_manifest(site)] *)
Definition get_stream_manifest (site : json) : M (json * string) :=
  data <- lift (item site "data") ;;
  ondemand <- lift (get data "ongoing_ondemand" (JDict [])) ;;
  json_data <-
    (if truthy ondemand then ret ondemand
     else data' <- lift (item site "data") ;;
          lift (get data' "ongoing_event" (JDict []))) ;;
  manifest_url <- lift (get json_data "manifest_url" JNull) ;;
  media_data <- lift (get json_data "media_id" JNull) ;;
  kaltura_id <- get_kaltura_id_or_none media_data ;;
  ret (manifest_url, kaltura_id).

(* ===================================================================== *)
(** * resources/lib/yle.py: alphabetical categories                       *)
(* ===================================================================== *)

(** [api_data] of an alphabetical bucket; [offset] is absent until
    [sort_alphabetical_categories] sets it. *)
Record bucket_api_data : Type := BucketApi {
  b_type : string;
  b_yle_id : string;
  b_count : Z;
  b_api_tok : option string;
  b_offset : option Z
}.

Record bucket : Type := Bucket {
  b_name : string;
  b_api_data : bucket_api_data
}.

Definition alphabet : list string :=
  ["0-9";"A";"À";"B";"C";"D";"E";"F";"G";"H";"I";"J";"K";"L";"M";"N";"O";
   "P";"Q";"R";"S";"T";"Þ";"U";"V";"W";"X";"Y";"Z";"Ž";"Å";"Ä";"Ö"].

(** [l.index(x)]: the first position of [x], [ValueError] if there is
    none. *)
Fixpoint list_index (x : string) (l : list string) : res Z :=
  match l with
  | [] => Raise ValueError
  | y :: rest =>
      if String.eqb y x then Ok 0
      else i <~ list_index x rest ;; Ok (i + 1)
  end.

(** The keys of [sorted(categories, key=...)], computed once per item. *)
Fixpoint sort_keys (categories : list bucket) : res (list (Z * bucket)) :=
  match categories with
  | [] => Ok []
  | entry :: rest =>
      k <~ list_index (b_name entry) alphabet ;;
      ks <~ sort_keys rest ;;
      Ok ((k, entry) :: ks)
  end.

(** [sorted] is stable: an item goes before the first item of the sorted
    rest whose key is not smaller. *)
Fixpoint insert_keyed {A} (k : Z) (x : A) (l : list (Z * A))
  : list (Z * A) :=
  match l with
  | [] => [(k, x)]
  | (k', y) :: rest =>
      if k <=? k' then (k, x) :: l else (k', y) :: insert_keyed k x rest
  end.

Fixpoint sort_keyed {A} (l : list (Z * A)) : list (Z * A) :=
  match l with
  | [] => []
  | (k, x) :: rest => insert_keyed k x (sort_keyed rest)
  end.

Definition set_offset (item : bucket) (offset : Z) : bucket :=
  let a := b_api_data item in
  Bucket (b_name item)
         (BucketApi (b_type a) (b_yle_id a) (b_count a) (b_api_tok a)
                    (Some offset)).

(** The loop over [sorted_categories], started with [offset]. *)
Fixpoint assign_offsets (offset : Z) (l : list bucket) : list bucket :=
  match l with
  | [] => []
  | item :: rest =>
      set_offset item offset
      :: assign_offsets (offset + b_count (b_api_data item)) rest
  end.

(** [sort_alphabetical_categories(categories)] *)
Definition sort_alphabetical_categories (categories : list bucket)
  : res (list bucket) :=
  keyed <~ sort_keys categories ;;
  let sorted_categories := map snd (sort_keyed keyed) in
  Ok (assign_offsets 0 sorted_categories).

(* ===================================================================== *)
(** * resources/lib/kaltura.py                                            *)
(* ===================================================================== *)

(** [get_api_url(service)] *)
Definition get_api_url (service : string) : string :=
  "https://cdnapisec.kaltura.com/api_v3/service/" ++ service.

(** [get_subtitle_url(url)]: [url.find] exists on a [str] only. *)
Definition get_subtitle_url (url : json) : res string :=
  match url with
  | JStr u => Ok (get_api_url (extract_suffix "service/" u))
  | _ => Raise AttributeError
  end.

(** [get_api_payload(entry_id)] *)
Definition get_api_payload (entry_id : string) : json :=
  JDict
    [("apiVersion", JStr "3.3.0");
     ("format", JInt 1);
     ("ks", JStr "");
     ("clientTag", JStr "html5:v0.39.4");
     ("partnerId", JStr "1955031");
     ("0", JDict [("service", JStr "session");
                  ("action", JStr "startWidgetSession");
                  ("widgetId", JStr "_1955031")]);
     ("1", JDict [("service", JStr "baseEntry");
                  ("action", JStr "getPlaybackContext");
                  ("entryId", JStr entry_id);
                  ("ks", JStr "{1:result:ks}");
                  ("contextDataParams",
                   JDict [("objectType", JStr "KalturaContextDataParams");
                          ("flavorTags", JStr "all")])])].

Module Flavor.

Definition is_sep (c : ascii) : bool := Ascii.eqb c "," || Ascii.eqb c "/".

(** Length of the longest run of [[^,/]] at the head of [s], and what
    follows the run. *)
Fixpoint span_run (s : string) : nat * string :=
  match s with
  | String c s' =>
      if is_sep c then (O, s)
      else let (n, r) := span_run s' in (S n, r)
  | EmptyString => (O, EmptyString)
  end.

(** Length of the match of [[0-9][^,/]+,] at the head of [s], if any.  The
    run [[^,/]+] cannot hold a comma, so only the longest run can be
    followed by one. *)
Definition match_len (s : string) : option nat :=
  match s with
  | String d s' =>
      if Str.is_digit d then
        match span_run s' with
        | (S n, String "," _) => Some (S (S (S n)))
        | _ => None
        end
      else None
  | EmptyString => None
  end.

(** [re.sub("[0-9][^,/]+,", "", s)]: matches are found left to right and
    do not overlap; [skip] counts the characters of the current match still
    to be dropped. *)
Fixpoint sub_from (skip : nat) (s : string) : string :=
  match s with
  | EmptyString => EmptyString
  | String c s' =>
      match skip with
      | S k => sub_from k s'
      | O =>
          match match_len s with
          | Some n => sub_from (Nat.pred n) s'
          | None => String c (sub_from O s')
          end
      end
  end.

Definition strip (s : string) : string := sub_from O s.

End Flavor.

(** The [deliveryProfileId] wanted for a mode; a mode other than the three
    leaves [target_stream] unbound. *)
Definition target_stream (mode : string) : option Z :=
  if String.eqb mode "live" then Some 16231
  else if String.eqb mode "download" then Some 14441
  else if String.eqb mode "vod" then Some 14471
  else None.

(** [next(s.get("url") for s in l if s.get("deliveryProfileId") == target)] *)
Fixpoint first_source (target : option Z) (l : list json) : res json :=
  match l with
  | [] => Raise StopIteration
  | s :: rest =>
      d <~ get s "deliveryProfileId" JNull ;;
      t <~ match target with Some t => Ok t | None => Raise NameError end ;;
      if py_eq_int d t then get s "url" JNull
      else first_source target rest
  end.

(** [get_hd_mpd_stream_manifest(site, mode)]; [site] is the decoded body. *)
Definition get_hd_mpd_stream_manifest (site : json) (mode : string)
  : res json :=
  r <~ item_int site 1 ;;
  sources <~ item r "sources" ;;
  l <~ iter sources ;;
  manifest <~ first_source (target_stream mode) l ;;
  if String.eqb mode "download" then
    match manifest with
    | JStr m => Ok (JStr (Flavor.strip m))
    | _ => Raise TypeError
    end
  else Ok manifest.

(** [d[k] = v] on a dict of strings. *)
Fixpoint dict_set (k v : string) (d : list (string * string))
  : list (string * string) :=
  match d with
  | [] => [(k, v)]
  | (k', v') :: rest =>
      if String.eqb k k' then (k, v) :: rest else (k', v') :: dict_set k v rest
  end.

Section Kaltura.

Variable container_str : json -> string.

Fixpoint subtitles_of (d : list (string * string)) (l : list json)
  : res (list (string * string)) :=
  match l with
  | [] => Ok d
  | c :: rest =>
      label <~ get c "label" JNull ;;
      code <~ get c "languageCode" JNull ;;
      u <~ get c "url" JNull ;;
      url <~ get_subtitle_url u ;;
      subtitles_of
        (dict_set ("." ++ py_str container_str label ++ "-"
                       ++ py_str container_str code ++ ".sub") url d)
        rest
  end.

(** [get_subtitles(site)] *)
Definition get_subtitles (site : json) : res (list (string * string)) :=
  r <~ item_int site 1 ;;
  subs <~ item r "playbackCaptions" ;;
  l <~ iter subs ;;
  subtitles_of [] l.

End Kaltura.

(* ===================================================================== *)
(** * resources/lib/router.py                                             *)
(* ===================================================================== *)

(** The [count] of a page as an int.  The API reports an integer.  With a
    float count the code goes on in floating point (after a count of 120.0
    it asks for [limit=20.0]) and, for large values, without end: that is
    outside this model, which ends such a run with [NotModelled].  What is
    stated about the loop is stated for servers whose counts are no floats.
    Any other value makes [min(total, count)] raise [TypeError]. *)
Definition int_of_count (count : json) : res Z :=
  match count with
  | JInt c => Ok c
  | JBool b => Ok (if b then 1 else 0)
  | JFloat _ => Raise NotModelled
  | _ => Raise TypeError
  end.

Section Router.

Variable container_str : json -> string.

(** The network: the decoded body of the response to a GET or a POST
    request, or the exception [raise_for_status] or the decoder raises. *)
Variable http_get : string -> res json.
Variable http_post : string -> json -> res json.

(** [get_url_response(url, body)]; [body] is [None] by default. *)
Definition get_url_response (url : string) (body : json) : M json :=
  if truthy body then ([HttpPost url body], http_post url body)
  else ([HttpGet url], http_get url).

(** [get_extended_content(base_url, locale, offset, total)], with the
    accumulator [ctx] of the loop as an argument; it starts empty. *)
Equations? get_extended_content_from (ctx : list media_data)
  (base_url locale : string) (offset total : Z) : M (list media_data)
  by wf (Z.to_nat total) lt :=
  get_extended_content_from ctx base_url locale offset total
    with Z_gt_dec total 0 => {
    | right _ := ret ctx
    | left Hpos :=
        let requested := Z.min total 100 in
        let url := create_api_query base_url requested offset in
        bind (get_url_response url JNull) (fun site =>
        bind (lift (get_query_content container_str site locale)) (fun cc =>
        bind (lift (int_of_count (snd cc))) (fun count =>
          get_extended_content_from (ctx ++ fst cc)%list base_url locale
            (offset + requested) (Z.min total count - requested)))) }.
Proof. lia. Qed.

Definition get_extended_content (base_url locale : string) (offset total : Z)
  : M (list media_data) :=
  get_extended_content_from [] base_url locale offset total.

(** [get_series(locale, token, offset, count)] *)
Definition get_series (locale token : string) (offset count : Z)
  : M (list media_data) :=
  get_extended_content (get_api_list_url "content" token locale)
                       locale offset count.

(** [get_hls_stream_manifest(yle_id)] *)
Definition get_hls_stream_manifest (yle_id : string) : M (json * string) :=
  site <- get_url_response (get_api_stream_url yle_id) JNull ;;
  get_stream_manifest site.

(** [get_mpd_stream_manifest(kaltura_id, mode)]; the subtitles are [None]
    outside download mode. *)
Definition get_mpd_stream_manifest (kaltura_id mode : string)
  : M (json * option (list (string * string))) :=
  let url := get_api_url "multirequest" in
  let payload := get_api_payload kaltura_id in
  site <- get_url_response url payload ;;
  manifest <- lift (get_hd_mpd_stream_manifest site mode) ;;
  subtitles <-
    (if String.eqb mode "download" then
       s <- lift (get_subtitles container_str site) ;; ret (Some s)
     else ret None) ;;
  ret (manifest, subtitles).

(** The locals [manifest], [stream_format] and [subs] of
    [get_vod_stream_manifest]; [None] while a name is unbound. *)
Record vod_locals : Type := VodLocals {
  l_manifest : option json;
  l_stream_format : option string;
  l_subs : option (option (list (string * string)));
  l_kaltura_id : string
}.

Definition nonempty (s : string) : bool := negb (String.eqb s "").

(** [get_vod_stream_manifest(yle_id, kaltura_id, mode)] *)
Definition get_vod_stream_manifest (yle_id kaltura_id mode : string)
  : M (json * string * option (list (string * string))) :=
  st <-
    (if negb (nonempty kaltura_id) then
       mk <- get_hls_stream_manifest yle_id ;;
       ret (VodLocals (Some (fst mk)) (Some "hls") (Some (Some []))
                      (snd mk))
     else ret (VodLocals None None None kaltura_id)) ;;
  st <-
    (if nonempty (l_kaltura_id st) then
       ms <- get_mpd_stream_manifest (l_kaltura_id st) mode ;;
       ret (VodLocals (Some (fst ms)) (Some "mpd") (Some (snd ms))
                      (l_kaltura_id st))
     else ret st) ;;
  match l_manifest st, l_stream_format st, l_subs st with
  | Some manifest, Some stream_format, Some subs =>
      ret (manifest, stream_format, subs)
  | _, _, _ => raise UnboundLocalError
  end.

End Router.

(* ===================================================================== *)
(** * More string operations                                              *)
(* ===================================================================== *)

Module StrMore.

(** Index of the last occurrence of [w] in [s], if any. *)
Fixpoint find_last (w s : string) : option nat :=
  match s with
  | EmptyString => if Str.starts_with w s then Some O else None
  | String _ s' =>
      match find_last w s' with
      | Some i => Some (S i)
      | None => if Str.starts_with w s then Some O else None
      end
  end.

(** [s.rfind(w)] *)
Definition rfind (w s : string) : Z :=
  match find_last w s with
  | Some i => Z.of_nat i
  | None => -1
  end.

Fixpoint take (n : nat) (s : string) : string :=
  match n, s with
  | S n', String c s' => String c (take n' s')
  | _, _ => EmptyString
  end.

(** [s[:stop]] *)
Definition slice_to (stop : Z) (s : string) : string :=
  if 0 <=? stop then take (Z.to_nat stop) s
  else take (Z.to_nat (Z.of_nat (String.length s) + stop)) s.

End StrMore.

(* ===================================================================== *)
(** * resources/lib/yle.py: subcategories, seasons and live streams       *)
(* ===================================================================== *)

(** [extract_token(url)] on a Python value: [url.find] exists on a [str]
    only. *)
Definition extract_token_of (url : json) : res string :=
  match url with
  | JStr u => Ok (extract_token u)
  | _ => Raise AttributeError
  end.

(** An entry of the subcategory listing: [kwdict(name=..., api_data=
    kwdict(type="subcategory", yle_id=..., api_tok=...))]. *)
Record sub_category : Type := SubCategory {
  sc_name : json;
  sc_yle_id : string;
  sc_api_tok : string
}.

(** The [try] block of [get_sub_categories] for one entry. *)
Definition sub_category_ids (entry : json) : res (string * string) :=
  controls <~ item entry "controls" ;;
  c0 <~ item_int controls 0 ;;
  destination <~ item c0 "destination" ;;
  uri <~ item destination "uri" ;;
  _id <~ last_segment uri ;;
  source <~ item entry "source" ;;
  source_uri <~ item source "uri" ;;
  _api_tok <~ extract_token_of source_uri ;;
  Ok (_id, _api_tok).

(** The loop of [get_sub_categories]: an entry whose ids cannot be read is
    passed over ([continue]). *)
Fixpoint sub_categories_of (l : list json) : res (list sub_category) :=
  match l with
  | [] => Ok []
  | entry :: rest =>
      _name <~ get entry "title" (JStr "") ;;
      match sub_category_ids entry with
      | Ok (_id, _api_tok) =>
          categories <~ sub_categories_of rest ;;
          Ok (SubCategory _name _id _api_tok :: categories)
      | Raise e =>
          if caught_by_parser e then sub_categories_of rest else Raise e
      end
  end.

(** [get_sub_categories(site)], from the decoded [data-view] attribute of
    the page on ([view] is [json.loads(soup)]); finding that attribute in
    the HTML is the work of the gazpacho parser. *)
Definition get_sub_categories (view : json) : res (list sub_category) :=
  tabs <~ item view "tabs" ;;
  tab <~ item_int tabs 0 ;;
  json_data <~ item tab "content" ;;
  l <~ iter json_data ;;
  sub_categories_of l.

(** [[(x['title'], x['parameters']['path.season']) for x in paths]] *)
Fixpoint season_paths (paths : list json) : res (list (json * json)) :=
  match paths with
  | [] => Ok []
  | x :: rest =>
      title <~ item x "title" ;;
      parameters <~ item x "parameters" ;;
      season <~ item parameters "path.season" ;;
      others <~ season_paths rest ;;
      Ok ((title, season) :: others)
  end.

(** [json_data['props']['pageProps']['view']['tabs'][0]['content'][0]] *)
Definition season_content (json_data : json) : res json :=
  props <~ item json_data "props" ;;
  page_props <~ item props "pageProps" ;;
  view <~ item page_props "view" ;;
  tabs <~ item view "tabs" ;;
  tab <~ item_int tabs 0 ;;
  content <~ item tab "content" ;;
  item_int content 0.

(** [get_season_ids(site, show_clips)], from the decoded [__NEXT_DATA__]
    script of the page on ([json_data] is [json.loads(soup.text)]). *)
Definition get_season_ids (json_data : json) (show_clips : json)
  : res (string * list (json * json)) :=
  c <~ season_content json_data ;;
  source <~ item c "source" ;;
  jwt_url <~ item source "uri" ;;
  api_tok <~ extract_token_of jwt_url ;;
  let api_tok := StrMore.slice_to (StrMore.rfind "&path" api_tok) api_tok in
  c' <~ season_content json_data ;;
  seasons <~ item c' "filters" ;;
  payload <~
    (if truthy seasons then
       s0 <~ item_int seasons 0 ;;
       paths <~ item s0 "options" ;;
       l <~ iter paths ;;
       season_paths l
     else if truthy show_clips then Ok [(JStr "", JStr "")]
     else Ok []) ;;
  Ok (api_tok, payload).

(** [get_live_tv_url(media_id)] *)
Definition get_live_tv_url (media_id : string) : string :=
  "https://yletv.akamaized.net/hls/live/" ++ media_id ++ "/master.m3u8".

(** [get_api_live_url(media_id, language)] *)
Definition get_api_live_url (media_id language : string) : string :=
  "https://areena.api.yle.fi/v1/ui/players/" ++ media_id ++ ".json?"
  ++ "language=" ++ language ++ "&" ++ "v=9&"
  ++ "app_id=player_static_prod&"
  ++ "app_key=8930d72170e48303cf5f3867780d549b".

(** [get_live_stream_media_id(site)] *)
Definition get_live_stream_media_id (site : json) : res json :=
  data <~ item site "data" ;;
  live <~ item data "live" ;;
  i <~ item live "item" ;;
  item i "id".

(* ===================================================================== *)
(** * resources/lib/router.py: live streams                               *)
(* ===================================================================== *)

Section RouterLive.

Variable container_str : json -> string.
Variable http_get : string -> res json.
Variable http_post : string -> json -> res json.

(** [get_live_broadcast(media_id, locale)]; the id read from the live page
    is spliced into the preview address as an f-string formats it. *)
Definition get_live_broadcast (media_id locale : string) : M json :=
  site <- get_url_response http_get http_post
            (get_api_live_url media_id locale) JNull ;;
  yle_id <- lift (get_live_stream_media_id site) ;;
  mk <- get_hls_stream_manifest http_get http_post
          (py_str container_str yle_id) ;;
  ret (fst mk).

(** [get_live_stream_manifest(yle_id, locale)] *)
Definition get_live_stream_manifest (yle_id locale : string)
  : M (json * string) :=
  manifest <-
    (if String.eqb yle_id "yle-areena" then get_live_broadcast yle_id locale
     else ret (JStr (get_live_tv_url yle_id))) ;;
  ret (manifest, "hls").

End RouterLive.

(* ===================================================================== *)
(** * resources/lib/cache.py                                              *)
(* ===================================================================== *)

(** The properties of the Kodi home window: [getProperty] gives the empty
    string for a property that is not set, and [clearProperty] unsets
    it.  The window is threaded through the functions below; their log
    lines are left out.  Kodi compares property names without regard to
    case; the names used here differ in more than case whenever they
    differ, the digests being lower-case hexadecimal. *)
Definition store : Type := string -> string.

Definition get_property (k : string) (memcache : store) : string := memcache k.

Definition set_property (k v : string) (memcache : store) : store :=
  fun k' => if String.eqb k' k then v else memcache k'.

Definition clear_property (k : string) (memcache : store) : store :=
  set_property k "" memcache.

Definition empty_store : store := fun _ => "".

Section Cache.

(** [get_addon_id()] *)
Variable addon_id : string.

(** [blake2s(param_string.encode(...)).hexdigest()] *)
Variable blake2s_hexdigest : string -> string.

(** [json.dumps] and [json.loads] *)
Variable dumps : json -> string.
Variable loads : string -> res json.

(** [get_cache_key()] *)
Definition get_cache_key : string := addon_id ++ "-cache-ids".

(** [get_cache_id(param_string)] *)
Definition get_cache_id (param_string : string) : string :=
  addon_id ++ "-" ++ StrMore.slice_to 10 (blake2s_hexdigest param_string).

(** [erase()] *)
Definition erase (memcache : store) : store :=
  let cache_id_key := get_cache_key in
  let cache_id_list :=
    Str.split "," (Str.slice_from 1 (get_property cache_id_key memcache)) in
  let memcache :=
    fold_left (fun m _id => clear_property _id m) cache_id_list memcache in
  clear_property cache_id_key memcache.

(** [add_data(param_string, content, content_type)]; the tuple is dumped as
    a JSON array. *)
Definition add_data (param_string : string) (content content_type : json)
  (memcache : store) : store :=
  let cache_id := get_cache_id param_string in
  let cache_data := dumps (JList [content; content_type]) in
  let memcache := set_property cache_id cache_data memcache in
  let cache_id_key := get_cache_key in
  let cache_id_list := get_property cache_id_key memcache in
  let cache_id_list := cache_id_list ++ ("," ++ cache_id) in
  set_property cache_id_key cache_id_list memcache.

(** [get_data(param_string)]; [JNull] is [None]. *)
Definition get_data (param_string : string) (memcache : store) : res json :=
  let cache_id := get_cache_id param_string in
  let cached_data := get_property cache_id memcache in
  if negb (truthy (JStr cached_data)) then Ok JNull
  else loads cached_data.

End Cache.


(* ===================================================================== *)
(** * resources/lib/network.py                                            *)
(* ===================================================================== *)

(** [random_elisa_ipv4()]; the three draws [randint(2, 9)],
    [randint(0, 255)] and [randint(1, 254)] are arguments. *)
Definition random_elisa_ipv4 (r1 r2 r3 : Z) : string :=
  "91.15" ++ Float.dec r1 ++ "." ++ Float.dec r2 ++ "." ++ Float.dec r3.
(* ===================================================================== *)
(** * Vocabulary of the specification                                     *)
(* ===================================================================== *)

(** [w] occurs in [s] after the prefix [pre]. *)
Definition occurs_after (w s pre : string) : Prop :=
  exists post, s = pre ++ w ++ post.

Definition contains (w s : string) : Prop :=
  exists pre, occurs_after w s pre.

(** No character of [s] is [c]. *)
Fixpoint free_of (c : ascii) (s : string) : bool :=
  match s with
  | EmptyString => true
  | String a s' => negb (Ascii.eqb a c) && free_of c s'
  end.


(** A shape of the preview response is absent or empty: the key is missing
    from [data], or it holds the empty object. *)
Definition shape_absent_or_empty (data : list (string * json)) (k : string)
  : Prop :=
  assoc k data = None \/ assoc k data = Some (JDict []).

(** A shape is present: the key holds a non-empty object. *)
Definition shape_present (data : list (string * json)) (k : string)
  (fields : list (string * json)) : Prop :=
  assoc k data = Some (JDict fields) /\ fields <> [].

(** A shape is null: the key is there and holds [None]. *)
Definition shape_null (data : list (string * json)) (k : string) : Prop :=
  assoc k data = Some JNull.

(** [fields.get(k)] of a shape. *)
Definition shape_field (fields : list (string * json)) (k : string) : json :=
  match assoc k fields with Some v => v | None => JNull end.

(** What is read from a shape: its manifest URL, and the secondary id its
    media id routes to. *)
Definition read_from_shape (fields : list (string * json))
  : M (json * string) :=
  (kaltura_id <- get_kaltura_id_or_none (shape_field fields "media_id") ;;
   ret (shape_field fields "manifest_url", kaltura_id))%py.

(** A preview response with the given [data]. *)
Definition preview (data : list (string * json)) : json :=
  JDict [("data", JDict data)].

Definition sample_ondemand : list (string * json) :=
  [("manifest_url", JStr "https://yle/ondemand.m3u8");
   ("media_id", JStr "29-1_a")].

Definition sample_event : list (string * json) :=
  [("manifest_url", JStr "https://yle/event.m3u8");
   ("media_id", JStr "55-b")].

(** A source of the Kaltura response is an object; its delivery profile
    equals [target] as Python's [==] decides it. *)
Definition is_object (v : json) : Prop :=
  match v with JDict _ => True | _ => False end.

Definition has_profile (target : Z) (s : json) : bool :=
  match get s "deliveryProfileId" JNull with
  | Ok d => py_eq_int d target
  | Raise _ => false
  end.

(** The decoded Kaltura response carries the list [sources]. *)
Definition response_sources (site : json) (sources : list json) : Prop :=
  exists r, item_int site 1 = Ok r /\ item r "sources" = Ok (JList sources).

(** The last step of [get_hd_mpd_stream_manifest] on the address [url] of
    the selected source. *)
Definition finish_manifest (mode : string) (url : json) : res json :=
  if String.eqb mode "download" then
    match url with
    | JStr m => Ok (JStr (Flavor.strip m))
    | _ => Raise TypeError
    end
  else Ok url.

(** A flavor token: a digit, then at least one character, none of them a
    comma or a slash. *)
Definition flavor_token (t : string) : Prop :=
  match t with
  | String d (String c r) =>
      Str.is_digit d = true
      /\ Flavor.is_sep c = false
      /\ forallb (fun x => negb (Flavor.is_sep x)) (list_ascii_of_string r) = true
  | _ => False
  end.

(** The tokens, each followed by a comma. *)
Fixpoint comma_terminated (tokens : list string) : string :=
  match tokens with
  | [] => ""
  | t :: rest => t ++ "," ++ comma_terminated rest
  end.

(** [s] is empty or ends with a slash. *)
Fixpoint slash_terminated (s : string) : bool :=
  match s with
  | EmptyString => true
  | String c EmptyString => Ascii.eqb c "/"
  | String _ s' => slash_terminated s'
  end.

(** Position of a bucket in the alphabet table ([-1] if its name is not in
    the table). *)
Definition alphabet_position (b : bucket) : Z :=
  match list_index (b_name b) alphabet with
  | Ok i => i
  | Raise _ => -1
  end.

(** Name and size of a bucket: what the sequencer leaves untouched. *)
Definition bucket_label (b : bucket) : string * Z :=
  (b_name b, b_count (b_api_data b)).

Definition sum_counts (l : list bucket) : Z :=
  fold_right (fun b acc => b_count (b_api_data b) + acc) 0 l.

Definition mk_bucket (name : string) (count : Z) : bucket :=
  Bucket name (BucketApi "subcategory" "-" count None None).

(** The [image] field of an entry is malformed: the key is missing, or its
    value is null or anything else than an object, or the object lacks
    [version] or [id]. *)
Definition image_malformed (entry : list (string * json)) : Prop :=
  match assoc "image" entry with
  | Some (JDict i) => assoc "version" i = None \/ assoc "id" i = None
  | _ => True
  end.

(** The [labels] field of an entry is malformed: the key is missing, or its
    value is null or anything else than a list. *)
Definition labels_malformed (entry : list (string * json)) : Prop :=
  match assoc "labels" entry with
  | Some (JList _) => False
  | _ => True
  end.

(** The fields other than [image] and [labels] let the parser through: the
    entry is an object, its [pointer] is an object or missing, the [uri] of
    the pointer is a string or missing, and the locale is one of the
    two the add-on knows. *)
Definition required_fields_ok (locale : string) (entry : json) : Prop :=
  exists kv p u,
    entry = JDict kv
    /\ get entry "pointer" (JDict []) = Ok (JDict p)
    /\ get (JDict p) "uri" (JStr "") = Ok (JStr u)
    /\ (locale = "fi" \/ locale = "sv").

Definition fields_of (entry : json) : list (string * json) :=
  match entry with JDict kv => kv | _ => [] end.

(** A result that, if it is an exception, is one the parser's [except]
    clauses handle. *)
Definition handled {A} (r : res A) : Prop :=
  match r with
  | Ok _ => True
  | Raise e => caught_by_parser e = true
  end.

(** The answer of the secondary resolver, tagged "mpd". *)
Definition as_mpd (c : M (json * option (list (string * string))))
  : M (json * string * option (list (string * string))) :=
  bind c (fun ms => ret (fst ms, "mpd", snd ms)).

(** The page a listing server that holds the entries [db] returns for a
    query with the given limit and offset: the entries from [offset] on, at
    most [limit] of them, and the number of entries it holds. *)
Definition page (db : list json) (limit offset : Z) : json :=
  JDict [("data", JList (firstn (Z.to_nat limit) (skipn (Z.to_nat offset) db)));
         ("meta", JDict [("count", JInt (Z.of_nat (List.length db)))])].

(** The network answers every page query on [base_url] as that server. *)
Definition serves (http_get : string -> res json) (base_url : string)
  (db : list json) : Prop :=
  forall limit offset, 0 < limit <= 100 -> 0 <= offset ->
    http_get (create_api_query base_url limit offset)
    = Ok (page db limit offset).

(** Number of page requests among the events. *)
Fixpoint page_fetches (t : list event) : nat :=
  match t with
  | [] => O
  | HttpGet _ :: rest => S (page_fetches rest)
  | _ :: rest => page_fetches rest
  end.

(** The records from [offset] on, at most [total] of them. *)
Definition window (records : list media_data) (offset total : Z)
  : list media_data :=
  firstn (Z.to_nat total) (skipn (Z.to_nat offset) records).

(** A primary provider that answers every preview request with one
    on-demand shape, and a secondary provider that offers one vod source. *)
Definition sample_preview (media_id : string) : string -> res json :=
  fun _ =>
    Ok (JDict [("data",
                JDict [("ongoing_ondemand",
                        JDict [("manifest_url", JStr "https://yle/master.m3u8");
                               ("media_id", JStr media_id)])])]).

Definition sample_kaltura : string -> json -> res json :=
  fun _ _ =>
    Ok (JList [JDict [];
               JDict [("sources",
                       JList [JDict [("deliveryProfileId", JInt 14471);
                                     ("url", JStr "https://k/manifest.mpd")]])]]).

(** [c * 2^k] on mantissas, for [0 <= k]. *)
Definition shl (c : positive) (k : Z) : positive :=
  match k with
  | Zpos p => Pos.iter xO c p
  | _ => c
  end.

(** Number of binary digits of a mantissa. *)
Definition bits (p : positive) : Z := Zpos (digits2_pos p).

(** The binary64 float of an integer [p] with at most 53 binary digits: the
    mantissa is [p] shifted to 53 digits. *)
Definition canon (p : positive) : spec_float :=
  S754_finite false (shl p (53 - bits p)) (bits p - 53).

(** ** ISO-8601 durations, as the specification writes them *)

Fixpoint digits_only (s : string) : bool :=
  match s with
  | EmptyString => true
  | String c s' => Str.is_digit c && digits_only s'
  end.

(** A non-empty string of decimal digits. *)
Definition all_digits (s : string) : bool :=
  negb (String.eqb s "") && digits_only s.

(** A number of a duration: digits, possibly followed by a decimal sign
    (comma or point) and digits. *)
Definition is_number (t : string) : Prop :=
  exists i, all_digits i = true
    /\ (t = i \/ exists c f, Iso8601.is_decimal_sign c = true
                             /\ all_digits f = true /\ t = i ++ String c f).

(** [rest] preceded by the component [x] with its designator, if there is
    one. *)
Definition with_component (x : option string) (designator : ascii)
  (rest : string) : string :=
  match x with
  | Some n => n ++ String designator rest
  | None => rest
  end.

(** A duration with a time part only: [PT], then hours, minutes and
    seconds, each optional. *)
Definition time_duration (h m s : option string) : string :=
  "PT" ++ with_component h "H" (with_component m "M" (with_component s "S" "")).

(** A duration with a date part only: [P], then years, months, weeks and
    days, each optional. *)
Definition date_duration (y mo w d : option string) : string :=
  "P" ++ with_component y "Y" (with_component mo "M"
           (with_component w "W" (with_component d "D" ""))).

(** The component is absent or a number written with digits only. *)
Definition digit_component (x : option string) : Prop :=
  match x with Some n => all_digits n = true | None => True end.

Definition number_component (x : option string) : Prop :=
  match x with Some n => is_number n | None => True end.

Definition component_value (x : option string) : Z :=
  match x with Some n => Float.digits_value n | None => 0 end.

(** Total seconds of hours, minutes and seconds. *)
Definition total_seconds (h m s : option string) : Z :=
  3600 * component_value h + 60 * component_value m + component_value s.

(** A designator letter: no digit and no decimal sign. *)
Definition is_designator (x : ascii) : bool :=
  negb (Str.is_digit x) && negb (Iso8601.is_decimal_sign x).

Definition starts_with_digit (s : string) : bool :=
  match s with String c _ => Str.is_digit c | EmptyString => false end.

(** A listing server for [base_url] that holds the entries [db]: it reads
    the limit and the offset off the query and answers with that page; any
    other address is an error. *)
Definition listing_server (base_url : string) (db : list json)
  (url : string) : res json :=
  let prefix := base_url ++ "&limit=" in
  if Str.starts_with prefix url then
    let (l, r) := Iso8601.span_digits (Str.drop (String.length prefix) url) in
    if Str.starts_with "&offset=" r then
      let (o, r') := Iso8601.span_digits (Str.drop 8 r) in
      match r' with
      | EmptyString =>
          Ok (page db (Float.digits_value l) (Float.digits_value o))
      | _ => Raise HTTPError
      end
    else Raise HTTPError
  else Raise HTTPError.

(** A well-formed entry of a content list, numbered [n]. *)
Definition sample_entry (n : nat) : json :=
  JDict [("title", JStr "Jakso");
         ("pointer", JDict [("type", JStr "program");
                            ("uri", JStr ("yleareena://items/1-"
                                            ++ Float.dec (Z.of_nat n)))])].

(** Order of keyed items by their key. *)
Definition key_le {A} (a b : Z * A) : Prop := fst a <= fst b.



(* ===================================================================== *)
(** * Vocabulary for the further properties                               *)
(* ===================================================================== *)

(** The label of a bucket is the given one. *)
Definition labelled (name : string) (l : string * Z) : bool :=
  String.eqb (fst l) name.

(** Number of POST requests among the events. *)
Fixpoint post_requests (t : list event) : nat :=
  match t with
  | [] => O
  | HttpPost _ _ :: rest => S (post_requests rest)
  | _ :: rest => post_requests rest
  end.

(** Lookup in a dict of strings. *)
Fixpoint dict_get (k : string) (d : list (string * string)) : option string :=
  match d with
  | [] => None
  | (k', v) :: rest => if String.eqb k k' then Some v else dict_get k rest
  end.

(** [s] ends with [w]. *)
Definition ends_with (w s : string) : Prop := exists pre, s = pre ++ w.

(** The decoded Kaltura response carries the list [captions]. *)
Definition response_captions (site : json) (captions : list json) : Prop :=
  exists r, item_int site 1 = Ok r
            /\ item r "playbackCaptions" = Ok (JList captions).

(** [c.get(k)], [None] when [c] has no such method. *)
Definition field (c : json) (k : string) : json :=
  match get c k JNull with
  | Ok v => v
  | Raise _ => JNull
  end.

(** File suffix of the subtitles of a caption. *)
Definition caption_suffix (container_str : json -> string) (c : json)
  : string :=
  "." ++ py_str container_str (field c "label") ++ "-"
      ++ py_str container_str (field c "languageCode") ++ ".sub".

(** A run that sends no request. *)
Definition quiet_run {A : Type} (c : M A) : Prop :=
  page_fetches (fst c) = O /\ post_requests (fst c) = O.

(** [entry["controls"][0]["destination"]["uri"]] *)
Definition destination_uri (entry : json) : res json :=
  controls <~ item entry "controls" ;;
  c0 <~ item_int controls 0 ;;
  destination <~ item c0 "destination" ;;
  item destination "uri".

(** [entry["source"]["uri"]] *)
Definition source_uri (entry : json) : res json :=
  source <~ item entry "source" ;; item source "uri".

(** Both addresses of the entry are there, and are strings. *)
Definition usable (entry : json) : bool :=
  match destination_uri entry, source_uri entry with
  | Ok (JStr _), Ok (JStr _) => true
  | _, _ => false
  end.

(** The record [c] is the one read from the entry [e]. *)
Definition read_from (e : json) (c : sub_category) : Prop :=
  exists u s,
    destination_uri e = Ok (JStr u) /\ source_uri e = Ok (JStr s)
    /\ last_segment (JStr u) = Ok (sc_yle_id c)
    /\ sc_api_tok c = extract_token s
    /\ get e "title" (JStr "") = Ok (sc_name c).

(** The decoded page view carries the list [l] of entries. *)
Definition view_content (view : json) (l : list json) : Prop :=
  exists tabs tab,
    item view "tabs" = Ok tabs /\ item_int tabs 0 = Ok tab
    /\ item tab "content" = Ok (JList l).

(** A page view with two entries; the second has no source. *)
Definition sample_sub_entries : list json :=
  [ JDict [("title", JStr "Draama");
           ("controls",
            JList [JDict [("destination",
                           JDict [("uri", JStr "/tv/ohjelmat/30-901")])]]);
           ("source", JDict [("uri", JStr "https://x/list?token=abc")])];
    JDict [("title", JStr "Lapset");
           ("controls",
            JList [JDict [("destination",
                           JDict [("uri", JStr "/tv/ohjelmat/30-902")])]])] ].

Definition sample_view : json :=
  JDict [("tabs", JList [JDict [("content", JList sample_sub_entries)]])].

(** [pre] is what precedes the last occurrence of [w] in [s]. *)
Definition last_occurrence (w s pre : string) : Prop :=
  occurs_after w s pre
  /\ forall pre', occurs_after w s pre' ->
                  (String.length pre' <= String.length pre)%nat.

(** [s] without its last character. *)
Definition but_last (s shorter : string) : Prop :=
  (s = "" /\ shorter = "") \/ exists c, s = shorter ++ String c "".

(** The decoded season page: the first content block of its first tab has
    the source address [jwt_url] and the value [filters]. *)
Definition season_page (json_data : json) (jwt_url : string) (filters : json)
  : Prop :=
  exists c source,
    season_content json_data = Ok c
    /\ item c "source" = Ok source /\ item source "uri" = Ok (JStr jwt_url)
    /\ item c "filters" = Ok filters.

(** The option [x] of a season filter has the given title and season. *)
Definition season_option (x : json) (ts : json * json) : Prop :=
  item x "title" = Ok (fst ts)
  /\ exists parameters,
       item x "parameters" = Ok parameters
       /\ item parameters "path.season" = Ok (snd ts).

(** The first filter of [filters] offers the options [options]. *)
Definition first_filter_options (filters : json) (options : list json)
  : Prop :=
  exists s0, item_int filters 0 = Ok s0
             /\ item s0 "options" = Ok (JList options).

Definition sample_season_page (jwt_url : string) (filters : json) : json :=
  JDict [("props", JDict [("pageProps", JDict [("view", JDict [("tabs",
    JList [JDict [("content",
      JList [JDict [("source", JDict [("uri", JStr jwt_url)]);
                    ("filters", filters)]])]])])])])].

(** The store after the calls [add_data(p, content, content_type)] for the
    entries of [adds], in order. *)
Definition add_all (addon_id : string) (blake2s_hexdigest : string -> string)
  (dumps : json -> string) (adds : list (string * json * json))
  (memcache : store) : store :=
  fold_left
    (fun m a => add_data addon_id blake2s_hexdigest dumps
                  (fst (fst a)) (snd (fst a)) (snd a) m)
    adds memcache.

(** The list of ids as [add_data] writes it: each id after a comma. *)
Fixpoint id_list (ids : list string) : string :=
  match ids with
  | [] => ""
  | i :: rest => "," ++ i ++ id_list rest
  end.

(** A digest of 64 characters, as [hexdigest] of BLAKE2s returns. *)
Definition sample_digest : string :=
  "0123456789abcdef0123456789abcdef0123456789abcdef0123456789abcdef".

(** The GET requests for pages of the given sizes, the first at [offset],
    each one hundred entries after the one before. *)
Fixpoint page_requests (base_url : string) (offset : Z) (limits : list Z)
  : list event :=
  match limits with
  | [] => []
  | limit :: rest =>
      HttpGet (create_api_query base_url limit offset)
      :: page_requests base_url (offset + 100) rest
  end.

(** No page, or one page of fewer than one hundred entries. *)
Definition short_page (last : list Z) : Prop :=
  last = [] \/ exists l, last = [l] /\ 1 <= l < 100.

Definition sum_limits (limits : list Z) : Z := fold_right Z.add 0 limits.

(** [entry.get("pointer", {}).get(k, "")]; [None] where that raises. *)
Definition pointer_field (entry : json) (k : string) : json :=
  match get entry "pointer" (JDict []) with
  | Ok p => match get p k (JStr "") with Ok v => v | Raise _ => JNull end
  | Raise _ => JNull
  end.

(** [seg] is what follows the last "/" of [u]: all of [u] when it holds
    none. *)
Definition after_last_slash (u seg : string) : Prop :=
  free_of "/" seg = true /\ (u = seg \/ exists p, u = p ++ "/" ++ seg).

(** The record [md] carries the type and the id of the entry: the id is
    what follows the last "/" of the entry's pointer address, after the
    package path of the locale when the entry is a package. *)
Definition record_of_entry (locale : string) (entry : json) (md : media_data)
  : Prop :=
  exists u seg,
    pointer_field entry "uri" = JStr u
    /\ after_last_slash u seg
    /\ api_type (md_api_data md) = pointer_field entry "type"
    /\ api_yle_id (md_api_data md)
       = if py_eq_str (pointer_field entry "type") "package" then
           match get_package_path locale with
           | Some path => path ++ seg
           | None => seg
           end
         else seg.

(** An entry of a listing that points to a package. *)
Definition sample_package : json :=
  JDict [("title", JStr "Sarja");
         ("pointer", JDict [("type", JStr "package");
                            ("uri", JStr "yleareena://packages/30-901")])].

(** An IPv4 address in dotted notation, and as a 32-bit number. *)
Definition dotted (a b c d : Z) : string :=
  Float.dec a ++ "." ++ Float.dec b ++ "." ++ Float.dec c ++ "."
  ++ Float.dec d.

Definition ipv4_value (a b c d : Z) : Z :=
  ((a * 256 + b) * 256 + c) * 256 + d.

(** The address [v] lies in the network [net]/[len]: their first [len]
    bits agree. *)
Definition in_network (net len v : Z) : Prop :=
  Z.shiftr v (32 - len) = Z.shiftr net (32 - len).

(** [res["meta"]["count"]] of a page. *)
Definition count_of (site : json) : res json :=
  meta <~ item site "meta" ;; item meta "count".

(** No page the server answers with carries a floating-point count. *)
Definition no_float_count (http_get : string -> res json) : Prop :=
  forall url site f, http_get url = Ok site -> count_of site <> Ok (JFloat f).

(** A server that answers every query with an empty page and the count
    250. *)
Definition sample_counting_server : string -> res json :=
  fun _ => Ok (JDict [("data", JList []);
                      ("meta", JDict [("count", JInt 250)])]).
(* ===================================================================== *)
(** * Facts about strings                                                 *)
(* ===================================================================== *)

Lemma append_nil_r (s : string) : s ++ "" = s.
Proof. induction s; simpl; congruence. Qed.

Lemma append_assoc (a b c : string) : (a ++ b) ++ c = a ++ b ++ c.
Proof. induction a; simpl; congruence. Qed.

Lemma length_append (a b : string) :
  String.length (a ++ b) = (String.length a + String.length b)%nat.
Proof. induction a; simpl; congruence. Qed.

Lemma starts_with_iff (w s : string) :
  Str.starts_with w s = true <-> exists t, s = w ++ t.
Proof.
  revert s; induction w as [|a w IH]; intros s; simpl.
  - split; [intros _; now exists s | reflexivity].
  - destruct s as [|b s].
    + split; [discriminate | intros [t Ht]; discriminate].
    + rewrite andb_true_iff, Ascii.eqb_eq, IH. split.
      * intros [-> [t ->]]. now exists t.
      * intros [t Ht]. injection Ht as -> ->. split; [reflexivity | now exists t].
Qed.

Lemma drop_append (a b : string) : Str.drop (String.length a) (a ++ b) = b.
Proof. induction a; simpl; auto. Qed.

Lemma drop_split (n : nat) (s : string) :
  exists pre, s = pre ++ Str.drop n s
              /\ String.length pre = Nat.min n (String.length s).
Proof.
  revert s; induction n as [|n IH]; intros s.
  - exists "". split; reflexivity.
  - destruct s as [|c s]; simpl.
    + exists "". split; reflexivity.
    + destruct (IH s) as [pre [H1 H2]]. exists (String c pre). simpl.
      split; congruence.
Qed.

(** [find_first] returns the least position at which the word occurs. *)
Lemma find_first_some (w s : string) (i : nat) :
  Str.find_first w s = Some i ->
  exists pre, String.length pre = i /\ occurs_after w s pre
              /\ forall pre', occurs_after w s pre' ->
                              (i <= String.length pre')%nat.
Proof.
  revert i; induction s as [|c s IH]; intros i; simpl.
  - destruct (Str.starts_with w "") eqn:E; [|discriminate].
    intros [= <-]. exists "". split; [reflexivity|]. split.
    + apply starts_with_iff in E. exact E.
    + intros; lia.
  - destruct (Str.starts_with w (String c s)) eqn:E.
    + intros [= <-]. exists "". split; [reflexivity|]. split.
      * apply starts_with_iff in E. exact E.
      * intros; lia.
    + destruct (Str.find_first w s) as [j|] eqn:F; [|discriminate].
      intros [= <-]. destruct (IH j eq_refl) as [pre [Hl [[post Hp] Hmin]]].
      exists (String c pre). split; [simpl; congruence|]. split.
      * exists post. simpl. congruence.
      * intros pre' [post' Hp']. destruct pre' as [|c' pre']; simpl in *.
        -- assert (Str.starts_with w (String c s) = true)
             by (apply starts_with_iff; now exists post').
           congruence.
        -- injection Hp' as -> Hs. apply le_n_S, Hmin. now exists post'.
Qed.

Lemma find_first_none (w s : string) :
  Str.find_first w s = None -> ~ contains w s.
Proof.
  induction s as [|c s IH]; simpl.
  - destruct (Str.starts_with w "") eqn:E; [discriminate|].
    intros _ [pre [post H]]. destruct pre; [|discriminate].
    assert (Str.starts_with w "" = true) by (apply starts_with_iff; now exists post).
    congruence.
  - destruct (Str.starts_with w (String c s)) eqn:E; [discriminate|].
    destruct (Str.find_first w s) eqn:F; [discriminate|].
    intros _ [pre [post H]]. destruct pre as [|c' pre]; simpl in H.
    + assert (Str.starts_with w (String c s) = true)
        by (apply starts_with_iff; now exists post).
      congruence.
    + injection H as -> H. apply IH; [reflexivity|]. now exists pre, post.
Qed.

Lemma find_first_complete (w s : string) :
  contains w s -> exists i, Str.find_first w s = Some i.
Proof.
  intros H. destruct (Str.find_first w s) eqn:F; [eauto|].
  now apply find_first_none in F.
Qed.

Lemma extract_suffix_found (w s pre : string) :
  occurs_after w s pre ->
  (forall pre', occurs_after w s pre' ->
                (String.length pre <= String.length pre')%nat) ->
  s = pre ++ w ++ extract_suffix w s.
Proof.
  intros Hocc Hmin.
  destruct (find_first_complete w s) as [i Hi]; [now exists pre|].
  destruct (find_first_some _ _ _ Hi) as [p [Hl [Hp Hm]]].
  assert (String.length p = String.length pre).
  { apply Nat.le_antisymm; [rewrite Hl; now apply Hm | now apply Hmin]. }
  destruct Hocc as [post Hpost].
  assert (Hd : extract_suffix w s = post).
  { unfold extract_suffix, Str.find, Str.slice_from. rewrite Hi.
    destruct (0 <=? Z.of_nat i + Z.of_nat (String.length w)) eqn:E;
      [|apply Z.leb_gt in E; lia].
    replace (Z.to_nat (Z.of_nat i + Z.of_nat (String.length w)))
      with (String.length (pre ++ w)) by (rewrite length_append; lia).
    rewrite Hpost, <- append_assoc. apply drop_append. }
  rewrite Hd. exact Hpost.
Qed.

(** A position reported by [find_first] is a first occurrence. *)
Lemma first_occurrence_by_find (w s pre : string) :
  Str.find_first w s = Some (String.length pre) ->
  forall pre', occurs_after w s pre' ->
               (String.length pre <= String.length pre')%nat.
Proof.
  intros F. destruct (find_first_some _ _ _ F) as [p [Hl [_ Hmin]]]. exact Hmin.
Qed.

Lemma append_inv_head (a b c : string) : a ++ b = a ++ c -> b = c.
Proof. induction a; simpl; intros H; [exact H | injection H; auto]. Qed.

(** C9: for every URL that contains the marker "token=", the Token Extractor
    returns exactly what follows the first occurrence of the marker; for
    every URL that does not contain it, it returns the URL without its first
    five (= len("token=") - 1) characters, which is empty when the URL has
    at most five characters.  *)
Theorem extract_token_contract (url : string) :
  (contains "token=" url ->
   exists pre, occurs_after "token=" url pre
     /\ forall pre', occurs_after "token=" url pre' ->
                     (String.length pre <= String.length pre')%nat)
  /\ (forall pre post,
        url = pre ++ "token=" ++ post ->
        (forall pre', occurs_after "token=" url pre' ->
                      (String.length pre <= String.length pre')%nat) ->
        extract_token url = post)
  /\ (~ contains "token=" url ->
      extract_token url = Str.drop 5 url
      /\ exists pre, url = pre ++ extract_token url
                     /\ String.length pre = Nat.min 5 (String.length url)).
Proof.
  split; [|split].
  - intros Hc. destruct (find_first_complete _ _ Hc) as [i Hi].
    destruct (find_first_some _ _ _ Hi) as [pre [Hl [Hocc Hmin]]].
    exists pre. split; [exact Hocc|]. intros; rewrite Hl; now apply Hmin.
  - intros pre post Hu Hmin.
    assert (H := extract_suffix_found "token=" url pre
                   (ex_intro _ post Hu) Hmin).
    rewrite Hu in H at 1.
    apply append_inv_head, append_inv_head in H. symmetry. exact H.
  - intros Hn.
    assert (F : Str.find_first "token=" url = None).
    { destruct (Str.find_first "token=" url) eqn:F; [|reflexivity].
      destruct (find_first_some _ _ _ F) as [pre [_ [Hocc _]]].
      exfalso. apply Hn. now exists pre. }
    assert (E : extract_token url = Str.drop 5 url).
    { unfold extract_token, extract_suffix, Str.find. rewrite F. reflexivity. }
    split; [exact E|]. rewrite E. apply drop_split.
Qed.

Lemma extract_token_contract_witness :
  extract_token "https://areena.api.yle.fi/v1/ui/content/list?token=eyJ0.abc&v=9"
  = "eyJ0.abc&v=9".
Proof.
  apply (proj1 (proj2 (extract_token_contract _))
           "https://areena.api.yle.fi/v1/ui/content/list?").
  - reflexivity.
  - apply first_occurrence_by_find. reflexivity.
Defined.

(* ===================================================================== *)
(** * Provider routing                                                    *)
(* ===================================================================== *)

Lemma split_free (c : ascii) (p : string) :
  free_of c p = true -> Str.split c p = [p].
Proof.
  induction p as [|a p IH]; simpl; [reflexivity|].
  intros H. apply andb_true_iff in H as [Ha Hp].
  apply negb_true_iff in Ha. rewrite Ha, (IH Hp). reflexivity.
Qed.

Lemma split_at_first (c : ascii) (p rest : string) :
  free_of c p = true ->
  Str.split c (p ++ String c rest) = p :: Str.split c rest.
Proof.
  induction p as [|a p IH]; simpl.
  - intros _. now rewrite Ascii.eqb_refl.
  - intros H. apply andb_true_iff in H as [Ha Hp].
    apply negb_true_iff in Ha. rewrite Ha, (IH Hp). reflexivity.
Qed.

Lemma split_nonempty (c : ascii) (s : string) : Str.split c s <> [].
Proof.
  destruct s as [|a s]; simpl; [discriminate|].
  destruct (Ascii.eqb a c); [discriminate|].
  destruct (Str.split c s); discriminate.
Qed.

Lemma list_item_head {A} (x : A) (l : list A) : list_item (x :: l) 0 = Ok x.
Proof.
  unfold list_item. change (0 <? 0) with false. cbv iota.
  assert (H : (Z.of_nat (List.length (x :: l)) <=? 0) = false).
  { apply Z.leb_gt. simpl List.length. lia. }
  rewrite H. reflexivity.
Qed.

Lemma list_item_second {A} (x y : A) (l : list A) :
  list_item (x :: y :: l) 1 = Ok y.
Proof.
  unfold list_item. change (1 <? 0) with false. cbv iota.
  assert (H : (Z.of_nat (List.length (x :: y :: l)) <=? 1) = false).
  { apply Z.leb_gt. simpl List.length. lia. }
  rewrite H. reflexivity.
Qed.

Lemma truthy_str (s : string) : s <> "" -> truthy (JStr s) = true.
Proof.
  intros H. simpl. apply negb_true_iff. now apply String.eqb_neq.
Qed.

(** What [get_kaltura_id_or_none] does on a non-empty identifier, by its
    segments. *)
Lemma kaltura_id_by_segments (s host : string) (segs : list string) :
  s <> "" -> Str.split "-" s = host :: segs ->
  get_kaltura_id_or_none (JStr s) =
    if String.eqb host "29" then lift (list_item (host :: segs) 1)
    else if str_in host ["55"; "67"] then ret ""
    else ([Log ("Unknown stream media type: " ++ s)], Raise UnboundLocalError).
Proof.
  intros Hs Hsplit. unfold get_kaltura_id_or_none.
  rewrite (truthy_str _ Hs). cbn [negb py_split lift bind].
  rewrite Hsplit, list_item_head. cbn [app].
  destruct (String.eqb host "29"); [destruct (list_item _ 1); reflexivity|].
  destruct (str_in host ["55"; "67"]); reflexivity.
Qed.

(** C1 (amended): for a non-empty media identifier whose prefix before the
    first "-" is "29", the secondary id is the text between the first and
    the second "-" (all of the remainder when it holds no further "-"), so
    "29-xyz" yields "xyz"; for the prefix "55" or "67" the secondary id is
    the empty string; for any other prefix the failure is logged as an
    unknown stream media type and an exception is raised instead of a value
    being returned.  The empty identifier yields the empty string. *)
Theorem get_kaltura_id_routing :
  (forall seg, free_of "-" seg = true ->
     get_kaltura_id_or_none (JStr ("29-" ++ seg)) = ([], Ok seg))
  /\ (forall seg rest, free_of "-" seg = true ->
     get_kaltura_id_or_none (JStr ("29-" ++ seg ++ "-" ++ rest))
     = ([], Ok seg))
  /\ (forall p, p = "55" \/ p = "67" ->
     get_kaltura_id_or_none (JStr p) = ([], Ok "")
     /\ forall rest, get_kaltura_id_or_none (JStr (p ++ "-" ++ rest))
                     = ([], Ok ""))
  /\ (forall p, free_of "-" p = true ->
     p <> "29" -> p <> "55" -> p <> "67" ->
     (p <> "" ->
      get_kaltura_id_or_none (JStr p)
      = ([Log ("Unknown stream media type: " ++ p)], Raise UnboundLocalError))
     /\ forall rest,
       get_kaltura_id_or_none (JStr (p ++ "-" ++ rest))
       = ([Log ("Unknown stream media type: " ++ p ++ "-" ++ rest)],
          Raise UnboundLocalError))
  /\ get_kaltura_id_or_none (JStr "") = ([], Ok "").
Proof.
  split; [|split; [|split; [|split]]].
  - intros seg Hf.
    rewrite (kaltura_id_by_segments _ "29" [seg]); [|discriminate|].
    + cbn [String.eqb Ascii.eqb Bool.eqb]. simpl String.eqb.
      unfold lift. now rewrite list_item_second.
    + change ("29-" ++ seg) with ("29" ++ String "-" seg).
      rewrite split_at_first by reflexivity. now rewrite split_free.
  - intros seg rest Hf.
    rewrite (kaltura_id_by_segments _ "29" (seg :: Str.split "-" rest));
      [|discriminate|].
    + simpl String.eqb. unfold lift. now rewrite list_item_second.
    + change ("29-" ++ seg ++ "-" ++ rest)
        with ("29" ++ String "-" (seg ++ String "-" rest)).
      rewrite split_at_first by reflexivity. now rewrite split_at_first.
  - intros p Hp. split.
    + destruct Hp as [-> | ->]; reflexivity.
    + intros rest.
      rewrite (kaltura_id_by_segments _ p (Str.split "-" rest)).
      * destruct Hp as [-> | ->]; reflexivity.
      * destruct Hp as [-> | ->]; discriminate.
      * change (p ++ "-" ++ rest) with (p ++ String "-" rest).
        apply split_at_first. destruct Hp as [-> | ->]; reflexivity.
  - intros p Hf H29 H55 H67.
    assert (E29 : String.eqb p "29" = false) by now apply String.eqb_neq.
    assert (Ein : str_in p ["55"; "67"] = false).
    { unfold str_in. cbn [existsb].
      apply String.eqb_neq in H55, H67. now rewrite H55, H67. }
    split.
    + intros Hne. rewrite (kaltura_id_by_segments _ p []); auto.
      * now rewrite E29, Ein.
      * now apply split_free.
    + intros rest.
      rewrite (kaltura_id_by_segments _ p (Str.split "-" rest)).
      * now rewrite E29, Ein.
      * destruct p; discriminate.
      * change (p ++ "-" ++ rest) with (p ++ String "-" rest).
        now apply split_at_first.
  - reflexivity.
Qed.

Lemma get_kaltura_id_routing_witness :
  get_kaltura_id_or_none (JStr "29-xyz") = ([], Ok "xyz")
  /\ get_kaltura_id_or_none (JStr "13-1_abc")
     = ([Log "Unknown stream media type: 13-1_abc"], Raise UnboundLocalError).
Proof.
  split.
  - apply (proj1 get_kaltura_id_routing "xyz"). reflexivity.
  - apply (proj2 (proj1 (proj2 (proj2 (proj2 get_kaltura_id_routing)))
                    "13" eq_refl ltac:(discriminate) ltac:(discriminate)
                    ltac:(discriminate)) "1_abc").
Defined.

(** C1 (as stated) fails: on "29-a-b" the result is "a", not the remainder
    "a-b" after the first "-", and the empty identifier, whose prefix is
    none of "29", "55" and "67", yields a value instead of raising. *)
Lemma get_kaltura_id_counterexample :
  get_kaltura_id_or_none (JStr "29-a-b") = ([], Ok "a")
  /\ snd (get_kaltura_id_or_none (JStr "29-a-b")) <> Ok "a-b"
  /\ get_kaltura_id_or_none (JStr "") = ([], Ok "").
Proof.
  split; [reflexivity|]. split; [|reflexivity].
  simpl. discriminate.
Qed.

(* ===================================================================== *)
(** * Primary and secondary manifest resolvers                            *)
(* ===================================================================== *)

Lemma read_from_shape_bind (fields : list (string * json)) :
  (manifest_url <- lift (get (JDict fields) "manifest_url" JNull) ;;
   media_data <- lift (get (JDict fields) "media_id" JNull) ;;
   kaltura_id <- get_kaltura_id_or_none media_data ;;
   ret (manifest_url, kaltura_id))%py
  = read_from_shape fields.
Proof.
  unfold read_from_shape, shape_field. cbn [get lift bind].
  destruct (get_kaltura_id_or_none _) as [t [k|e]]; reflexivity.
Qed.

(** C10: when both the "ongoing_ondemand" and the "ongoing_event" shape of a
    preview response are absent or empty (the key missing or holding the
    empty object; for "ongoing_ondemand" also null), [get_stream_manifest]
    does not raise: it returns a missing manifest URL ([None]) and the empty
    secondary id, since [get_kaltura_id_or_none] maps a missing and an empty
    media identifier to the empty string.  A present "ongoing_ondemand" is
    preferred whatever "ongoing_event" holds: the result is the manifest
    URL of "ongoing_ondemand" and the id its media id routes to; the
    "ongoing_event" shape is read only when "ongoing_ondemand" is absent,
    empty or null.  A null "ongoing_event" that is reached that way is not
    handled: the call raises [AttributeError]. *)
Theorem get_stream_manifest_shapes (top data : list (string * json)) :
  assoc "data" top = Some (JDict data) ->
  (shape_absent_or_empty data "ongoing_ondemand"
   \/ shape_null data "ongoing_ondemand" ->
   (shape_absent_or_empty data "ongoing_event" ->
    get_stream_manifest (JDict top) = ([], Ok (JNull, "")))
   /\ (forall event,
         shape_present data "ongoing_event" event ->
         get_stream_manifest (JDict top) = read_from_shape event)
   /\ (shape_null data "ongoing_event" ->
       get_stream_manifest (JDict top) = ([], Raise AttributeError)))
  /\ get_kaltura_id_or_none JNull = ([], Ok "")
  /\ get_kaltura_id_or_none (JStr "") = ([], Ok "")
  /\ (forall ondemand,
        shape_present data "ongoing_ondemand" ondemand ->
        get_stream_manifest (JDict top) = read_from_shape ondemand).
Proof.
  intros Hd. split; [|split; [|split]]; try reflexivity.
  - intros Ho.
    assert (Hevent : get_stream_manifest (JDict top)
                     = (json_data <- lift (get (JDict data) "ongoing_event"
                                             (JDict [])) ;;
                        manifest_url <- lift (get json_data "manifest_url"
                                                 JNull) ;;
                        media_data <- lift (get json_data "media_id" JNull) ;;
                        kaltura_id <- get_kaltura_id_or_none media_data ;;
                        ret (manifest_url, kaltura_id))%py).
    { unfold get_stream_manifest. cbn [item lift bind]. rewrite Hd.
      cbn [bind get app].
      destruct Ho as [[-> | ->] | ->]; cbn [truthy bind app item];
        rewrite ?Hd; cbn [bind get app lift];
        destruct (match assoc "ongoing_event" data with
                  | Some x => x | None => JDict [] end);
        cbn [get bind app]; try reflexivity;
        destruct (get_kaltura_id_or_none _) as [t [k|e]]; reflexivity. }
    rewrite Hevent. cbn [get lift bind]. split; [|split].
    + intros [-> | ->]; reflexivity.
    + intros event [-> Hne]. cbn [bind app].
      rewrite <- read_from_shape_bind. cbn [get lift bind].
      destruct (get_kaltura_id_or_none _) as [t [k|e]]; reflexivity.
    + intros ->. reflexivity.
  - intros ondemand [Ho Hne]. unfold get_stream_manifest.
    cbn [item lift bind assoc]. rewrite Hd. cbn [bind get app].
    rewrite Ho. destruct ondemand as [|f fs]; [congruence|].
    cbn [truthy ret bind app]. rewrite <- read_from_shape_bind.
    cbn [get lift bind].
    destruct (get_kaltura_id_or_none _) as [t [k|e]]; reflexivity.
Qed.

Lemma get_stream_manifest_shapes_witness :
  get_stream_manifest
    (preview [("ongoing_ondemand", JDict sample_ondemand);
              ("ongoing_event", JDict sample_event)])
  = ([], Ok (JStr "https://yle/ondemand.m3u8", "1_a"))
  /\ get_stream_manifest (preview [("ongoing_event", JDict sample_event)])
     = ([], Ok (JStr "https://yle/event.m3u8", ""))
  /\ get_stream_manifest (preview [("ongoing_ondemand", JDict [])])
     = ([], Ok (JNull, ""))
  /\ get_stream_manifest (preview [("ongoing_event", JNull)])
     = ([], Raise AttributeError).
Proof.
  split; [|split; [|split]].
  - apply (proj2 (proj2 (proj2 (get_stream_manifest_shapes
             [("data", JDict [("ongoing_ondemand", JDict sample_ondemand);
                              ("ongoing_event", JDict sample_event)])]
             [("ongoing_ondemand", JDict sample_ondemand);
              ("ongoing_event", JDict sample_event)] eq_refl)))
             sample_ondemand).
    split; [reflexivity | discriminate].
  - apply (proj1 (proj2 (proj1 (get_stream_manifest_shapes
             [("data", JDict [("ongoing_event", JDict sample_event)])]
             [("ongoing_event", JDict sample_event)] eq_refl)
             (or_introl (or_introl eq_refl)))) sample_event).
    split; [reflexivity | discriminate].
  - apply (proj1 (proj1 (get_stream_manifest_shapes
             [("data", JDict [("ongoing_ondemand", JDict [])])]
             [("ongoing_ondemand", JDict [])] eq_refl)
             (or_introl (or_intror eq_refl)))).
    left. reflexivity.
  - apply (proj2 (proj2 (proj1 (get_stream_manifest_shapes
             [("data", JDict [("ongoing_event", JNull)])]
             [("ongoing_event", JNull)] eq_refl)
             (or_introl (or_introl eq_refl))))).
    reflexivity.
Defined.

Lemma first_source_skip (t : Z) (pre rest : list json) :
  Forall is_object pre ->
  Forall (fun s => has_profile t s = false) pre ->
  first_source (Some t) (pre ++ rest) = first_source (Some t) rest.
Proof.
  induction pre as [|s pre IH]; intros Ho Hn; [reflexivity|].
  inversion Ho as [|? ? Hs Ho']; inversion Hn as [|? ? Hp Hn']; subst.
  destruct s; try contradiction. cbn [app first_source get rbind].
  unfold has_profile in Hp. cbn [get] in Hp. rewrite Hp. now apply IH.
Qed.

Lemma first_source_hit (t : Z) (s : json) (rest : list json) :
  is_object s -> has_profile t s = true ->
  first_source (Some t) (s :: rest) = get s "url" JNull.
Proof.
  intros Hs Hp. destruct s; try contradiction.
  cbn [first_source get rbind]. unfold has_profile in Hp. cbn [get] in Hp.
  now rewrite Hp.
Qed.

(** C2: for each of the modes live, download and vod the secondary resolver
    looks for one fixed delivery profile (16231, 14441 and 14471, three
    different constants); it takes the address of the first source of the
    response whose [deliveryProfileId] equals that constant, and when no
    source has it the resolver raises ([StopIteration]) instead of taking
    another source. *)
Theorem get_hd_mpd_stream_manifest_selection
  (site : json) (sources : list json) (mode : string) :
  mode = "live" \/ mode = "download" \/ mode = "vod" ->
  response_sources site sources ->
  Forall is_object sources ->
  exists t,
    target_stream mode = Some t
    /\ t = (if String.eqb mode "live" then 16231
            else if String.eqb mode "download" then 14441 else 14471)
    /\ (forall pre s post,
          sources = (pre ++ s :: post)%list ->
          Forall (fun x => has_profile t x = false) pre ->
          has_profile t s = true ->
          get_hd_mpd_stream_manifest site mode
          = (url <~ get s "url" JNull ;; finish_manifest mode url))
    /\ (Forall (fun x => has_profile t x = false) sources ->
        get_hd_mpd_stream_manifest site mode = Raise StopIteration).
Proof.
  intros Hmode [r [Hr Hs]] Hobj.
  assert (Ht : exists t, target_stream mode = Some t
             /\ t = (if String.eqb mode "live" then 16231
                     else if String.eqb mode "download" then 14441 else 14471)).
  { destruct Hmode as [-> | [-> | ->]]; eexists; split; reflexivity. }
  destruct Ht as [t [Ht Hv]]. exists t. split; [exact Ht|]. split; [exact Hv|].
  unfold get_hd_mpd_stream_manifest. rewrite Hr. cbn [rbind]. rewrite Hs.
  cbn [rbind iter]. rewrite Ht. split.
  - intros pre s post -> Hpre Hhit.
    apply Forall_app in Hobj as [Hopre Hos].
    inversion Hos as [|? ? Hobjs _]; subst.
    rewrite first_source_skip, first_source_hit by assumption.
    unfold finish_manifest. reflexivity.
  - intros Hnone.
    assert (E : first_source (Some t) sources = Raise StopIteration).
    { rewrite <- (app_nil_r sources).
      now rewrite first_source_skip. }
    now rewrite E.
Qed.

Lemma get_hd_mpd_stream_manifest_selection_witness :
  get_hd_mpd_stream_manifest
    (JList [JDict [];
            JDict [("sources",
                    JList [JDict [("deliveryProfileId", JInt 14441);
                                  ("url", JStr "https://k/a/1_x,1_y/b.mp4")];
                           JDict [("deliveryProfileId", JInt 14471);
                                  ("url", JStr "https://k/first.mpd")];
                           JDict [("deliveryProfileId", JInt 14471);
                                  ("url", JStr "https://k/second.mpd")]])]])
    "vod"
  = Ok (JStr "https://k/first.mpd").
Proof.
  destruct (get_hd_mpd_stream_manifest_selection
    (JList [JDict [];
            JDict [("sources",
                    JList [JDict [("deliveryProfileId", JInt 14441);
                                  ("url", JStr "https://k/a/1_x,1_y/b.mp4")];
                           JDict [("deliveryProfileId", JInt 14471);
                                  ("url", JStr "https://k/first.mpd")];
                           JDict [("deliveryProfileId", JInt 14471);
                                  ("url", JStr "https://k/second.mpd")]])]])
    [JDict [("deliveryProfileId", JInt 14441);
            ("url", JStr "https://k/a/1_x,1_y/b.mp4")];
     JDict [("deliveryProfileId", JInt 14471);
            ("url", JStr "https://k/first.mpd")];
     JDict [("deliveryProfileId", JInt 14471);
            ("url", JStr "https://k/second.mpd")]]
    "vod")
    as [t [_ [Ht [Hsel _]]]].
  - right; right; reflexivity.
  - eexists. split; reflexivity.
  - repeat constructor.
  - cbn in Ht. subst t.
    apply (Hsel [JDict [("deliveryProfileId", JInt 14441);
                        ("url", JStr "https://k/a/1_x,1_y/b.mp4")]]
                (JDict [("deliveryProfileId", JInt 14471);
                        ("url", JStr "https://k/first.mpd")])
                [JDict [("deliveryProfileId", JInt 14471);
                        ("url", JStr "https://k/second.mpd")]]).
    + reflexivity.
    + repeat constructor.
    + reflexivity.
Defined.

(* ===================================================================== *)
(** * Download mode: the flavor list of the manifest address              *)
(* ===================================================================== *)

Lemma free_of_append (c : ascii) (a b : string) :
  free_of c (a ++ b) = free_of c a && free_of c b.
Proof.
  induction a as [|x a IH]; simpl; [reflexivity|].
  now rewrite IH, andb_assoc.
Qed.

(** What follows the run is a suffix of the string, so it holds no comma
    when the string holds none. *)
Lemma span_run_free (s : string) :
  free_of "," s = true -> free_of "," (snd (Flavor.span_run s)) = true.
Proof.
  induction s as [|c s IH]; simpl; [reflexivity|].
  intros H. destruct (Flavor.is_sep c).
  - exact H.
  - apply andb_true_iff in H as [_ H].
    destruct (Flavor.span_run s) as [n r]. simpl in *. auto.
Qed.

Lemma match_len_free (s : string) :
  free_of "," s = true -> Flavor.match_len s = None.
Proof.
  destruct s as [|d s]; [reflexivity|]. simpl. intros H.
  apply andb_true_iff in H as [_ H].
  destruct (Str.is_digit d); [|reflexivity].
  pose proof (span_run_free s H) as Hr.
  destruct (Flavor.span_run s) as [[|n] r]; [reflexivity|].
  destruct r as [|c r]; [reflexivity|]. simpl in Hr.
  destruct c as [[] [] [] [] [] [] [] []]; try reflexivity.
  discriminate.
Qed.

Lemma sub_free (s : string) :
  free_of "," s = true -> Flavor.sub_from 0 s = s.
Proof.
  induction s as [|c s IH]; [reflexivity|]. intros H.
  cbn [Flavor.sub_from]. rewrite (match_len_free _ H).
  simpl in H. apply andb_true_iff in H as [_ H]. now rewrite IH.
Qed.

Lemma sub_skip (a b : string) :
  Flavor.sub_from (String.length a) (a ++ b) = Flavor.sub_from 0 b.
Proof.
  induction a as [|c a IH]; [reflexivity|]. simpl. exact IH.
Qed.

(** Inside a comma-free, slash-terminated prefix a run ends at a slash. *)
Lemma span_run_prefix (p rest : string) :
  p <> "" -> free_of "," p = true -> slash_terminated p = true ->
  exists n r, Flavor.span_run (p ++ rest) = (n, String "/" r).
Proof.
  induction p as [|c p IH]; [congruence|]. intros _ Hf Hs.
  simpl in Hf. apply andb_true_iff in Hf as [Hc Hf].
  cbn [append Flavor.span_run].
  destruct (Flavor.is_sep c) eqn:E.
  - unfold Flavor.is_sep in E. apply negb_true_iff in Hc. rewrite Hc in E.
    simpl in E. apply Ascii.eqb_eq in E. subst c. now exists O, (p ++ rest).
  - destruct p as [|c' p'].
    + simpl in Hs. apply Ascii.eqb_eq in Hs. subst c. discriminate.
    + destruct IH as [n [r Hr]]; [discriminate | exact Hf | exact Hs |].
      rewrite Hr. now exists (S n), r.
Qed.

Lemma sub_prefix (p rest : string) :
  free_of "," p = true -> slash_terminated p = true ->
  Flavor.sub_from 0 (p ++ rest) = p ++ Flavor.sub_from 0 rest.
Proof.
  induction p as [|c p IH]; [reflexivity|]. intros Hf Hs.
  assert (Hf' : free_of "," p = true)
    by (simpl in Hf; now apply andb_true_iff in Hf as [_ Hf]).
  assert (Hm : Flavor.match_len (String c p ++ rest) = None).
  { cbn [append Flavor.match_len]. destruct (Str.is_digit c) eqn:D; [|reflexivity].
    destruct p as [|c' p'].
    - simpl in Hs. apply Ascii.eqb_eq in Hs. subst c. discriminate.
    - destruct (span_run_prefix (String c' p') rest) as [n [r Hr]];
        [discriminate | exact Hf' | exact Hs |].
      rewrite Hr. destruct n; reflexivity. }
  cbn [append Flavor.sub_from] in *. rewrite Hm. f_equal.
  destruct p as [|c' p']; [reflexivity|]. now apply IH.
Qed.

Lemma span_run_token (r rest : string) :
  forallb (fun x => negb (Flavor.is_sep x)) (list_ascii_of_string r) = true ->
  Flavor.span_run (r ++ String "," rest) = (String.length r, String "," rest).
Proof.
  induction r as [|c r IH]; [reflexivity|]. simpl. intros H.
  apply andb_true_iff in H as [Hc H]. apply negb_true_iff in Hc.
  now rewrite Hc, IH.
Qed.

Lemma match_len_token (t rest : string) :
  flavor_token t ->
  Flavor.match_len (t ++ "," ++ rest) = Some (S (String.length t)).
Proof.
  destruct t as [|d [|c r]]; try contradiction. intros [Hd [Hc Hr]].
  cbn [append Flavor.match_len Flavor.span_run]. rewrite Hd, Hc.
  rewrite (span_run_token r rest Hr). reflexivity.
Qed.

Lemma sub_tokens (tokens : list string) (tail : string) :
  Forall flavor_token tokens ->
  Flavor.sub_from 0 (comma_terminated tokens ++ tail) = Flavor.sub_from 0 tail.
Proof.
  induction 1 as [|t tokens Ht _ IH]; [reflexivity|].
  cbn [comma_terminated].
  assert (E : (t ++ "," ++ comma_terminated tokens) ++ tail
              = t ++ "," ++ (comma_terminated tokens ++ tail))
    by (rewrite append_assoc; reflexivity).
  rewrite E. clear E.
  pose proof (match_len_token t (comma_terminated tokens ++ tail) Ht) as Hm.
  rewrite <- IH. set (X := comma_terminated tokens ++ tail) in *.
  destruct t as [|d t']; [contradiction|].
  change (String d t' ++ "," ++ X) with (String d (t' ++ "," ++ X)) in *.
  cbn [Flavor.sub_from]. rewrite Hm. cbn [Nat.pred String.length].
  replace (S (String.length t')) with (String.length (t' ++ ","))
    by (rewrite length_append; simpl; lia).
  rewrite <- append_assoc. apply sub_skip.
Qed.

Lemma strip_keeps_last (pre tail : string) (tokens : list string) :
  free_of "," pre = true -> slash_terminated pre = true ->
  Forall flavor_token tokens -> free_of "," tail = true ->
  Flavor.strip (pre ++ comma_terminated tokens ++ tail) = pre ++ tail.
Proof.
  intros Hp Hs Ht Hl. unfold Flavor.strip.
  now rewrite sub_prefix, sub_tokens, sub_free.
Qed.

(** C7: in download mode the secondary resolver drops every flavor token of
    the selected manifest address but the last.  When the address is a
    comma-free part ending in "/", then flavor tokens each followed by a
    comma, then a comma-free rest that starts with the last token, the
    result is the first part followed by that rest: for
    ".../1005,1006,1007/manifest.mpd" it is ".../1007/manifest.mpd". *)
Theorem download_keeps_last_flavor
  (site : json) (sources : list json) (pre tail : string)
  (tokens : list string) :
  response_sources site sources ->
  first_source (target_stream "download") sources
  = Ok (JStr (pre ++ comma_terminated tokens ++ tail)) ->
  free_of "," pre = true -> slash_terminated pre = true ->
  Forall flavor_token tokens -> free_of "," tail = true ->
  get_hd_mpd_stream_manifest site "download" = Ok (JStr (pre ++ tail)).
Proof.
  intros [r [Hr Hs]] Hsel Hp Hsl Ht Hl.
  unfold get_hd_mpd_stream_manifest. rewrite Hr. cbn [rbind]. rewrite Hs.
  cbn [rbind iter]. rewrite Hsel. cbn [rbind].
  simpl String.eqb. cbn iota. now rewrite strip_keeps_last.
Qed.

Lemma download_keeps_last_flavor_witness :
  get_hd_mpd_stream_manifest
    (JList [JDict [];
            JDict [("sources",
                    JList [JDict [("deliveryProfileId", JInt 14441);
                                  ("url", JStr ".../1005,1006,1007/manifest.mpd")]])]])
    "download"
  = Ok (JStr ".../1007/manifest.mpd").
Proof.
  apply (download_keeps_last_flavor _
           [JDict [("deliveryProfileId", JInt 14441);
                   ("url", JStr ".../1005,1006,1007/manifest.mpd")]]
           ".../" "1007/manifest.mpd" ["1005"; "1006"]).
  - eexists. split; reflexivity.
  - reflexivity.
  - reflexivity.
  - reflexivity.
  - repeat constructor.
  - reflexivity.
Defined.

(* ===================================================================== *)
(** * Alphabetical sequencer                                              *)
(* ===================================================================== *)

Lemma list_index_in (x : string) (l : list string) :
  In x l -> exists i, list_index x l = Ok i.
Proof.
  induction l as [|y l IH]; [contradiction|]. intros H. simpl.
  destruct (String.eqb y x) eqn:E; [eauto|].
  destruct H as [H|H]; [apply String.eqb_neq in E; congruence|].
  destruct (IH H) as [i ->]. simpl. eauto.
Qed.

Lemma sort_keys_ok (categories : list bucket) :
  Forall (fun b => In (b_name b) alphabet) categories ->
  sort_keys categories
  = Ok (map (fun b => (alphabet_position b, b)) categories).
Proof.
  induction 1 as [|b l Hb _ IH]; [reflexivity|].
  cbn [sort_keys map]. unfold alphabet_position at 1.
  destruct (list_index_in _ _ Hb) as [i Hi]. rewrite Hi, IH. reflexivity.
Qed.

Lemma insert_keyed_perm {A} (k : Z) (x : A) (l : list (Z * A)) :
  Permutation (insert_keyed k x l) ((k, x) :: l).
Proof.
  induction l as [|[k' y] l IH]; simpl; [reflexivity|].
  destruct (k <=? k'); [reflexivity|].
  rewrite IH. apply perm_swap.
Qed.

Lemma sort_keyed_perm {A} (l : list (Z * A)) : Permutation (sort_keyed l) l.
Proof.
  induction l as [|[k x] l IH]; simpl; [reflexivity|].
  rewrite insert_keyed_perm. now constructor.
Qed.

Lemma insert_keyed_sorted {A} (k : Z) (x : A) (l : list (Z * A)) :
  Sorted key_le l -> Sorted key_le (insert_keyed k x l).
Proof.
  induction l as [|[k' y] l IH]; intros Hs; simpl.
  - repeat constructor.
  - destruct (k <=? k') eqn:E.
    + constructor; [exact Hs|]. constructor. apply Z.leb_le in E. exact E.
    + apply Z.leb_gt in E. inversion Hs as [|? ? Hs' Hhd]; subst.
      constructor; [now apply IH|].
      destruct l as [|[k'' z] l]; simpl.
      * constructor. unfold key_le; simpl; lia.
      * destruct (k <=? k'').
        -- constructor. unfold key_le; simpl; lia.
        -- inversion Hhd; subst. now constructor.
Qed.

Lemma sort_keyed_sorted {A} (l : list (Z * A)) : Sorted key_le (sort_keyed l).
Proof.
  induction l as [|[k x] l IH]; simpl; [constructor|].
  now apply insert_keyed_sorted.
Qed.

(** Every key of the sorted list is the position of its bucket. *)
Lemma sorted_by_position (l : list (Z * bucket)) :
  Forall (fun p => fst p = alphabet_position (snd p)) l ->
  Sorted key_le l ->
  Sorted (fun a b => alphabet_position a <= alphabet_position b) (map snd l).
Proof.
  induction l as [|[k x] l IH]; intros Hk Hs; simpl; [constructor|].
  inversion Hk as [|? ? Hx Hk']; inversion Hs as [|? ? Hs' Hhd]; subst.
  constructor; [now apply IH|].
  destruct l as [|[k' y] l]; simpl; [constructor|].
  inversion Hhd; inversion Hk'; subst. constructor.
  unfold key_le in *. simpl in *. lia.
Qed.

Lemma assign_offsets_labels (o : Z) (l : list bucket) :
  map bucket_label (assign_offsets o l) = map bucket_label l.
Proof.
  revert o; induction l as [|b l IH]; intros o; [reflexivity|].
  simpl. now rewrite IH.
Qed.

Lemma assign_offsets_positions (o : Z) (l : list bucket) :
  map alphabet_position (assign_offsets o l) = map alphabet_position l.
Proof.
  revert o; induction l as [|b l IH]; intros o; [reflexivity|].
  simpl. now rewrite IH.
Qed.

Lemma assign_offsets_prefix_sums (o : Z) (l : list bucket) (i : nat)
  (b : bucket) :
  nth_error (assign_offsets o l) i = Some b ->
  b_offset (b_api_data b)
  = Some (o + sum_counts (firstn i (assign_offsets o l))).
Proof.
  revert o i; induction l as [|x l IH]; intros o i H.
  - destruct i; discriminate.
  - destruct i as [|i]; simpl in H.
    + injection H as <-. simpl. f_equal. lia.
    + apply IH in H. rewrite H. cbn [assign_offsets firstn sum_counts fold_right].
      fold (sum_counts (firstn i (assign_offsets (o + b_count (b_api_data x)) l))).
      simpl. f_equal. lia.
Qed.

Lemma sorted_map {A B} (f : A -> B) (R : A -> A -> Prop) (S : B -> B -> Prop)
  (l : list A) :
  (forall a b, R a b -> S (f a) (f b)) ->
  Sorted R l -> Sorted S (map f l).
Proof.
  intros HRS. induction 1 as [|a l Hs IH Hhd]; simpl; constructor; auto.
  destruct Hhd; simpl; constructor; auto.
Qed.

(** C6: the Alphabetical Sequencer returns the buckets it was given (names
    and counts unchanged) in the order of the alphabet table, each with a
    pagination offset equal to the sum of the counts of the buckets before
    it in that order; the buckets B:3, A:2, 0-9:1 come out as 0-9, A, B with
    the offsets 0, 1, 3. *)
Theorem sort_alphabetical_categories_offsets (categories : list bucket) :
  Forall (fun b => In (b_name b) alphabet) categories ->
  exists out,
    sort_alphabetical_categories categories = Ok out
    /\ Permutation (map bucket_label out) (map bucket_label categories)
    /\ Sorted Z.le (map alphabet_position out)
    /\ (forall i b, nth_error out i = Some b ->
          b_offset (b_api_data b) = Some (sum_counts (firstn i out)))
    /\ (map bucket_label categories = [("B", 3); ("A", 2); ("0-9", 1)] ->
        map (fun b => (b_name b, b_offset (b_api_data b))) out
        = [("0-9", Some 0); ("A", Some 1); ("B", Some 3)]).
Proof.
  intros Hin. unfold sort_alphabetical_categories.
  rewrite (sort_keys_ok _ Hin). cbn [rbind].
  set (keyed := map (fun b => (alphabet_position b, b)) categories).
  eexists. split; [reflexivity|]. split; [|split; [|split]].
  - rewrite assign_offsets_labels, map_map.
    rewrite (sort_keyed_perm keyed). unfold keyed. rewrite map_map.
    reflexivity.
  - rewrite assign_offsets_positions.
    assert (Hk : Forall (fun p => fst p = alphabet_position (snd p))
                        (sort_keyed keyed)).
    { apply (Permutation_Forall (Permutation_sym (sort_keyed_perm keyed))).
      unfold keyed. apply Forall_forall. intros p Hp.
      apply in_map_iff in Hp as [b [<- _]]. reflexivity. }
    pose proof (sorted_by_position _ Hk (sort_keyed_sorted keyed)) as Hs.
    apply (sorted_map alphabet_position _ Z.le) in Hs; auto.
  - intros i b Hb. now apply assign_offsets_prefix_sums in Hb.
  - intros Hex. destruct categories as [|[n1 [t1 y1 c1 k1 o1]] [|[n2 [t2 y2 c2 k2 o2]]
      [|[n3 [t3 y3 c3 k3 o3]] [|? ?]]]]; try discriminate.
    unfold bucket_label in Hex. simpl in Hex.
    injection Hex as -> -> -> -> -> ->. reflexivity.
Qed.

Lemma sort_alphabetical_categories_offsets_witness :
  exists out,
    sort_alphabetical_categories
      [mk_bucket "B" 3; mk_bucket "A" 2; mk_bucket "0-9" 1] = Ok out
    /\ map (fun b => (b_name b, b_offset (b_api_data b))) out
       = [("0-9", Some 0); ("A", Some 1); ("B", Some 3)].
Proof.
  destruct (sort_alphabetical_categories_offsets
              [mk_bucket "B" 3; mk_bucket "A" 2; mk_bucket "0-9" 1])
    as [out [H1 [_ [_ [_ H5]]]]].
  - repeat constructor; simpl; tauto.
  - exists out. split; [exact H1 | apply H5; reflexivity].
Defined.

(* ===================================================================== *)
(** * Catalog parser: optional fields                                     *)
(* ===================================================================== *)

Lemma handled_bind {A B} (r : res A) (f : A -> res B) :
  handled r -> (forall a, handled (f a)) -> handled (rbind r f).
Proof. destruct r; simpl; auto. Qed.

Lemma handled_try {A} (r : res A) (d : A) :
  handled r -> exists a, try_except r d = Ok a.
Proof.
  destruct r as [a|e]; simpl; [eauto|]. intros ->. eauto.
Qed.

Lemma handled_get (v : json) (k : string) (d : json) : handled (get v k d).
Proof. destruct v; simpl; auto. Qed.

Lemma handled_item (v : json) (k : string) : handled (item v k).
Proof.
  destruct v; simpl; auto. destruct (assoc k kv); simpl; auto.
Qed.

Lemma handled_iter (v : json) : handled (iter v).
Proof. destruct v; simpl; auto. Qed.

Lemma handled_float_of_text (text : string) :
  handled (Iso8601.float_of_text text).
Proof.
  unfold Iso8601.float_of_text.
  destruct (Iso8601.span_digits text) as [d [|c f]]; simpl; auto.
  destruct (Ascii.eqb c "."); simpl; auto.
Qed.

Lemma handled_float_or_zero (g : option string) :
  handled (Iso8601.float_or_zero g).
Proof. destruct g; simpl; auto using handled_float_of_text. Qed.

Lemma handled_get_duration_seconds (v : json) :
  handled (get_duration_seconds v).
Proof.
  destruct v; simpl; auto.
  destruct (Iso8601.match_period s); simpl; auto.
  repeat (apply handled_bind; [apply handled_float_or_zero | intros ?]).
  exact I.
Qed.

Lemma handled_first_duration (l : list json) : handled (first_duration l).
Proof.
  induction l as [|i l IH]; simpl; auto.
  apply handled_bind; [apply handled_get | intros t].
  destruct (py_eq_str t "duration"); [|exact IH].
  apply handled_bind; [apply handled_get | intros ?; exact I].
Qed.

Lemma handled_extract_duration_timestamp (v : json) :
  handled (extract_duration_timestamp v).
Proof.
  unfold extract_duration_timestamp.
  apply handled_bind; [apply handled_iter | intros l].
  apply handled_bind; [apply handled_first_duration | intros [raw|]].
  - apply handled_get_duration_seconds.
  - exact I.
Qed.

Section ParserFacts.

Variable container_str : json -> string.

Lemma entry_image_total (entry : json) :
  exists s, entry_image container_str entry = Ok s.
Proof.
  unfold entry_image. apply handled_try.
  repeat (apply handled_bind; [apply handled_item | intros ?]).
  exact I.
Qed.

Lemma entry_duration_total (entry : json) :
  exists s, entry_duration entry = Ok s.
Proof.
  unfold entry_duration. apply handled_try.
  apply handled_bind; [apply handled_item | intros ?].
  apply handled_extract_duration_timestamp.
Qed.

Lemma entry_image_malformed (kv : list (string * json)) :
  image_malformed kv -> entry_image container_str (JDict kv) = Ok "".
Proof.
  unfold image_malformed, entry_image. cbn [item].
  destruct (assoc "image" kv) as [[| | | | | |i]|]; try reflexivity.
  cbn [rbind item].
  destruct (assoc "version" i); [|reflexivity].
  cbn [rbind]. destruct (assoc "id" i); [|reflexivity].
  intros [H|H]; discriminate.
Qed.

(** Iterating a string or the keys of an object yields strings, on which
    [get] fails. *)
Lemma first_duration_of_strings {X} (f : X -> string) (l : list X) :
  try_except (r <~ first_duration (map (fun x => JStr (f x)) l) ;;
              match r with
              | Some raw => get_duration_seconds raw
              | None => Ok ""
              end) "" = Ok "".
Proof. destruct l; reflexivity. Qed.

Lemma entry_duration_malformed (kv : list (string * json)) :
  labels_malformed kv -> entry_duration (JDict kv) = Ok "".
Proof.
  unfold labels_malformed, entry_duration, extract_duration_timestamp.
  cbn [item].
  destruct (assoc "labels" kv) as [[| | | | s |l|o]|]; try reflexivity.
  - intros _. cbn [rbind iter]. apply first_duration_of_strings.
  - contradiction.
  - intros _. cbn [rbind iter]. apply first_duration_of_strings.
Qed.

Lemma last_segment_ok (u : string) : exists i, last_segment (JStr u) = Ok i.
Proof.
  unfold last_segment, py_split. cbn [rbind]. unfold list_item.
  change (-1 <? 0) with true. cbv iota.
  pose proof (split_nonempty "/" u) as Hne.
  destruct (Str.split "/" u) as [|x l] eqn:E; [congruence|].
  set (n := Z.of_nat (List.length (x :: l))).
  assert (Hn : 1 <= n) by (unfold n; simpl List.length; lia).
  replace ((-1 + n <? 0) || (n <=? -1 + n)) with false.
  - destruct (nth_error (x :: l) (Z.to_nat (-1 + n))) eqn:N; [eauto|].
    apply nth_error_None in N. unfold n in *. simpl List.length in *. lia.
  - symmetry. apply orb_false_iff. split; [apply Z.ltb_ge | apply Z.leb_gt]; lia.
Qed.

(** One entry: the record is built whatever [image] and [labels] hold. *)
Lemma parse_entry_optional_fields (locale : string) (title_prefix : json)
  (entry : json) :
  required_fields_ok locale entry ->
  exists md,
    parse_entry container_str locale title_prefix entry = Ok md
    /\ (image_malformed (fields_of entry) -> md_image md = "")
    /\ (labels_malformed (fields_of entry) -> md_duration md = "").
Proof.
  intros [kv [p [u [-> [Hp [Hu Hloc]]]]]]. unfold parse_entry.
  cbn [get rbind] in *. injection Hp as Hp. injection Hu as Hu.
  rewrite Hp. cbn [get rbind]. rewrite Hu.
  destruct (last_segment_ok u) as [i ->]. cbn [rbind].
  assert (Hid : exists i',
             (if py_eq_str (match assoc "type" p with
                            | Some x => x | None => JStr "" end) "package"
              then match get_package_path locale with
                   | Some path => Ok (path ++ i)
                   | None => Raise TypeError
                   end
              else Ok i) = Ok i').
  { destruct (py_eq_str _ "package"); [|eauto].
    destruct Hloc as [-> | ->]; simpl; eauto. }
  destruct Hid as [i' ->]. cbn [rbind].
  destruct (entry_image_total (JDict kv)) as [img Himg].
  destruct (entry_duration_total (JDict kv)) as [dur Hdur].
  rewrite Himg, Hdur. cbn [rbind]. eexists. split; [reflexivity|].
  cbn [md_image md_duration fields_of]. split; intros Hm.
  - rewrite (entry_image_malformed kv Hm) in Himg. congruence.
  - rewrite (entry_duration_malformed kv Hm) in Hdur. congruence.
Qed.

End ParserFacts.

(** C8: on a content list whose entries are well formed apart from [image]
    and [labels], the Catalog Parser does not raise, whatever those two
    fields hold: it emits one record per entry, and the record of an entry
    whose [image] (or [labels]) is missing, null or of the wrong type has
    the empty string as its image URL (or duration). *)
Theorem get_category_content_optional_fields
  (container_str : json -> string) (locale : string) (title_prefix : json)
  (site : json) (entries : list json) :
  item site "data" = Ok (JList entries) ->
  Forall (required_fields_ok locale) entries ->
  exists records,
    get_category_content container_str site locale title_prefix = Ok records
    /\ Forall2
         (fun entry md =>
            (image_malformed (fields_of entry) -> md_image md = "")
            /\ (labels_malformed (fields_of entry) -> md_duration md = ""))
         entries records.
Proof.
  intros Hd Hreq. unfold get_category_content. rewrite Hd. cbn [rbind iter].
  set (tp := py_or title_prefix (JStr "")). clearbody tp. clear Hd.
  induction Hreq as [|e l He _ IH].
  - exists []. split; [reflexivity | constructor].
  - destruct IH as [records [Hr Hall]].
    destruct (parse_entry_optional_fields container_str locale tp e He)
      as [md [Hmd Hopt]].
    exists (md :: records). cbn [parse_entries]. rewrite Hmd. cbn [rbind].
    rewrite Hr. split; [reflexivity | now constructor].
Qed.

Lemma get_category_content_optional_fields_witness :
  exists records,
    get_category_content (fun _ => "")
      (JDict [("data",
               JList [JDict [("title", JStr "Uutiset");
                             ("pointer",
                              JDict [("type", JStr "program");
                                     ("uri", JStr "yleareena://items/1-50")]);
                             ("image", JNull);
                             ("labels", JStr "PT45S")]])])
      "fi" JNull = Ok records
    /\ map (fun md => (md_image md, md_duration md)) records = [("", "")].
Proof.
  destruct (get_category_content_optional_fields (fun _ => "") "fi" JNull
    (JDict [("data",
               JList [JDict [("title", JStr "Uutiset");
                             ("pointer",
                              JDict [("type", JStr "program");
                                     ("uri", JStr "yleareena://items/1-50")]);
                             ("image", JNull);
                             ("labels", JStr "PT45S")]])])
    [JDict [("title", JStr "Uutiset");
            ("pointer",
             JDict [("type", JStr "program");
                    ("uri", JStr "yleareena://items/1-50")]);
            ("image", JNull);
            ("labels", JStr "PT45S")]])
    as [records [Hr Hall]].
  - reflexivity.
  - repeat constructor. eexists _, _, _.
    split; [reflexivity|]. split; [reflexivity|]. split; [reflexivity|].
    left; reflexivity.
  - exists records. split; [exact Hr|].
    inversion Hall as [|? md ? rest [Hi Hl] Hrest]; subst.
    inversion Hrest; subst. cbn [map].
    rewrite (Hi I), (Hl I). reflexivity.
Defined.

(* ===================================================================== *)
(** * Stream resolution orchestrator                                      *)
(* ===================================================================== *)

Section Orchestrator.

Variable container_str : json -> string.
Variable http_get : string -> res json.
Variable http_post : string -> json -> res json.

Let get_hls := get_hls_stream_manifest http_get http_post.
Let get_mpd := get_mpd_stream_manifest container_str http_get http_post.
Let get_vod := get_vod_stream_manifest container_str http_get http_post.

Lemma nonempty_true (s : string) : s <> "" -> nonempty s = true.
Proof. intros H. apply negb_true_iff. now apply String.eqb_neq. Qed.

(** The secondary resolver sends one request: the multirequest payload for
    the given id. *)
Lemma get_mpd_request (kaltura_id mode : string) :
  fst (get_mpd kaltura_id mode)
  = [HttpPost (get_api_url "multirequest") (get_api_payload kaltura_id)].
Proof.
  unfold get_mpd, get_mpd_stream_manifest, get_url_response.
  cbn [truthy get_api_payload bind].
  destruct (http_post _ _) as [site|e]; [|reflexivity].
  unfold lift. cbn [bind].
  destruct (get_hd_mpd_stream_manifest site mode) as [m|e]; [|reflexivity].
  cbn [bind app]. destruct (String.eqb mode "download"); [|reflexivity].
  cbn [bind]. destruct (get_subtitles container_str site); reflexivity.
Qed.

Lemma vod_with_known_id (yle_id kaltura_id mode : string) :
  kaltura_id <> "" ->
  get_vod yle_id kaltura_id mode = as_mpd (get_mpd kaltura_id mode).
Proof.
  intros Hk. unfold get_vod, get_vod_stream_manifest, as_mpd.
  fold get_mpd.
  rewrite (nonempty_true _ Hk). cbn [negb ret bind l_kaltura_id].
  rewrite (nonempty_true _ Hk).
  destruct (get_mpd kaltura_id mode) as [t [[m s]|e]]; unfold ret; simpl;
    rewrite ?app_nil_r; reflexivity.
Qed.

Lemma vod_with_returned_id (yle_id mode : string) (t : list event)
  (m : json) (kid : string) :
  get_hls yle_id = (t, Ok (m, kid)) -> kid <> "" ->
  get_vod yle_id "" mode
  = bind (t, Ok tt) (fun _ => as_mpd (get_mpd kid mode)).
Proof.
  intros Hh Hk. unfold get_vod, get_vod_stream_manifest, as_mpd.
  fold get_mpd get_hls.
  cbn [nonempty String.eqb negb]. rewrite Hh.
  cbn [bind ret fst snd l_kaltura_id app]. rewrite (nonempty_true _ Hk).
  destruct (get_mpd kid mode) as [t' [[m' s]|e]]; unfold ret; simpl;
    rewrite ?app_nil_r; reflexivity.
Qed.

Lemma vod_without_id (yle_id mode : string) (t : list event) (m : json) :
  get_hls yle_id = (t, Ok (m, "")) ->
  get_vod yle_id "" mode = (t, Ok (m, "hls", Some [])).
Proof.
  intros Hh. unfold get_vod, get_vod_stream_manifest.
  fold get_mpd get_hls.
  cbn [nonempty String.eqb negb]. rewrite Hh.
  unfold ret. simpl. now rewrite !app_nil_r.
Qed.

End Orchestrator.

(** C4: when [get_vod_stream_manifest] is given a non-empty secondary id it
    asks only the secondary resolver, with that id and the mode, and returns
    its manifest with the format "mpd"; when it is given none and the
    primary resolver returns one, it asks the secondary resolver with the
    returned id and the mode, and the secondary manifest and "mpd" replace
    the primary result; only when no id is given and none is returned is
    the result the primary manifest with the format "hls".  The secondary
    resolver is asked by one POST of the payload for that id. *)
Theorem get_vod_stream_manifest_supersedes
  (container_str : json -> string) (http_get : string -> res json)
  (http_post : string -> json -> res json) (yle_id mode : string) :
  (forall kaltura_id, kaltura_id <> "" ->
     get_vod_stream_manifest container_str http_get http_post
       yle_id kaltura_id mode
     = as_mpd (get_mpd_stream_manifest container_str http_get http_post
                 kaltura_id mode))
  /\ (forall t m kid,
        get_hls_stream_manifest http_get http_post yle_id = (t, Ok (m, kid)) ->
        kid <> "" ->
        get_vod_stream_manifest container_str http_get http_post
          yle_id "" mode
        = bind (t, Ok tt)
            (fun _ => as_mpd (get_mpd_stream_manifest container_str
                                http_get http_post kid mode)))
  /\ (forall t m,
        get_hls_stream_manifest http_get http_post yle_id = (t, Ok (m, "")) ->
        get_vod_stream_manifest container_str http_get http_post
          yle_id "" mode
        = (t, Ok (m, "hls", Some [])))
  /\ (forall kid,
        fst (get_mpd_stream_manifest container_str http_get http_post kid mode)
        = [HttpPost (get_api_url "multirequest") (get_api_payload kid)]).
Proof.
  split; [|split; [|split]].
  - intros. now apply vod_with_known_id.
  - intros. now apply vod_with_returned_id with (m := m).
  - intros. now apply vod_without_id.
  - intros. apply get_mpd_request.
Qed.

Lemma get_vod_stream_manifest_supersedes_witness :
  get_vod_stream_manifest (fun _ => "") (sample_preview "55-1_a")
    sample_kaltura "1-50" "" "vod"
  = ([HttpGet (get_api_stream_url "1-50")],
     Ok (JStr "https://yle/master.m3u8", "hls", Some []))
  /\ get_vod_stream_manifest (fun _ => "") (sample_preview "29-1_a")
       sample_kaltura "1-50" "" "vod"
     = ([HttpGet (get_api_stream_url "1-50");
         HttpPost (get_api_url "multirequest") (get_api_payload "1_a")],
        Ok (JStr "https://k/manifest.mpd", "mpd", None))
  /\ get_vod_stream_manifest (fun _ => "") (sample_preview "29-1_a")
       sample_kaltura "1-50" "1_b" "vod"
     = ([HttpPost (get_api_url "multirequest") (get_api_payload "1_b")],
        Ok (JStr "https://k/manifest.mpd", "mpd", None)).
Proof.
  split; [|split].
  - apply (proj1 (proj2 (proj2 (get_vod_stream_manifest_supersedes
             (fun _ => "") (sample_preview "55-1_a") sample_kaltura
             "1-50" "vod")))).
    reflexivity.
  - rewrite (proj1 (proj2 (get_vod_stream_manifest_supersedes
               (fun _ => "") (sample_preview "29-1_a") sample_kaltura
               "1-50" "vod"))
               [HttpGet (get_api_stream_url "1-50")]
               (JStr "https://yle/master.m3u8") "1_a" eq_refl);
      [reflexivity | discriminate].
  - rewrite (proj1 (get_vod_stream_manifest_supersedes
               (fun _ => "") (sample_preview "29-1_a") sample_kaltura
               "1-50" "vod") "1_b"); [reflexivity | discriminate].
Defined.

(* ===================================================================== *)
(** * Exact float arithmetic on small integers                            *)
(* ===================================================================== *)

Lemma shl_spec (c : positive) (k : Z) :
  0 <= k -> Zpos (shl c k) = Zpos c * 2 ^ k.
Proof.
  destruct k as [|p|p]; [simpl; lia | | lia]. intros _. unfold shl.
  induction p using Pos.peano_ind.
  - simpl. lia.
  - rewrite Pos.iter_succ, Pos2Z.inj_xO, IHp, Pos2Z.inj_succ, Z.pow_succ_r; lia.
Qed.

Lemma bits_shl (c : positive) (k : Z) :
  0 <= k -> bits (shl c k) = bits c + k.
Proof.
  destruct k as [|p|p]; [simpl; lia | | lia]. intros _. unfold shl, bits.
  induction p using Pos.peano_ind.
  - simpl. lia.
  - rewrite Pos.iter_succ. cbn [digits2_pos].
    rewrite Pos2Z.inj_succ, IHp, Pos2Z.inj_succ. lia.
Qed.

Lemma bits_bounds (p : positive) :
  2 ^ (bits p - 1) <= Zpos p < 2 ^ bits p.
Proof.
  unfold bits. induction p as [p IH|p IH|]; cbn [digits2_pos].
  - rewrite Pos2Z.inj_succ, Pos2Z.inj_xI.
    replace (Z.succ (Zpos (digits2_pos p)) - 1)
      with (Z.succ (Zpos (digits2_pos p) - 1)) by lia.
    rewrite !Z.pow_succ_r by lia. lia.
  - rewrite Pos2Z.inj_succ. change (Zpos p~0) with (2 * Zpos p).
    replace (Z.succ (Zpos (digits2_pos p)) - 1)
      with (Z.succ (Zpos (digits2_pos p) - 1)) by lia.
    rewrite !Z.pow_succ_r by lia. lia.
  - simpl. lia.
Qed.

Lemma bits_pos (p : positive) : 1 <= bits p.
Proof. unfold bits. lia. Qed.

(** The number of digits is fixed by the interval of powers of two. *)
Lemma bits_unique (p : positive) (k : Z) :
  2 ^ (k - 1) <= Zpos p < 2 ^ k -> bits p = k.
Proof.
  intros [Hl Hu]. pose proof (bits_bounds p) as [Bl Bu].
  pose proof (bits_pos p).
  assert (0 <= k).
  { destruct (Z_lt_le_dec k 0) as [Hk|Hk]; [|exact Hk].
    rewrite (Z.pow_neg_r 2 k Hk) in Hu. lia. }
  assert (k - 1 < bits p) by (apply (Z.pow_lt_mono_r_iff 2); lia).
  assert (bits p - 1 < k) by (apply (Z.pow_lt_mono_r_iff 2); lia).
  lia.
Qed.

Lemma bits_le_53 (p : positive) : Zpos p < 2 ^ 53 -> bits p <= 53.
Proof.
  intros H. pose proof (bits_bounds p) as [Bl _]. pose proof (bits_pos p).
  assert (bits p - 1 < 53) by (apply (Z.pow_lt_mono_r_iff 2); lia).
  lia.
Qed.

Lemma iter_pos_iter {A} (f : A -> A) (n : positive) (x : A) :
  iter_pos f n x = Pos.iter f x n.
Proof.
  revert x; induction n as [n IH|n IH|]; intros x; cbn [iter_pos Pos.iter].
  - rewrite !IH. now rewrite <- !Pos.iter_swap.
  - now rewrite !IH.
  - reflexivity.
Qed.

(** Shifting out zero bits loses nothing. *)
Lemma shr_exact (c : positive) (n : positive) :
  iter_pos shr_1 n
    {| shr_m := Zpos (Pos.iter xO c n); shr_r := false; shr_s := false |}
  = {| shr_m := Zpos c; shr_r := false; shr_s := false |}.
Proof.
  rewrite iter_pos_iter. induction n using Pos.peano_ind.
  - reflexivity.
  - rewrite Pos.iter_succ_r. rewrite Pos.iter_succ. cbn [shr_1 orb]. exact IHn.
Qed.

Lemma fexp_normal (e : Z) :
  -1021 <= e -> fexp Float.prec Float.emax e = e - 53.
Proof. unfold fexp, emin, Float.prec, Float.emax. lia. Qed.

(** Rounding a mantissa of 53 digits followed by [k] zero bits is exact. *)
Lemma round_exact (c : positive) (k e : Z) :
  bits c = 53 -> 0 <= k -> -1074 <= e + k <= 971 ->
  binary_round_aux Float.prec Float.emax false (Zpos (shl c k)) e loc_Exact
  = S754_finite false c (e + k).
Proof.
  intros Hc Hk He. unfold binary_round_aux, shr_fexp.
  assert (D : Zdigits2 (Zpos (shl c k)) = 53 + k).
  { change (Zdigits2 (Zpos (shl c k))) with (bits (shl c k)).
    rewrite bits_shl by assumption. lia. }
  rewrite D, fexp_normal by lia.
  replace (53 + k + e - 53 - e) with k by lia.
  assert (S1 : shr (shr_record_of_loc (Zpos (shl c k)) loc_Exact) e k
               = ({| shr_m := Zpos c; shr_r := false; shr_s := false |},
                  e + k)).
  { destruct k as [|p|p]; [|simpl; now rewrite shr_exact|lia].
    simpl. now rewrite Z.add_0_r. }
  rewrite S1. cbn [shr_m loc_of_shr_record round_nearest_even].
  change (Zdigits2 (Zpos c)) with (bits c). rewrite Hc, fexp_normal by lia.
  replace (53 + (e + k) - 53 - (e + k)) with 0 by lia.
  cbn [shr shr_record_of_loc shr_m].
  replace (e + k <=? Float.emax - Float.prec) with true; [reflexivity|].
  symmetry. apply Z.leb_le. unfold Float.emax, Float.prec. lia.
Qed.

(** A mantissa that is [p * 2^j] with [bits p <= 53] rounds to [canon p]
    scaled by the exponent. *)
Lemma round_scaled (p m : positive) (j e : Z) :
  Zpos m = Zpos p * 2 ^ j -> 53 - bits p <= j -> Zpos p < 2 ^ 53 ->
  e + j = 0 ->
  binary_round_aux Float.prec Float.emax false (Zpos m) e loc_Exact = canon p.
Proof.
  intros Hm Hj Hp He. pose proof (bits_le_53 p Hp) as Hb.
  pose proof (bits_pos p) as Hb1.
  set (c := shl p (53 - bits p)).
  assert (Hc : bits c = 53) by (unfold c; rewrite bits_shl; lia).
  assert (Hmc : m = shl c (j - (53 - bits p))).
  { apply Pos2Z.inj. rewrite shl_spec by lia. unfold c.
    rewrite shl_spec by lia. rewrite Hm, <- Z.mul_assoc, <- Z.pow_add_r by lia.
    f_equal. f_equal. lia. }
  rewrite Hmc, round_exact by lia. unfold canon. fold c. f_equal. lia.
Qed.

Lemma shiftl_pos (p : positive) (k : Z) :
  0 <= k -> Z.shiftl (Zpos p) k = Zpos (shl p k).
Proof.
  intros Hk. rewrite Z.shiftl_mul_pow2, shl_spec by assumption. reflexivity.
Qed.

Lemma div_eucl_1 (a : Z) : Z.div_eucl a 1 = (a, 0).
Proof.
  pose proof (Z.div_1_r a) as Hq. pose proof (Z.mod_1_r a) as Hr.
  unfold Z.div, Z.modulo in *. destruct (Z.div_eucl a 1); simpl in *.
  congruence.
Qed.

(** [float(n)] for [0 < n < 2^53]. *)
Lemma of_Z_canon (p : positive) :
  Zpos p < 2 ^ 53 -> Float.of_Z (Zpos p) = canon p.
Proof.
  intros Hp. pose proof (bits_le_53 p Hp) as Hb. pose proof (bits_pos p) as Hb1.
  unfold Float.of_Z, Float.of_ratio. cbn [Z.leb Z.compare].
  unfold SFdiv_core_binary.
  change (Zdigits2 (Zpos p)) with (bits p).
  change (Zdigits2 1) with 1.
  replace (Z.min (fexp Float.prec Float.emax (bits p + 0 - (1 + 0))) (0 - 0))
    with (bits p - 54)
    by (unfold fexp, emin, Float.prec, Float.emax; lia).
  replace (0 - 0 - (bits p - 54)) with (54 - bits p) by lia.
  destruct (54 - bits p) as [|s|s] eqn:Es; [lia| |lia].
  rewrite <- Es, shiftl_pos, div_eucl_1 by lia.
  change (new_location 1 0) with loc_Exact.
  apply (round_scaled p _ (54 - bits p)); try lia.
  apply shl_spec. lia.
Qed.

Lemma of_Z_zero : Float.of_Z 0 = S754_zero false.
Proof. reflexivity. Qed.

Lemma mul_canon (a b : positive) :
  Zpos (a * b) < 2 ^ 53 -> Float.mul (canon a) (canon b) = canon (a * b).
Proof.
  intros Hab.
  pose proof (bits_bounds a) as [Al Au]. pose proof (bits_bounds b) as [Bl Bu].
  pose proof (bits_bounds (a * b)) as [Pl Pu].
  pose proof (bits_pos a). pose proof (bits_pos b). pose proof (bits_pos (a * b)).
  pose proof (bits_le_53 _ Hab) as Hb.
  assert (Ha : Zpos a < 2 ^ 53) by nia.
  assert (Hb' : Zpos b < 2 ^ 53) by nia.
  pose proof (bits_le_53 _ Ha). pose proof (bits_le_53 _ Hb').
  assert (Hd : bits a + bits b - 1 <= bits (a * b)).
  { assert (bits a + bits b - 2 < bits (a * b)); [|lia].
    apply (Z.pow_lt_mono_r_iff 2); [lia | lia |].
    replace (bits a + bits b - 2) with ((bits a - 1) + (bits b - 1)) by lia.
    rewrite Z.pow_add_r by lia. rewrite Pos2Z.inj_mul in Pu. nia. }
  unfold Float.mul, canon at 1 2, SFmul. cbn [xorb].
  apply (round_scaled (a * b) _ (106 - bits a - bits b)); try lia.
  rewrite Pos2Z.inj_mul, !shl_spec by lia. rewrite Pos2Z.inj_mul.
  replace (106 - bits a - bits b) with ((53 - bits a) + (53 - bits b)) by lia.
  rewrite Z.pow_add_r by lia. ring.
Qed.

Lemma shl_align_fst (m : positive) (e ez : Z) :
  ez <= e -> Zpos (fst (shl_align m e ez)) = Zpos m * 2 ^ (e - ez).
Proof.
  intros H. unfold shl_align. destruct (ez - e) as [|d|d] eqn:E.
  - cbn [fst]. replace (e - ez) with 0 by lia. simpl. lia.
  - lia.
  - cbn [fst]. replace (e - ez) with (Zpos d) by lia.
    change (Pos.iter xO m d) with (shl m (Zpos d)). apply shl_spec. lia.
Qed.

Lemma shl_align_skip (m : positive) (e e' : Z) :
  e <= e' -> shl_align m e e' = (m, e).
Proof.
  intros H. unfold shl_align. destruct (e' - e) eqn:E; try reflexivity. lia.
Qed.

Lemma add_canon (a b : positive) :
  Zpos (a + b) < 2 ^ 53 -> Float.add (canon a) (canon b) = canon (a + b).
Proof.
  intros Hab.
  pose proof (bits_bounds a) as [Al Au]. pose proof (bits_bounds b) as [Bl Bu].
  pose proof (bits_bounds (a + b)) as [Pl Pu].
  pose proof (bits_pos a). pose proof (bits_pos b). pose proof (bits_pos (a + b)).
  pose proof (bits_le_53 _ Hab) as Hb.
  assert (Ha : Zpos a < 2 ^ 53) by lia.
  assert (Hb' : Zpos b < 2 ^ 53) by lia.
  pose proof (bits_le_53 _ Ha). pose proof (bits_le_53 _ Hb').
  assert (Hda : bits a <= bits (a + b)).
  { assert (bits a - 1 < bits (a + b)); [|lia].
    apply (Z.pow_lt_mono_r_iff 2); lia. }
  assert (Hdb : bits b <= bits (a + b)).
  { assert (bits b - 1 < bits (a + b)); [|lia].
    apply (Z.pow_lt_mono_r_iff 2); lia. }
  unfold Float.add, canon at 1 2, SFadd. cbn [cond_Zopp].
  set (ea := bits a - 53). set (eb := bits b - 53).
  set (ez := Z.min ea eb).
  set (ma := shl a (53 - bits a)). set (mb := shl b (53 - bits b)).
  assert (Hsum : Zpos (fst (shl_align ma ea ez)) + Zpos (fst (shl_align mb eb ez))
                 = Zpos (a + b) * 2 ^ (- ez)).
  { rewrite !shl_align_fst by (unfold ez; lia). unfold ma, mb.
    rewrite !shl_spec by lia. rewrite <- !Z.mul_assoc, <- !Z.pow_add_r by
      (unfold ea, eb, ez; lia).
    replace (53 - bits a + (ea - ez)) with (- ez) by (unfold ea; lia).
    replace (53 - bits b + (eb - ez)) with (- ez) by (unfold eb; lia).
    rewrite Pos2Z.inj_add. ring. }
  destruct (Zpos (fst (shl_align ma ea ez)) + Zpos (fst (shl_align mb eb ez)))
    as [|s|s] eqn:Es; [lia| |lia].
  unfold binary_normalize, binary_round.
  assert (Hbits : bits s = bits (a + b) - ez).
  { apply bits_unique. rewrite Hsum.
    replace (bits (a + b) - ez - 1) with ((bits (a + b) - 1) + (- ez))
      by lia.
    replace (bits (a + b) - ez) with (bits (a + b) + (- ez)) by lia.
    rewrite !Z.pow_add_r by (unfold ez, ea, eb; lia).
    assert (0 < 2 ^ (- ez)) by (apply Z.pow_pos_nonneg; unfold ez, ea, eb; lia).
    nia. }
  change (Zpos (digits2_pos s)) with (bits s). rewrite Hbits.
  replace (bits (a + b) - ez + ez) with (bits (a + b)) by lia.
  rewrite fexp_normal by lia.
  rewrite shl_align_skip by (unfold ez, ea, eb; lia).
  apply (round_scaled (a + b) _ (- ez)); lia.
Qed.

Lemma dec_0 : Float.dec 0 = "0".
Proof. reflexivity. Qed.

(** [repr] of a small integer. *)
Lemma repr_canon (p : positive) :
  Zpos p < 2 ^ 53 -> Float.repr (canon p) = Float.dec (Zpos p) ++ ".0".
Proof.
  intros Hp. pose proof (bits_le_53 p Hp) as Hb. pose proof (bits_pos p) as Hb1.
  unfold Float.repr, canon, Float.to_ratio.
  set (m := shl p (53 - bits p)).
  assert (Hm : Zpos m = Zpos p * 2 ^ (53 - bits p))
    by (unfold m; apply shl_spec; lia).
  assert (P2 : 0 < 2 ^ (53 - bits p)) by (apply Z.pow_pos_nonneg; lia).
  assert (L : Zpos p < 10 ^ 16) by (change (2 ^ 53) with 9007199254740992 in Hp;
                                    change (10 ^ 16) with 10000000000000000; lia).
  destruct (0 <=? bits p - 53) eqn:E.
  - apply Z.leb_le in E. assert (bits p = 53) by lia.
    replace (bits p - 53) with 0 by lia.
    replace (53 - bits p) with 0 in Hm by lia.
    change (2 ^ 0) with 1 in *. rewrite !Z.mul_1_r in *.
    unfold Float.repr_pos. rewrite Z.mod_1_r, Z.div_1_r, Hm.
    replace (Zpos p <? 10 ^ 16) with true by (symmetry; now apply Z.ltb_lt).
    reflexivity.
  - replace (- (bits p - 53)) with (53 - bits p) by lia.
    unfold Float.repr_pos. rewrite Hm, Z.mod_mul, Z.div_mul by lia.
    replace (Zpos p <? 10 ^ 16) with true by (symmetry; now apply Z.ltb_lt).
    reflexivity.
Qed.

Lemma mul_exact (a b : Z) :
  0 <= a -> 0 < b < 2 ^ 53 -> a * b < 2 ^ 53 ->
  Float.mul (Float.of_Z a) (Float.of_Z b) = Float.of_Z (a * b).
Proof.
  intros Ha Hb Hab. destruct b as [|b|b]; try lia.
  rewrite (of_Z_canon b) by lia. destruct a as [|a|a]; try lia.
  - reflexivity.
  - rewrite (of_Z_canon a) by nia. change (Zpos a * Zpos b) with (Zpos (a * b)).
    rewrite of_Z_canon by exact Hab. now apply mul_canon.
Qed.

Lemma add_exact (a b : Z) :
  0 <= a -> 0 <= b -> a + b < 2 ^ 53 ->
  Float.add (Float.of_Z a) (Float.of_Z b) = Float.of_Z (a + b).
Proof.
  intros Ha Hb Hab. destruct a as [|a|a]; try lia; destruct b as [|b|b]; try lia.
  - reflexivity.
  - change (0 + Zpos b) with (Zpos b). rewrite (of_Z_canon b) by lia.
    reflexivity.
  - rewrite Z.add_0_r, (of_Z_canon a) by lia. reflexivity.
  - rewrite (of_Z_canon a), (of_Z_canon b) by lia.
    change (Zpos a + Zpos b) with (Zpos (a + b)).
    rewrite of_Z_canon by exact Hab. now apply add_canon.
Qed.

Lemma repr_of_Z (n : Z) :
  0 <= n < 2 ^ 53 -> Float.repr (Float.of_Z n) = Float.dec n ++ ".0".
Proof.
  intros [H0 H1]. destruct n as [|p|p]; try lia.
  - reflexivity.
  - rewrite of_Z_canon by exact H1. now apply repr_canon.
Qed.

(** The digit search gives the same string as the integer case of
    [repr_pos], and the strings Python prints for some sample values. *)
Example repr_search_integers :
  map (fun n => Float.repr_search (Float.of_Z n) n 1)
      [1; 45; 5400; 1000000; 9007199254740991]
  = ["1.0"; "45.0"; "5400.0"; "1000000.0"; "9007199254740991.0"].
Proof. vm_compute. reflexivity. Qed.

Example repr_samples :
  map Float.repr
      [Float.of_ratio 1 10;
       Float.add (Float.of_ratio 1 10) (Float.of_ratio 2 10);
       Float.of_ratio 1 3;
       Float.of_ratio 1 100000;
       Float.of_Z (10 ^ 16);
       Float.of_Z (2 ^ 53 + 1);
       Float.of_ratio 5 (10 ^ 324);
       Float.of_Z (10 ^ 400)]
  = ["0.1"; "0.30000000000000004"; "0.3333333333333333"; "1e-05"; "1e+16";
     "9007199254740992.0"; "5e-324"; "inf"].
Proof. vm_compute. reflexivity. Qed.

(* ===================================================================== *)
(** * The period pattern on well-formed durations                         *)
(* ===================================================================== *)

Lemma span_digits_run (n rest : string) :
  digits_only n = true -> starts_with_digit rest = false ->
  Iso8601.span_digits (n ++ rest) = (n, rest).
Proof.
  intros Hn Hr. induction n as [|c n IH]; cbn [append].
  - destruct rest as [|c r]; [reflexivity|]. cbn [Iso8601.span_digits].
    simpl in Hr. now rewrite Hr.
  - simpl in Hn. apply andb_true_iff in Hn as [Hc Hn].
    cbn [Iso8601.span_digits]. now rewrite Hc, (IH Hn).
Qed.

Lemma all_digits_inv (n : string) :
  all_digits n = true ->
  digits_only n = true
  /\ exists c n', n = String c n' /\ Str.is_digit c = true.
Proof.
  unfold all_digits. intros H. apply andb_true_iff in H as [Hne Hd].
  split; [exact Hd|]. destruct n as [|c n']; [discriminate|].
  simpl in Hd. apply andb_true_iff in Hd as [Hc _]. eauto.
Qed.

Lemma designator_not_digit (x : ascii) (rest : string) :
  is_designator x = true -> starts_with_digit (String x rest) = false.
Proof.
  unfold is_designator. intros H. apply andb_true_iff in H as [H _].
  now apply negb_true_iff in H.
Qed.

Lemma scan_number_hit (t : string) (x : ascii) (rest : string) :
  is_number t -> is_designator x = true ->
  Iso8601.scan_number (t ++ String x rest) = Some (t, String x rest).
Proof.
  intros [i [Hi Ht]] Hx. destruct (all_digits_inv i Hi) as [Hd [c [i' [Ei Hc]]]].
  pose proof (designator_not_digit x rest Hx) as Hnd.
  assert (Hns : Iso8601.is_decimal_sign x = false).
  { unfold is_designator in Hx. apply andb_true_iff in Hx as [_ Hx].
    now apply negb_true_iff in Hx. }
  unfold Iso8601.scan_number. destruct Ht as [-> | [s [f [Hs [Hf ->]]]]].
  - rewrite span_digits_run by assumption. rewrite Ei at 1. now rewrite Hns.
  - destruct (all_digits_inv f Hf) as [Hfd [c' [f' [Ef Hc']]]].
    rewrite append_assoc. cbn [append].
    rewrite span_digits_run; [|assumption|].
    + rewrite Ei at 1. rewrite Hs, span_digits_run by assumption.
      rewrite Ef at 1. reflexivity.
    + simpl. unfold Iso8601.is_decimal_sign in Hs.
      apply orb_true_iff in Hs as [Hs|Hs]; apply Ascii.eqb_eq in Hs;
        subst s; reflexivity.
Qed.

Lemma component_hit (t : string) (x : ascii) (rest : string) :
  is_number t -> is_designator x = true ->
  Iso8601.component x (t ++ String x rest) = (Some t, rest).
Proof.
  intros Ht Hx. unfold Iso8601.component.
  now rewrite scan_number_hit, Ascii.eqb_refl.
Qed.

Lemma component_miss (t : string) (x y : ascii) (rest : string) :
  is_number t -> is_designator y = true -> y <> x ->
  Iso8601.component x (t ++ String y rest) = (None, t ++ String y rest).
Proof.
  intros Ht Hy Hne. unfold Iso8601.component.
  rewrite scan_number_hit by assumption.
  now apply Ascii.eqb_neq in Hne as ->.
Qed.

Lemma component_none (x : ascii) (s : string) :
  starts_with_digit s = false -> Iso8601.component x s = (None, s).
Proof.
  intros H. unfold Iso8601.component, Iso8601.scan_number.
  destruct s as [|c r]; [reflexivity|]. cbn [Iso8601.span_digits].
  simpl in H. now rewrite H.
Qed.

Lemma digits_are_number (n : string) : all_digits n = true -> is_number n.
Proof. intros H. exists n. auto. Qed.

Lemma digits_value_aux_nonneg (n : string) (acc : Z) :
  digits_only n = true -> 0 <= acc -> 0 <= Float.digits_value_aux acc n.
Proof.
  revert acc; induction n as [|c n IH]; intros acc Hn Hacc; [exact Hacc|].
  simpl in Hn. apply andb_true_iff in Hn as [Hc Hn].
  cbn [Float.digits_value_aux]. apply IH; [exact Hn|].
  unfold Str.is_digit in Hc. apply andb_true_iff in Hc as [Hc _].
  apply Nat.leb_le in Hc. lia.
Qed.

Lemma component_value_nonneg (x : option string) :
  digit_component x -> 0 <= component_value x.
Proof.
  destruct x as [n|]; simpl; [|lia]. intros H.
  apply all_digits_inv in H as [H _].
  now apply digits_value_aux_nonneg.
Qed.

Lemma float_or_zero_digits (x : option string) :
  digit_component x ->
  Iso8601.float_or_zero x = Ok (Float.of_Z (component_value x)).
Proof.
  destruct x as [n|]; [|reflexivity]. simpl. intros H.
  apply all_digits_inv in H as [H _]. unfold Iso8601.float_of_text.
  rewrite <- (append_nil_r n) at 1.
  now rewrite span_digits_run.
Qed.

Ltac scan_components :=
  repeat first
    [ rewrite component_hit by (auto using digits_are_number)
    | rewrite component_miss
        by (auto using digits_are_number; discriminate)
    | rewrite component_none by reflexivity ].

(** The pattern reads the hours, minutes and seconds of a time-only
    duration. *)
Lemma match_time_duration (h m s : option string) :
  digit_component h -> digit_component m -> digit_component s ->
  Iso8601.match_period (time_duration h m s)
  = Some (Iso8601.Groups None None None None None (Some "T") h m s).
Proof.
  intros Hh Hm Hs. unfold time_duration, Iso8601.match_period.
  cbn [append Ascii.eqb Bool.eqb orb andb Iso8601.boundary_after_word].
  change (Iso8601.is_word "T") with true. cbn [negb].
  unfold Iso8601.date_component. rewrite !component_none by reflexivity.
  destruct h as [h|], m as [m|], s as [s|]; cbn [with_component] in *;
    scan_components; reflexivity.
Qed.

(** A date-only duration matches, and the time groups stay empty. *)
Lemma match_date_duration (y mo w d : option string) :
  number_component y -> number_component mo ->
  number_component w -> number_component d ->
  y <> None \/ mo <> None \/ w <> None \/ d <> None ->
  exists g, Iso8601.match_period (date_duration y mo w d) = Some g
            /\ Iso8601.g_hours g = None
            /\ Iso8601.g_minutes g = None
            /\ Iso8601.g_seconds g = None.
Proof.
  intros Hy Hmo Hw Hd Hsome.
  set (rest := with_component y "Y" (with_component mo "M"
                 (with_component w "W" (with_component d "D" "")))).
  assert (Hb : Iso8601.boundary_after_word rest = false).
  { assert (Hn : forall t x r, is_number t ->
               Iso8601.boundary_after_word (t ++ String x r) = false).
    { intros t x r [i [Hi Ht]].
      destruct (all_digits_inv i Hi) as [_ [c [i' [-> Hc]]]].
      destruct Ht as [-> | [c' [f [_ [_ ->]]]]]; simpl;
        unfold Iso8601.is_word; now rewrite Hc. }
    unfold rest.
    destruct y as [y|], mo as [mo|], w as [w|], d as [d|];
      cbn [with_component] in *; auto.
    exfalso. destruct Hsome as [H|[H|[H|H]]]; congruence. }
  unfold date_duration, Iso8601.match_period. fold rest.
  cbn [append Ascii.eqb Bool.eqb orb andb]. rewrite Hb.
  unfold Iso8601.date_component, rest.
  destruct y as [y|], mo as [mo|], w as [w|], d as [d|];
    cbn [with_component] in *; scan_components;
    cbn [Iso8601.at_end]; eexists; (split; [reflexivity|]); auto.
Qed.

(** C5 (amended): for every duration made of "PT" and hours, minutes and
    seconds written as plain digit strings, with a total below 2^53 seconds,
    [get_duration_seconds] returns the exact total as a decimal number
    followed by ".0"; for every duration with only years, months, weeks or
    days (at least one of them) and no time part it returns "0.0";
    "PT1H30M" yields "5400.0" and "PT45S" yields "45.0". *)
Theorem get_duration_seconds_total :
  (forall h m s,
     digit_component h -> digit_component m -> digit_component s ->
     total_seconds h m s < 2 ^ 53 ->
     get_duration_seconds (JStr (time_duration h m s))
     = Ok (Float.dec (total_seconds h m s) ++ ".0"))
  /\ (forall y mo w d,
        number_component y -> number_component mo ->
        number_component w -> number_component d ->
        y <> None \/ mo <> None \/ w <> None \/ d <> None ->
        get_duration_seconds (JStr (date_duration y mo w d)) = Ok "0.0")
  /\ get_duration_seconds (JStr "PT1H30M") = Ok "5400.0"
  /\ get_duration_seconds (JStr "PT45S") = Ok "45.0".
Proof.
  split; [|split; [|split]].
  - intros h m s Hh Hm Hs Htot. unfold get_duration_seconds.
    rewrite match_time_duration by assumption.
    cbn [Iso8601.g_hours Iso8601.g_minutes Iso8601.g_seconds].
    rewrite !float_or_zero_digits by assumption. cbn [rbind].
    pose proof (component_value_nonneg h Hh).
    pose proof (component_value_nonneg m Hm).
    pose proof (component_value_nonneg s Hs).
    unfold total_seconds in *.
    assert (P : 2 ^ 53 = 9007199254740992) by reflexivity.
    rewrite !mul_exact by lia. rewrite !add_exact by lia.
    rewrite repr_of_Z by lia. do 3 f_equal. lia.
  - intros y mo w d Hy Hmo Hw Hd Hsome. unfold get_duration_seconds.
    destruct (match_date_duration y mo w d Hy Hmo Hw Hd Hsome)
      as [g [-> [-> [-> ->]]]].
    reflexivity.
  - reflexivity.
  - reflexivity.
Qed.

Lemma get_duration_seconds_total_witness :
  get_duration_seconds (JStr "PT2H05M09S") = Ok "7509.0"
  /\ get_duration_seconds (JStr "P1,5Y2W") = Ok "0.0".
Proof.
  split.
  - apply (proj1 get_duration_seconds_total (Some "2") (Some "05") (Some "09"));
      try reflexivity.
  - apply (proj1 (proj2 get_duration_seconds_total)
             (Some "1,5") None (Some "2") None).
    + exists "1". split; [reflexivity|]. right. exists ","%char, "5".
      repeat split; reflexivity.
    + exact I.
    + exists "2". split; [reflexivity|]. left. reflexivity.
    + exact I.
    + left. discriminate.
Defined.

(** C5 (as stated) fails: 1.1 hours are 3960 seconds, but the product is
    taken in binary floating point and comes out as 3960.0000000000005; and
    a duration written with a decimal comma, which the pattern accepts,
    makes [float] raise [ValueError]. *)
Lemma get_duration_seconds_counterexample :
  get_duration_seconds (JStr "PT1.1H") = Ok "3960.0000000000005"
  /\ get_duration_seconds (JStr "PT1.1H") <> Ok "3960.0"
  /\ get_duration_seconds (JStr "PT1,5S") = Raise ValueError.
Proof.
  split; [vm_compute; reflexivity|]. split; [|vm_compute; reflexivity].
  vm_compute. discriminate.
Qed.

(* ===================================================================== *)
(** * The listing server answers page queries                             *)
(* ===================================================================== *)

Lemma uint_digits_only (d : Decimal.uint) :
  digits_only (NilEmpty.string_of_uint d) = true.
Proof. induction d; simpl; auto. Qed.

Lemma uint_value_acc (d : Decimal.uint) (acc : positive) :
  Float.digits_value_aux (Zpos acc) (NilEmpty.string_of_uint d)
  = Zpos (Pos.of_uint_acc d acc).
Proof.
  revert acc; induction d; intros acc; cbn [NilEmpty.string_of_uint
    Float.digits_value_aux Pos.of_uint_acc]; [reflexivity| ..];
    match goal with
    | |- Float.digits_value_aux ?z _ = _ =>
        match goal with
        | |- _ = Zpos (Pos.of_uint_acc _ ?q) =>
            replace z with (Zpos q)
              by (set (k := Z.of_nat (nat_of_ascii _)); vm_compute in k;
                  subst k; lia)
        end
    end; apply IHd.
Qed.

Lemma uint_value (d : Decimal.uint) :
  Float.digits_value (NilEmpty.string_of_uint d) = Z.of_N (Pos.of_uint d).
Proof.
  unfold Float.digits_value.
  induction d; cbn [NilEmpty.string_of_uint Float.digits_value_aux Pos.of_uint];
    [reflexivity | exact IHd | ..];
    match goal with
    | |- Float.digits_value_aux ?z _ = Z.of_N (Npos (Pos.of_uint_acc _ ?q)) =>
        replace z with (Zpos q)
          by (set (k := Z.of_nat (nat_of_ascii _)); vm_compute in k;
              subst k; lia)
    end; apply uint_value_acc.
Qed.

(** The decimal text of a natural number is a non-empty digit string that
    reads back as the number. *)
Lemma dec_digits (n : Z) :
  0 <= n ->
  all_digits (Float.dec n) = true /\ Float.digits_value (Float.dec n) = n.
Proof.
  intros Hn. destruct n as [|p|p]; [split; reflexivity | | lia].
  unfold Float.dec. cbn [Z.to_int NilZero.string_of_int].
  unfold NilZero.string_of_uint.
  pose proof (DecimalPos.Unsigned.of_to p) as Hp.
  destruct (Pos.to_uint p) as [|d|d|d|d|d|d|d|d|d|d] eqn:E;
    [discriminate | ..];
    (split; [unfold all_digits; rewrite uint_digits_only; reflexivity
            | rewrite uint_value, Hp; reflexivity]).
Qed.

Lemma starts_with_append (w s : string) : Str.starts_with w (w ++ s) = true.
Proof. apply starts_with_iff. now exists s. Qed.

Lemma listing_server_serves (base_url : string) (db : list json) :
  serves (listing_server base_url db) base_url db.
Proof.
  intros limit offset Hl Ho. unfold listing_server, create_api_query.
  destruct (dec_digits limit) as [Dl Vl]; [lia|].
  destruct (dec_digits offset Ho) as [Do Vo].
  apply all_digits_inv in Dl as [Dl _]. apply all_digits_inv in Do as [Do _].
  rewrite <- append_assoc, starts_with_append, drop_append.
  rewrite span_digits_run by (auto; reflexivity).
  rewrite starts_with_append.
  change 8%nat with (String.length "&offset="). rewrite drop_append.
  rewrite <- (append_nil_r (Float.dec offset)) at 1.
  rewrite span_digits_run by (auto; reflexivity).
  now rewrite Vl, Vo.
Qed.

(* ===================================================================== *)
(** * Pagination aggregator                                               *)
(* ===================================================================== *)

Section Pagination.

Variable container_str : json -> string.
Variable http_get : string -> res json.
Variable http_post : string -> json -> res json.
Variable base_url locale : string.

Let loop := get_extended_content_from container_str http_get http_post.

(** The loop, one turn unfolded. *)
Lemma loop_unfold (ctx : list media_data) (offset total : Z) :
  loop ctx base_url locale offset total
  = if 0 <? total then
      let requested := Z.min total 100 in
      site <- get_url_response http_get http_post
                (create_api_query base_url requested offset) JNull ;;
      cc <- lift (get_query_content container_str site locale) ;;
      count <- lift (int_of_count (snd cc)) ;;
      loop (ctx ++ fst cc)%list base_url locale (offset + requested)
           (Z.min total count - requested)
    else ret ctx.
Proof.
  unfold loop. rewrite get_extended_content_from_equation_1.
  destruct (Z_gt_dec total 0) as [H|H]; simpl.
  - destruct (0 <? total) eqn:E; [reflexivity | apply Z.ltb_ge in E; lia].
  - destruct (0 <? total) eqn:E; [apply Z.ltb_lt in E; lia | reflexivity].
Qed.

Lemma firstn_plus {A} (a b : nat) (l : list A) :
  firstn (a + b) l = (firstn a l ++ firstn b (skipn a l))%list.
Proof.
  revert l; induction a as [|a IH]; intros l; [reflexivity|].
  destruct l as [|x l]; simpl; [now rewrite firstn_nil | now rewrite IH].
Qed.

Lemma parse_entries_window (tp : json) (db : list json)
  (records : list media_data) (n k : nat) :
  parse_entries container_str locale tp db = Ok records ->
  parse_entries container_str locale tp (firstn n (skipn k db))
  = Ok (firstn n (skipn k records)).
Proof.
  revert records n k. induction db as [|e db IH]; intros records n k H.
  - injection H as <-. now rewrite !skipn_nil, !firstn_nil.
  - cbn [parse_entries] in H.
    destruct (parse_entry container_str locale tp e) as [md|] eqn:Hmd;
      [|discriminate].
    cbn [rbind] in H.
    destruct (parse_entries container_str locale tp db) as [mds|] eqn:Hmds;
      [|discriminate].
    injection H as <-. destruct k as [|k].
    + cbn [skipn]. destruct n as [|n]; [reflexivity|].
      cbn [firstn parse_entries]. rewrite Hmd. cbn [rbind].
      specialize (IH mds n O eq_refl). cbn [skipn] in IH. now rewrite IH.
    + cbn [skipn]. now apply IH.
Qed.

Lemma parse_entries_length (tp : json) (db : list json)
  (records : list media_data) :
  parse_entries container_str locale tp db = Ok records ->
  List.length records = List.length db.
Proof.
  revert records. induction db as [|e db IH]; intros records H.
  - now injection H as <-.
  - cbn [parse_entries] in H.
    destruct (parse_entry container_str locale tp e); [|discriminate].
    cbn [rbind] in H.
    destruct (parse_entries container_str locale tp db); [|discriminate].
    injection H as <-. simpl. f_equal. now apply IH.
Qed.

Variable db : list json.
Variable records : list media_data.
Hypothesis Hserve : serves http_get base_url db.
Hypothesis Hparse :
  parse_entries container_str locale (JStr "") db = Ok records.

Let win := window records.

(** One page request against the server, and what the parser reads from
    the page. *)
Lemma fetch_page (limit offset : Z) :
  0 < limit <= 100 -> 0 <= offset ->
  get_url_response http_get http_post
    (create_api_query base_url limit offset) JNull
  = ([HttpGet (create_api_query base_url limit offset)],
     Ok (page db limit offset)).
Proof.
  intros Hl Ho. unfold get_url_response. cbn [truthy].
  now rewrite (Hserve _ _ Hl Ho).
Qed.

Lemma read_page (limit offset : Z) :
  get_query_content container_str (page db limit offset) locale
  = Ok (win offset limit, JInt (Z.of_nat (List.length db))).
Proof.
  unfold get_query_content, get_category_content, page.
  change (item (JDict ?kv) "data") with (Ok (JList (firstn (Z.to_nat limit)
            (skipn (Z.to_nat offset) db)))).
  cbn [rbind iter]. change (py_or JNull (JStr "")) with (JStr "").
  rewrite (parse_entries_window _ _ _ _ _ Hparse). reflexivity.
Qed.

Lemma window_step (offset total r : Z) :
  0 <= offset -> 0 <= r <= total ->
  (win offset r ++ win (offset + r) (total - r))%list
  = win offset total.
Proof.
  intros Ho Hr. unfold win, window.
  replace (Z.to_nat (offset + r)) with (Z.to_nat r + Z.to_nat offset)%nat by lia.
  rewrite <- skipn_skipn.
  replace (Z.to_nat total) with (Z.to_nat r + Z.to_nat (total - r))%nat by lia.
  set (l := skipn (Z.to_nat offset) records).
  rewrite firstn_plus. reflexivity.
Qed.

Lemma window_all (offset total : Z) :
  0 <= offset -> Z.of_nat (List.length db) <= total ->
  win offset total = skipn (Z.to_nat offset) records.
Proof.
  intros Ho Ht. unfold win, window. apply firstn_all2.
  rewrite length_skipn, (parse_entries_length _ _ _ Hparse). lia.
Qed.

(** The loop appends to [ctx] the records from [offset] on, at most [total]
    of them. *)
Lemma loop_result (total : Z) :
  0 <= total ->
  forall ctx offset, 0 <= offset ->
    snd (loop ctx base_url locale offset total)
    = Ok (ctx ++ win offset total)%list.
Proof.
  intros Ht. pattern total. apply Zlt_0_ind; [|exact Ht].
  clear total Ht. intros total IH Ht ctx offset Ho.
  rewrite loop_unfold. destruct (0 <? total) eqn:E.
  - apply Z.ltb_lt in E. cbv zeta.
    set (r := Z.min total 100).
    assert (Hr : 0 < r <= 100) by (unfold r; lia).
    rewrite (fetch_page r offset Hr Ho). unfold lift. cbn [bind].
    rewrite read_page. cbn [bind snd fst int_of_count app].
    set (S := Z.of_nat (List.length db)).
    destruct (loop _ _ _ _ (Z.min total S - r)) as [t res] eqn:Hloop.
    cbn [snd]. replace res with (snd (t, res)) by reflexivity.
    rewrite <- Hloop. clear Hloop t res.
    destruct (Z_le_gt_dec total S) as [Hle|Hgt].
    + (* the server holds at least [total] entries *)
      rewrite Z.min_l by lia. rewrite IH by lia.
      now rewrite <- app_assoc, window_step by lia.
    + rewrite Z.min_r by lia.
      destruct (Z_le_gt_dec S r) as [Hsr|Hsr].
      * (* the page held all that was left *)
        rewrite loop_unfold.
        replace (0 <? S - r) with false by (symmetry; apply Z.ltb_ge; lia).
        cbn [ret snd]. now rewrite !window_all by lia.
      * assert (r = 100) by (unfold r in *; lia).
        rewrite IH by lia. rewrite <- app_assoc, window_step by lia.
        now rewrite !window_all by lia.
  - apply Z.ltb_ge in E. assert (total = 0) by lia. subst.
    unfold win, window. simpl. now rewrite app_nil_r.
Qed.

Lemma loop_no_request (ctx : list media_data) (offset : Z) :
  loop ctx base_url locale offset 0 = ([], Ok ctx).
Proof. rewrite loop_unfold. reflexivity. Qed.

(** A positive total costs at least the request for the first page, and
    nothing more when the server holds no entry. *)
Lemma loop_first_request (ctx : list media_data) (offset total : Z) :
  0 < total -> 0 <= offset ->
  exists rest,
    fst (loop ctx base_url locale offset total)
    = HttpGet (create_api_query base_url (Z.min total 100) offset) :: rest
    /\ (db = [] -> rest = []).
Proof.
  intros Ht Ho. rewrite loop_unfold.
  replace (0 <? total) with true by (symmetry; now apply Z.ltb_lt).
  cbv zeta. set (r := Z.min total 100).
  assert (Hr : 0 < r <= 100) by (unfold r; lia).
  rewrite (fetch_page r offset Hr Ho). unfold lift. cbn [bind].
  rewrite read_page. cbn [bind snd fst int_of_count app].
  destruct (loop _ _ _ _ (Z.min total _ - r)) as [t res] eqn:Hloop.
  exists t. split; [reflexivity|]. intros Hdb. rewrite Hdb in Hloop.
  rewrite loop_unfold in Hloop.
  replace (0 <? Z.min total (Z.of_nat (@List.length json [])) - r)
    with false in Hloop
    by (symmetry; apply Z.ltb_ge; simpl List.length; lia).
  now injection Hloop as <- _.
Qed.

Lemma window_length (offset total : Z) :
  0 <= total -> 0 <= offset <= Z.of_nat (List.length db) ->
  Z.of_nat (List.length (win offset total))
  = Z.min total (Z.of_nat (List.length db) - offset).
Proof.
  intros Ht Ho. unfold win, window.
  rewrite length_firstn, length_skipn, (parse_entries_length _ _ _ Hparse).
  lia.
Qed.

End Pagination.

(** C3 (amended): against a server that holds [server_total] entries and
    answers each page query with the entries from the offset on, at most as
    many as requested, together with [server_total], the Pagination
    Aggregator terminates for every [requested_total >= 0] and returns the
    records from the offset on, at most [requested_total] of them: exactly
    [min(requested_total, server_total - offset)] records, which is
    [min(requested_total, server_total)] from offset 0.  With
    [requested_total = 0] it requests no page; with a positive
    [requested_total] it requests at least the first page, and exactly that
    one page when [server_total = 0]. *)
Theorem get_extended_content_total
  (container_str : json -> string) (http_get : string -> res json)
  (http_post : string -> json -> res json) (base_url locale : string)
  (db : list json) (records : list media_data) (offset total : Z) :
  serves http_get base_url db ->
  parse_entries container_str locale (JStr "") db = Ok records ->
  0 <= total -> 0 <= offset <= Z.of_nat (List.length db) ->
  exists t out,
    get_extended_content container_str http_get http_post
      base_url locale offset total = (t, Ok out)
    /\ out = window records offset total
    /\ Z.of_nat (List.length out)
       = Z.min total (Z.of_nat (List.length db) - offset)
    /\ (total = 0 -> t = [])
    /\ (0 < total ->
        exists rest,
          t = HttpGet (create_api_query base_url (Z.min total 100) offset)
              :: rest
          /\ (db = [] -> rest = [])).
Proof.
  intros Hserve Hparse Ht Ho. unfold get_extended_content.
  pose proof (loop_result container_str http_get http_post base_url locale
                db records Hserve Hparse total Ht [] offset (proj1 Ho)) as Hres.
  destruct (get_extended_content_from container_str http_get http_post []
              base_url locale offset total) as [t res] eqn:Hloop.
  cbn [snd app] in Hres. subst res.
  exists t, (window records offset total). split; [reflexivity|].
  split; [reflexivity|]. split; [|split].
  - now apply (window_length container_str locale db records Hparse).
  - intros ->. rewrite loop_no_request in Hloop. now injection Hloop as <-.
  - intros Hpos.
    destruct (loop_first_request container_str http_get http_post base_url
                locale db records Hserve Hparse [] offset total Hpos (proj1 Ho))
      as [rest [Hfst Hrest]].
    rewrite Hloop in Hfst. cbn [fst] in Hfst. now exists rest.
Qed.

Lemma get_extended_content_total_witness :
  let base_url := "https://areena.api.yle.fi/v1/ui/content/list?token=t" in
  let db := map sample_entry (seq 0 120) in
  exists t out,
    get_extended_content (fun _ => "") (listing_server base_url db)
      (fun _ _ => Raise HTTPError) base_url "fi" 0 250 = (t, Ok out)
    /\ Z.of_nat (List.length out) = 120
    /\ t = [HttpGet (base_url ++ "&limit=100&offset=0");
            HttpGet (base_url ++ "&limit=20&offset=100")].
Proof.
  intros base_url db.
  assert (Hparse : parse_entries (fun _ => "") "fi" (JStr "") db
                   = Ok (match parse_entries (fun _ => "") "fi" (JStr "") db with
                         | Ok r => r
                         | Raise _ => []
                         end)) by (vm_compute; reflexivity).
  destruct (get_extended_content_total (fun _ => "")
              (listing_server base_url db) (fun _ _ => Raise HTTPError)
              base_url "fi" db _ 0 250
              (listing_server_serves base_url db) Hparse)
    as [t [out [Hrun [_ [Hlen _]]]]].
  - lia.
  - vm_compute. split; discriminate.
  - exists t, out. split; [exact Hrun|]. split; [exact Hlen|].
    assert (Ht : fst (get_extended_content (fun _ => "")
                        (listing_server base_url db)
                        (fun _ _ => Raise HTTPError) base_url "fi" 0 250) = t)
      by now rewrite Hrun.
    rewrite <- Ht. vm_compute. reflexivity.
Defined.

(** C3 (as stated) fails: with [requested_total = 5] and a server that holds
    nothing, the aggregator still requests one page; it cannot know the
    server's total before the first answer. *)
Lemma get_extended_content_counterexample :
  let base_url := "https://areena.api.yle.fi/v1/ui/content/list?token=t" in
  let run := get_extended_content (fun _ => "") (listing_server base_url [])
               (fun _ _ => Raise HTTPError) base_url "fi" 0 5 in
  run = ([HttpGet (base_url ++ "&limit=5&offset=0")], Ok [])
  /\ page_fetches (fst run) <> O.
Proof.
  split; [vm_compute; reflexivity | vm_compute; discriminate].
Qed.

(* ===================================================================== *)
(** * Further properties: the alphabetical sequencer                      *)
(* ===================================================================== *)

Lemma list_index_not_in (x : string) (l : list string) :
  ~ In x l -> list_index x l = Raise ValueError.
Proof.
  induction l as [|y l IH]; [reflexivity|]. intros H. cbn [list_index].
  destruct (String.eqb y x) eqn:E.
  - apply String.eqb_eq in E. exfalso. apply H. now left.
  - rewrite IH; [reflexivity|]. intros Hin. apply H. now right.
Qed.

Lemma list_index_raises (x : string) (l : list string) (e : exn) :
  list_index x l = Raise e -> e = ValueError /\ ~ In x l.
Proof.
  induction l as [|y l IH]; cbn [list_index].
  - intros [= <-]. split; [reflexivity | intros []].
  - destruct (String.eqb y x) eqn:E; [discriminate|].
    destruct (list_index x l) as [i|e'] eqn:Hi; [discriminate|].
    cbn [rbind]. intros [= <-]. destruct (IH eq_refl) as [-> Hn].
    split; [reflexivity|]. intros [H|H]; [|auto].
    apply String.eqb_neq in E. congruence.
Qed.

Lemma sort_keys_raises (categories : list bucket) (e : exn) :
  sort_keys categories = Raise e ->
  e = ValueError
  /\ Exists (fun b => ~ In (b_name b) alphabet) categories.
Proof.
  induction categories as [|b l IH]; cbn [sort_keys]; [discriminate|].
  destruct (list_index (b_name b) alphabet) as [i|e'] eqn:Hi; cbn [rbind].
  - destruct (sort_keys l) as [ks|e'] eqn:Hl; cbn [rbind]; [discriminate|].
    intros [= <-]. destruct (IH eq_refl) as [-> Hex].
    split; [reflexivity | now apply Exists_cons_tl].
  - intros [= <-]. apply list_index_raises in Hi as [-> Hn].
    split; [reflexivity | now apply Exists_cons_hd].
Qed.

Lemma sort_keys_known (categories : list bucket) (ks : list (Z * bucket)) :
  sort_keys categories = Ok ks ->
  Forall (fun b => In (b_name b) alphabet) categories.
Proof.
  revert ks. induction categories as [|b l IH]; intros ks Hk; [constructor|].
  cbn [sort_keys] in Hk.
  destruct (list_index (b_name b) alphabet) as [i|] eqn:Hi; [|discriminate].
  cbn [rbind] in Hk. destruct (sort_keys l) as [ks'|] eqn:Hl; [|discriminate].
  constructor; [|now apply (IH ks')].
  destruct (in_dec string_dec (b_name b) alphabet) as [H|H]; [exact H|].
  rewrite (list_index_not_in _ _ H) in Hi. discriminate.
Qed.

(** X1: the sequencer fails exactly when some bucket label is missing from
    the alphabet table, and then with [ValueError]; it raises nothing
    else. *)
Theorem sort_alphabetical_categories_unknown_label
  (categories : list bucket) :
  (Exists (fun b => ~ In (b_name b) alphabet) categories
   <-> sort_alphabetical_categories categories = Raise ValueError)
  /\ (forall e, sort_alphabetical_categories categories = Raise e ->
                e = ValueError).
Proof.
  assert (R : forall e, sort_alphabetical_categories categories = Raise e ->
              e = ValueError
              /\ Exists (fun b => ~ In (b_name b) alphabet) categories).
  { intros e. unfold sort_alphabetical_categories.
    destruct (sort_keys categories) as [ks|e'] eqn:Hk; cbn [rbind];
      [discriminate|].
    intros [= <-]. now apply sort_keys_raises. }
  split; [split|].
  - intros Hex. unfold sort_alphabetical_categories.
    destruct (sort_keys categories) as [ks|e] eqn:Hk; cbn [rbind].
    + exfalso. apply Exists_exists in Hex as [b [Hb Hn]].
      pose proof (sort_keys_known _ _ Hk) as Hall.
      rewrite Forall_forall in Hall. now apply Hn, Hall.
    + now destruct (sort_keys_raises _ _ Hk) as [-> _].
  - intros H. now apply R in H.
  - intros e H. now apply R in H.
Qed.

Lemma sort_alphabetical_categories_unknown_label_witness :
  sort_alphabetical_categories [mk_bucket "A" 2; mk_bucket "Æ" 1]
  = Raise ValueError.
Proof.
  apply (proj1 (proj1 (sort_alphabetical_categories_unknown_label
                         [mk_bucket "A" 2; mk_bucket "Æ" 1]))).
  apply Exists_cons_tl, Exists_cons_hd. cbn [b_name mk_bucket].
  intros H. repeat (destruct H as [H|H]; [discriminate|]). exact H.
Defined.

Lemma filter_insert_keyed {A} (k k' : Z) (x : A) (l : list (Z * A)) :
  filter (fun p => fst p =? k) (insert_keyed k' x l)
  = filter (fun p => fst p =? k) ((k', x) :: l).
Proof.
  induction l as [|[k1 y] l IH]; [reflexivity|]. cbn [insert_keyed].
  destruct (k' <=? k1) eqn:E; [reflexivity|]. apply Z.leb_gt in E.
  cbn [filter fst] in *. rewrite IH.
  destruct (k1 =? k) eqn:E1, (k' =? k) eqn:E2; try reflexivity.
  apply Z.eqb_eq in E1, E2. lia.
Qed.

(** Items with the same key keep their order. *)
Lemma sort_keyed_stable {A} (k : Z) (l : list (Z * A)) :
  filter (fun p => fst p =? k) (sort_keyed l)
  = filter (fun p => fst p =? k) l.
Proof.
  induction l as [|[k' x] l IH]; [reflexivity|]. cbn [sort_keyed].
  rewrite filter_insert_keyed. cbn [filter]. now rewrite IH.
Qed.

Lemma filter_refine {A} (P Q : A -> bool) (l : list A) :
  (forall x, In x l -> P x = true -> Q x = true) ->
  filter P l = filter P (filter Q l).
Proof.
  induction l as [|x l IH]; intros H; [reflexivity|]. cbn [filter].
  destruct (P x) eqn:Px.
  - rewrite (H x (or_introl eq_refl) Px). cbn [filter]. rewrite Px.
    f_equal. apply IH. intros y Hy. apply H. now right.
  - destruct (Q x); cbn [filter]; rewrite ?Px; apply IH;
      intros y Hy; apply H; now right.
Qed.

(** X2: the sequencer is stable: the buckets that carry one and the same
    label come out in the order in which they came in. *)
Theorem sort_alphabetical_categories_stable
  (categories out : list bucket) (name : string) :
  sort_alphabetical_categories categories = Ok out ->
  filter (labelled name) (map bucket_label out)
  = filter (labelled name) (map bucket_label categories).
Proof.
  unfold sort_alphabetical_categories.
  destruct (sort_keys categories) as [keyed|e] eqn:Hk; [|discriminate].
  cbn [rbind]. intros [= <-]. rewrite assign_offsets_labels.
  assert (Hkeyed : keyed = map (fun b => (alphabet_position b, b)) categories).
  { pose proof (sort_keys_ok _ (sort_keys_known _ _ Hk)) as Hk'.
    rewrite Hk in Hk'. now injection Hk'. }
  set (P := fun p : Z * bucket => labelled name (bucket_label (snd p))).
  set (k := match list_index name alphabet with Ok i => i | Raise _ => -1 end).
  assert (Hmap : forall l : list (Z * bucket),
             filter (labelled name) (map bucket_label (map snd l))
             = map bucket_label (map snd (filter P l))).
  { induction l as [|p l IH]; [reflexivity|]. cbn [map filter]. unfold P at 1.
    destruct (labelled name (bucket_label (snd p))); cbn [map]; now rewrite IH. }
  assert (Hkey : forall l : list (Z * bucket),
             Forall (fun p => fst p = alphabet_position (snd p)) l ->
             forall p, In p l -> P p = true -> (fst p =? k) = true).
  { intros l Hl p Hp HP. rewrite Forall_forall in Hl. rewrite (Hl p Hp).
    unfold P, labelled, bucket_label in HP. cbn [fst] in HP.
    apply String.eqb_eq in HP. unfold alphabet_position, k. rewrite HP.
    apply Z.eqb_refl. }
  assert (Hall : Forall (fun p => fst p = alphabet_position (snd p)) keyed).
  { rewrite Hkeyed. apply Forall_forall. intros p Hp.
    apply in_map_iff in Hp as [b [<- _]]. reflexivity. }
  assert (Hall' : Forall (fun p => fst p = alphabet_position (snd p))
                         (sort_keyed keyed)).
  { apply (Permutation_Forall (Permutation_sym (sort_keyed_perm keyed))).
    exact Hall. }
  rewrite Hmap.
  rewrite (filter_refine P (fun p => fst p =? k) _ (Hkey _ Hall')).
  rewrite sort_keyed_stable.
  rewrite <- (filter_refine P (fun p => fst p =? k) _ (Hkey _ Hall)).
  rewrite <- Hmap, Hkeyed, !map_map. reflexivity.
Qed.

Lemma sort_alphabetical_categories_stable_witness :
  exists out,
    sort_alphabetical_categories
      [mk_bucket "B" 3; mk_bucket "A" 2; mk_bucket "B" 1; mk_bucket "A" 7]
    = Ok out
    /\ filter (labelled "B") (map bucket_label out) = [("B", 3); ("B", 1)].
Proof.
  eexists. split; [reflexivity|].
  apply (sort_alphabetical_categories_stable
           [mk_bucket "B" 3; mk_bucket "A" 2; mk_bucket "B" 1; mk_bucket "A" 7]).
  reflexivity.
Defined.

(* ===================================================================== *)
(** * Further properties: the secondary resolver                          *)
(* ===================================================================== *)

(** X3: for a mode other than "live", "download" and "vod" the secondary
    resolver never returns a manifest, whatever the response holds: it
    raises. *)
Theorem get_hd_mpd_stream_manifest_unknown_mode (site : json) (mode : string) :
  mode <> "live" -> mode <> "download" -> mode <> "vod" ->
  exists e, get_hd_mpd_stream_manifest site mode = Raise e.
Proof.
  intros Hl Hd Hv.
  assert (Ht : target_stream mode = None).
  { unfold target_stream. apply String.eqb_neq in Hl, Hd, Hv.
    now rewrite Hl, Hd, Hv. }
  unfold get_hd_mpd_stream_manifest. rewrite Ht.
  destruct (item_int site 1) as [r|e]; cbn [rbind]; [|eauto].
  destruct (item r "sources") as [sources|e]; cbn [rbind]; [|eauto].
  destruct (iter sources) as [[|s l]|e]; cbn [rbind first_source]; eauto.
  destruct (get s "deliveryProfileId" JNull); cbn [rbind]; eauto.
Qed.

Lemma get_hd_mpd_stream_manifest_unknown_mode_witness :
  exists e,
    get_hd_mpd_stream_manifest
      (JList [JDict [];
              JDict [("sources",
                      JList [JDict [("deliveryProfileId", JInt 14471);
                                    ("url", JStr "https://k/a.mpd")]])]])
      "audio" = Raise e.
Proof.
  apply get_hd_mpd_stream_manifest_unknown_mode; discriminate.
Defined.

(** A run of characters that are no separators, followed by a slash or by
    the end, holds no match and is copied. *)
Lemma sub_run (run rest : string) :
  forallb (fun x => negb (Flavor.is_sep x)) (list_ascii_of_string run) = true ->
  (rest = "" \/ exists r, rest = String "/" r) ->
  Flavor.sub_from 0 (run ++ rest) = run ++ Flavor.sub_from 0 rest.
Proof.
  intros Hrun Hrest. induction run as [|c run IH]; [reflexivity|].
  cbn [list_ascii_of_string forallb] in Hrun.
  apply andb_true_iff in Hrun as [Hc Hrun]. specialize (IH Hrun).
  assert (Hspan : exists n, Flavor.span_run (run ++ rest) = (n, rest)).
  { clear IH Hc. induction run as [|d run IHr].
    - destruct Hrest as [-> | [r ->]]; [now exists O | now exists O].
    - cbn [list_ascii_of_string forallb] in Hrun.
      apply andb_true_iff in Hrun as [Hd Hrun]. apply negb_true_iff in Hd.
      destruct (IHr Hrun) as [n Hn]. exists (S n).
      cbn [append Flavor.span_run]. now rewrite Hd, Hn. }
  destruct Hspan as [n Hn].
  assert (Hm : Flavor.match_len (String c (run ++ rest)) = None).
  { cbn [Flavor.match_len]. rewrite Hn. destruct (Str.is_digit c); [|reflexivity].
    destruct n; [reflexivity|].
    destruct Hrest as [-> | [r ->]]; reflexivity. }
  cbn [append Flavor.sub_from]. rewrite Hm. now rewrite IH.
Qed.

Lemma span_run_split (s : string) :
  exists run rest,
    s = run ++ rest
    /\ forallb (fun x => negb (Flavor.is_sep x)) (list_ascii_of_string run) = true
    /\ Flavor.span_run s = (String.length run, rest)
    /\ (rest = "" \/ exists c r, rest = String c r /\ Flavor.is_sep c = true).
Proof.
  induction s as [|c s IH].
  - exists "", "". repeat split; auto.
  - cbn [Flavor.span_run]. destruct (Flavor.is_sep c) eqn:E.
    + exists "", (String c s). repeat split; eauto.
    + destruct IH as [run [rest [Hs [Hrun [Hspan Hrest]]]]].
      exists (String c run), rest. rewrite Hspan. repeat split; auto.
      * cbn [append]. now rewrite <- Hs.
      * cbn [list_ascii_of_string forallb]. now rewrite E, Hrun.
Qed.

Lemma is_sep_cases (c : ascii) :
  Flavor.is_sep c = true -> c = ","%char \/ c = "/"%char.
Proof.
  unfold Flavor.is_sep. intros H. apply orb_true_iff in H as [H|H];
    apply Ascii.eqb_eq in H; auto.
Qed.

Lemma sep_not_digit (c : ascii) :
  Flavor.is_sep c = true -> Str.is_digit c = false.
Proof. intros H. destruct (is_sep_cases c H) as [-> | ->]; reflexivity. Qed.

(** No match is left in what [sub_from] returns. *)
Lemma sub_from_fixed (n : nat) :
  forall s skip, (String.length s <= n)%nat ->
    Flavor.sub_from 0 (Flavor.sub_from skip s) = Flavor.sub_from skip s.
Proof.
  induction n as [|n IH]; intros s skip Hlen.
  - destruct s; [|simpl in Hlen; lia]. destruct skip; reflexivity.
  - destruct s as [|c s]; [destruct skip; reflexivity|].
    simpl in Hlen. assert (Hs : (String.length s <= n)%nat) by lia.
    destruct skip as [|k]; cbn [Flavor.sub_from]; [|now apply IH].
    destruct (Flavor.match_len (String c s)) as [m|] eqn:Hm; [now apply IH|].
    (* the character is kept *)
    destruct (span_run_split s) as [run [rest [Hsplit [Hrun [Hspan Hrest]]]]].
    destruct (Str.is_digit c) eqn:Hd.
    + (* a digit that starts no match: its run is empty or ends at a slash
         or at the end *)
      cbn [Flavor.match_len] in Hm. rewrite Hd, Hspan in Hm.
      destruct run as [|r0 run'].
      * (* empty run: the next character, if any, is a separator *)
        cbn [append] in Hsplit. subst rest.
        destruct Hrest as [-> | [z [r [-> Hz]]]];
          [cbn [Flavor.sub_from Flavor.match_len Flavor.span_run];
           now rewrite Hd|].
        cbn [Flavor.sub_from].
        assert (Hmz : Flavor.match_len (String z r) = None).
        { cbn [Flavor.match_len]. now rewrite (sep_not_digit z Hz). }
        rewrite Hmz.
        assert (Hkeep : Flavor.match_len (String c (String z (Flavor.sub_from 0 r)))
                        = None).
        { cbn [Flavor.match_len Flavor.span_run]. now rewrite Hd, Hz. }
        cbn [Flavor.sub_from]. rewrite Hkeep. f_equal.
        pose proof (IH (String z r) O Hs) as IHz.
        cbn [Flavor.sub_from] in IHz. rewrite Hmz in IHz. exact IHz.
      * cbn [String.length] in Hm.
        assert (Hslash : rest = "" \/ exists r, rest = String "/" r).
        { destruct Hrest as [-> | [z [r [-> Hz]]]]; [now left|].
          destruct (is_sep_cases z Hz) as [-> | ->]; [discriminate | eauto]. }
        rewrite Hsplit, (sub_run _ _ Hrun Hslash).
        assert (Hkeep : Flavor.match_len
                          (String c (String r0 run' ++ Flavor.sub_from 0 rest))
                        = None).
        { cbn [Flavor.match_len]. rewrite Hd.
          assert (Hr' : Flavor.sub_from 0 rest = ""
                        \/ exists r, Flavor.sub_from 0 rest = String "/" r).
          { destruct Hslash as [-> | [r ->]]; [now left|]. right.
            cbn [Flavor.sub_from Flavor.match_len].
            change (Str.is_digit "/") with false. cbv iota. eauto. }
          assert (Hsp : exists k, Flavor.span_run
                          (String r0 run' ++ Flavor.sub_from 0 rest)
                        = (k, Flavor.sub_from 0 rest)).
          { clear - Hrun Hr'. induction (String r0 run') as [|d q IHq].
            - destruct Hr' as [-> | [r ->]]; now exists O.
            - cbn [list_ascii_of_string forallb] in Hrun.
              apply andb_true_iff in Hrun as [Hd Hrun].
              apply negb_true_iff in Hd. destruct (IHq Hrun) as [k Hk].
              exists (S k). cbn [append Flavor.span_run]. now rewrite Hd, Hk. }
          destruct Hsp as [k ->]. destruct k; [reflexivity|].
          destruct Hr' as [-> | [r ->]]; reflexivity. }
        cbn [Flavor.sub_from]. rewrite Hkeep. f_equal.
        rewrite (sub_run _ _ Hrun).
        -- f_equal. apply (IH rest O).
           rewrite Hsplit, length_append in Hs. lia.
        -- destruct Hslash as [-> | [r ->]]; [now left|]. right.
           cbn [Flavor.sub_from Flavor.match_len].
           change (Str.is_digit "/") with false. cbv iota. eauto.
    + assert (Hkeep : forall t, Flavor.match_len (String c t) = None)
        by (intros t; cbn [Flavor.match_len]; now rewrite Hd).
      cbn [Flavor.sub_from]. rewrite Hkeep. f_equal. now apply IH.
Qed.

(** X4: removing the flavors once is enough: applying the substitution of
    download mode to its own result changes nothing, and an address that
    holds no comma is returned as it is. *)
Theorem flavor_strip_idempotent (url : string) :
  Flavor.strip (Flavor.strip url) = Flavor.strip url
  /\ (free_of "," url = true -> Flavor.strip url = url).
Proof.
  split.
  - unfold Flavor.strip. now apply (sub_from_fixed (String.length url)).
  - apply sub_free.
Qed.

Lemma flavor_strip_idempotent_witness :
  Flavor.strip "https://k/flavorIds/1_a/x.mp4" = "https://k/flavorIds/1_a/x.mp4".
Proof.
  apply (proj2 (flavor_strip_idempotent "https://k/flavorIds/1_a/x.mp4")).
  reflexivity.
Defined.

Lemma dict_get_set (k v k' : string) (d : list (string * string)) :
  dict_get k' (dict_set k v d)
  = if String.eqb k' k then Some v else dict_get k' d.
Proof.
  induction d as [|[k1 v1] d IH]; cbn [dict_set dict_get].
  - destruct (String.eqb k' k); reflexivity.
  - destruct (String.eqb k k1) eqn:E; cbn [dict_get].
    + apply String.eqb_eq in E. subst k1.
      destruct (String.eqb k' k); reflexivity.
    + rewrite IH. destruct (String.eqb k' k1) eqn:E1; [|reflexivity].
      apply String.eqb_eq in E1. subst k1.
      destruct (String.eqb k' k) eqn:E2; [|reflexivity].
      apply String.eqb_eq in E2. subst k'. rewrite String.eqb_refl in E.
      discriminate.
Qed.

Lemma dict_set_keys (k v : string) (d : list (string * string)) :
  forall x, In x (map fst (dict_set k v d)) <-> x = k \/ In x (map fst d).
Proof.
  induction d as [|[k1 v1] d IH]; intros x; cbn [dict_set map fst In].
  - intuition auto.
  - destruct (String.eqb k k1) eqn:E; cbn [map fst In].
    + apply String.eqb_eq in E. subst k1. intuition auto.
    + rewrite IH. intuition auto.
Qed.

Lemma dict_set_nodup (k v : string) (d : list (string * string)) :
  NoDup (map fst d) -> NoDup (map fst (dict_set k v d)).
Proof.
  induction d as [|[k1 v1] d IH]; intros H; cbn [dict_set map fst].
  - constructor; [intros [] | constructor].
  - inversion H as [|? ? Hn Hd]; subst.
    destruct (String.eqb k k1) eqn:E; cbn [map fst].
    + apply String.eqb_eq in E. subst k1. constructor; assumption.
    + constructor; [|now apply IH]. rewrite dict_set_keys.
      intros [->|Hin]; [|auto]. rewrite String.eqb_refl in E. discriminate.
Qed.

Section SubtitleFacts.

Variable container_str : json -> string.

(** One turn of the loop of [subtitles_of], when it goes through. *)
Lemma subtitles_of_step (d subs : list (string * string)) (c : json)
  (rest : list json) :
  subtitles_of container_str d (c :: rest) = Ok subs ->
  exists u,
    get c "url" JNull = Ok u
    /\ exists url, get_subtitle_url u = Ok url
    /\ subtitles_of container_str
         (dict_set (caption_suffix container_str c) url d) rest = Ok subs.
Proof.
  cbn [subtitles_of]. unfold caption_suffix, field.
  destruct (get c "label" JNull) as [label|]; [|discriminate].
  cbn [rbind].
  destruct (get c "languageCode" JNull) as [code|]; [|discriminate].
  cbn [rbind]. destruct (get c "url" JNull) as [u|]; [|discriminate].
  cbn [rbind].
  destruct (get_subtitle_url u) as [url|] eqn:Hurl; [|discriminate].
  cbn [rbind]. intros H. exists u. split; [reflexivity|]. exists url.
  split; [exact Hurl | exact H].
Qed.

Lemma subtitles_of_nodup (l : list json) :
  forall d subs, subtitles_of container_str d l = Ok subs ->
    NoDup (map fst d) -> NoDup (map fst subs).
Proof.
  induction l as [|c l IH]; intros d subs H Hd.
  - now injection H as <-.
  - apply subtitles_of_step in H as [u [_ [url [_ H]]]].
    apply (IH _ _ H). now apply dict_set_nodup.
Qed.

Lemma subtitles_of_other (k : string) (l : list json) :
  forall d subs, subtitles_of container_str d l = Ok subs ->
    Forall (fun c => caption_suffix container_str c <> k) l ->
    dict_get k subs = dict_get k d.
Proof.
  induction l as [|c l IH]; intros d subs H Hk.
  - now injection H as <-.
  - inversion Hk as [|? ? Hc Hl]; subst.
    apply subtitles_of_step in H as [u [_ [url [_ H]]]].
    rewrite (IH _ _ H Hl), dict_get_set.
    destruct (String.eqb k (caption_suffix container_str c)) eqn:E;
      [|reflexivity].
    apply String.eqb_eq in E. congruence.
Qed.

Lemma subtitles_of_last (pre : list json) (c : json) (post : list json)
  (u : string) :
  forall d subs,
    subtitles_of container_str d (pre ++ c :: post) = Ok subs ->
    get c "url" JNull = Ok (JStr u) ->
    Forall (fun c' => caption_suffix container_str c'
                      <> caption_suffix container_str c) post ->
    dict_get (caption_suffix container_str c) subs
    = Some (get_api_url (extract_suffix "service/" u)).
Proof.
  induction pre as [|p pre IH]; intros d subs H Hu Hpost.
  - cbn [app] in H. apply subtitles_of_step in H as [u' [Hu' [url [Hurl H]]]].
    rewrite Hu in Hu'. injection Hu' as <-. cbn [get_subtitle_url] in Hurl.
    injection Hurl as <-.
    rewrite (subtitles_of_other _ _ _ _ H Hpost), dict_get_set.
    now rewrite String.eqb_refl.
  - cbn [app] in H. apply subtitles_of_step in H as [u' [_ [url [_ H]]]].
    now apply (IH _ _ H).
Qed.

End SubtitleFacts.

(** X5: the subtitle map read from a response holds each file suffix once,
    and a suffix stands for the address of the last caption that has it:
    a later caption with the same label and language replaces an earlier
    one. *)
Theorem get_subtitles_last_caption
  (container_str : json -> string) (site : json) (captions : list json)
  (subs : list (string * string)) :
  response_captions site captions ->
  get_subtitles container_str site = Ok subs ->
  NoDup (map fst subs)
  /\ forall pre c post u,
       captions = (pre ++ c :: post)%list ->
       get c "url" JNull = Ok (JStr u) ->
       Forall (fun c' => caption_suffix container_str c'
                         <> caption_suffix container_str c) post ->
       dict_get (caption_suffix container_str c) subs
       = Some (get_api_url (extract_suffix "service/" u)).
Proof.
  intros [r [Hr Hc]] H. unfold get_subtitles in H. rewrite Hr in H.
  cbn [rbind] in H. rewrite Hc in H. cbn [rbind iter] in H. split.
  - apply (subtitles_of_nodup container_str _ _ _ H). constructor.
  - intros pre c post u -> Hu Hpost.
    now apply (subtitles_of_last container_str pre c post u [] subs).
Qed.

Lemma get_subtitles_last_caption_witness :
  let first := JDict [("label", JStr "Suomi"); ("languageCode", JStr "fi");
                      ("url", JStr "https://k/api_v3/service/caption/id/1_a")] in
  let second := JDict [("label", JStr "Suomi"); ("languageCode", JStr "fi");
                       ("url", JStr "https://k/api_v3/service/caption/id/1_b")] in
  let site := JList [JDict [];
                     JDict [("playbackCaptions", JList [first; second])]] in
  exists subs,
    get_subtitles (fun _ => "") site = Ok subs
    /\ dict_get ".Suomi-fi.sub" subs
       = Some "https://cdnapisec.kaltura.com/api_v3/service/caption/id/1_b".
Proof.
  intros first second site. eexists. split; [reflexivity|].
  apply (proj2 (get_subtitles_last_caption (fun _ => "") site [first; second]
                  _ (ex_intro _ _ (conj eq_refl eq_refl)) eq_refl)
           [first] second [] "https://k/api_v3/service/caption/id/1_b"
           eq_refl eq_refl (Forall_nil _)).
Defined.

(* ===================================================================== *)
(** * Further properties: the orchestrator and live streams               *)
(* ===================================================================== *)

Lemma page_fetches_app (t t' : list event) :
  page_fetches (t ++ t') = (page_fetches t + page_fetches t')%nat.
Proof.
  induction t as [|[| |] t IH]; cbn [app page_fetches]; rewrite ?IH; reflexivity.
Qed.

Lemma post_requests_app (t t' : list event) :
  post_requests (t ++ t') = (post_requests t + post_requests t')%nat.
Proof.
  induction t as [|[| |] t IH]; cbn [app post_requests]; rewrite ?IH; reflexivity.
Qed.

(** Reading the provider id sends nothing. *)
Lemma get_kaltura_id_quiet (media_data : json) :
  page_fetches (fst (get_kaltura_id_or_none media_data)) = O
  /\ post_requests (fst (get_kaltura_id_or_none media_data)) = O.
Proof.
  unfold get_kaltura_id_or_none. destruct (negb (truthy media_data));
    [split; reflexivity|].
  unfold lift. destruct (py_split media_data "-") as [info|]; cbn [bind];
    [|split; reflexivity].
  destruct (list_item info 0) as [host|]; cbn [bind]; [|split; reflexivity].
  destruct (String.eqb host "29").
  - destruct (list_item info 1); split; reflexivity.
  - destruct (str_in host ["55"; "67"]); split; reflexivity.
Qed.

Lemma quiet_bind {A B : Type} (c : M A) (k : A -> M B) :
  quiet_run c -> (forall a, quiet_run (k a)) -> quiet_run (bind c k).
Proof.
  unfold quiet_run. destruct c as [t [a|e]]; cbn [bind fst]; intros [Hg Hp] Hk.
  - specialize (Hk a). destruct (k a) as [t' r]. cbn [fst] in *.
    rewrite page_fetches_app, post_requests_app. lia.
  - auto.
Qed.

Lemma quiet_lift {A : Type} (r : res A) : quiet_run (lift r).
Proof. split; reflexivity. Qed.

Lemma quiet_ret {A : Type} (a : A) : quiet_run (ret a).
Proof. split; reflexivity. Qed.

Lemma get_stream_manifest_quiet (site : json) :
  page_fetches (fst (get_stream_manifest site)) = O
  /\ post_requests (fst (get_stream_manifest site)) = O.
Proof.
  change (quiet_run (get_stream_manifest site)). unfold get_stream_manifest.
  apply quiet_bind; [apply quiet_lift | intros data].
  apply quiet_bind; [apply quiet_lift | intros ondemand].
  apply quiet_bind.
  { destruct (truthy ondemand); [apply quiet_ret|].
    apply quiet_bind; [apply quiet_lift | intros; apply quiet_lift]. }
  intros json_data.
  apply quiet_bind; [apply quiet_lift | intros manifest_url].
  apply quiet_bind; [apply quiet_lift | intros media_data].
  apply quiet_bind; [apply get_kaltura_id_quiet | intros; apply quiet_ret].
Qed.

Section OrchestratorFacts.

Variable container_str : json -> string.
Variable http_get : string -> res json.
Variable http_post : string -> json -> res json.

(** The primary resolver sends one GET and no POST. *)
Lemma get_hls_requests (yle_id : string) :
  page_fetches (fst (get_hls_stream_manifest http_get http_post yle_id)) = 1%nat
  /\ post_requests (fst (get_hls_stream_manifest http_get http_post yle_id))
     = O.
Proof.
  unfold get_hls_stream_manifest, get_url_response. cbn [truthy].
  destruct (http_get (get_api_stream_url yle_id)) as [site|]; cbn [bind];
    [|split; reflexivity].
  pose proof (get_stream_manifest_quiet site) as [Hg Hp].
  destruct (get_stream_manifest site) as [t r]. cbn [fst app] in *.
  cbn [page_fetches post_requests]. now rewrite Hg, Hp.
Qed.

(** The secondary resolver sends one POST; it returns subtitles in download
    mode and [None] otherwise. *)
Lemma get_mpd_shape (kaltura_id mode : string) :
  exists r,
    get_mpd_stream_manifest container_str http_get http_post kaltura_id mode
    = ([HttpPost (get_api_url "multirequest") (get_api_payload kaltura_id)], r)
    /\ forall m s, r = Ok (m, s) ->
         (mode = "download" -> s <> None) /\ (mode <> "download" -> s = None).
Proof.
  unfold get_mpd_stream_manifest, get_url_response.
  cbn [truthy get_api_payload bind].
  destruct (http_post _ _) as [site|e]; [|eexists; split; [reflexivity|]; discriminate].
  unfold lift. cbn [bind].
  destruct (get_hd_mpd_stream_manifest site mode) as [m|e];
    [|eexists; split; [reflexivity|]; discriminate].
  cbn [bind app]. destruct (String.eqb mode "download") eqn:E.
  - cbn [bind]. destruct (get_subtitles container_str site) as [s|e];
      (eexists; split; [reflexivity|]); [|discriminate].
    intros m' s' [= <- <-]. split; [discriminate|].
    apply String.eqb_eq in E. congruence.
  - eexists; split; [reflexivity|]. intros m' s' [= <- <-].
    apply String.eqb_neq in E. split; [congruence | reflexivity].
Qed.

End OrchestratorFacts.

(** X6: the VOD orchestrator asks each provider at most once (at most one
    GET, at most one POST, and no GET at all when a secondary id is
    supplied).  A result is either the primary manifest, tagged "hls", with
    an empty subtitle map and without any POST, or a secondary manifest,
    tagged "mpd", obtained by exactly one POST; the latter carries a
    subtitle map in download mode and [None] in any other mode. *)
Theorem get_vod_stream_manifest_requests
  (container_str : json -> string) (http_get : string -> res json)
  (http_post : string -> json -> res json) (yle_id kaltura_id mode : string) :
  let run := get_vod_stream_manifest container_str http_get http_post
               yle_id kaltura_id mode in
  (page_fetches (fst run) <= 1)%nat
  /\ (post_requests (fst run) <= 1)%nat
  /\ (kaltura_id <> "" -> page_fetches (fst run) = O)
  /\ forall manifest stream_format subs,
       snd run = Ok (manifest, stream_format, subs) ->
       (stream_format = "hls" /\ subs = Some []
        /\ post_requests (fst run) = O)
       \/ (stream_format = "mpd" /\ post_requests (fst run) = 1%nat
           /\ (mode = "download" -> subs <> None)
           /\ (mode <> "download" -> subs = None)).
Proof.
  cbv zeta. unfold get_vod_stream_manifest.
  destruct (nonempty kaltura_id) eqn:Hk; cbn [negb].
  - (* a secondary id is supplied *)
    cbn [ret bind l_kaltura_id app]. rewrite Hk.
    destruct (get_mpd_shape container_str http_get http_post kaltura_id mode)
      as [r [-> Hr]].
    destruct r as [[m s]|e]; cbn [bind ret fst snd app l_manifest
      l_stream_format l_subs page_fetches post_requests].
    + repeat split; try lia.
      intros manifest f subs [= <- <- <-]. right.
      destruct (Hr m s eq_refl). auto.
    + repeat split; try lia. discriminate.
  - pose proof (get_hls_requests http_get http_post yle_id) as [Hg Hp].
    assert (Hno : kaltura_id <> "" -> False).
    { intros H. apply negb_false_iff, String.eqb_eq in Hk. auto. }
    destruct (get_hls_stream_manifest http_get http_post yle_id)
      as [t [[m kid]|e]]; cbn [fst] in Hg, Hp; cbn [bind ret fst snd app
      l_kaltura_id].
    + destruct (nonempty kid) eqn:Hkid.
      * destruct (get_mpd_shape container_str http_get http_post kid mode)
          as [r [-> Hr]].
        destruct r as [[m' s]|e]; cbn [bind ret fst snd app l_manifest
          l_stream_format l_subs];
          rewrite ?app_nil_r, ?page_fetches_app, ?post_requests_app, ?Hg, ?Hp;
          cbn [page_fetches post_requests].
        -- repeat split; try lia; [intros H; now apply Hno in H|].
           intros manifest f subs [= <- <- <-]. right.
           destruct (Hr m' s eq_refl). repeat split; auto.
        -- repeat split; try lia; [intros H; now apply Hno in H|].
           discriminate.
      * cbn [bind ret fst snd app l_manifest l_stream_format l_subs].
        rewrite ?app_nil_r, Hg, Hp.
        repeat split; try lia; [intros H; now apply Hno in H|].
        intros manifest f subs [= <- <- <-]. left. auto.
    + rewrite Hg, Hp. repeat split; try lia; [intros H; now apply Hno in H|].
      discriminate.
Qed.

Lemma get_vod_stream_manifest_requests_witness :
  page_fetches
    (fst (get_vod_stream_manifest (fun _ => "") (sample_preview "29-1_a")
            sample_kaltura "1-50" "1_b" "download")) = O.
Proof.
  apply (proj1 (proj2 (proj2 (get_vod_stream_manifest_requests
           (fun _ => "") (sample_preview "29-1_a") sample_kaltura
           "1-50" "1_b" "download")))).
  discriminate.
Defined.

(** X7: a live stream is resolved without any POST and with at most two
    GETs, and whatever is returned is tagged "hls".  For every channel
    other than "yle-areena" nothing is requested at all: the manifest is
    the channel's fixed address. *)
Theorem get_live_stream_manifest_requests
  (container_str : json -> string) (http_get : string -> res json)
  (http_post : string -> json -> res json) (yle_id locale : string) :
  let run := get_live_stream_manifest container_str http_get http_post
               yle_id locale in
  post_requests (fst run) = O
  /\ (page_fetches (fst run) <= 2)%nat
  /\ (forall manifest stream_format,
        snd run = Ok (manifest, stream_format) -> stream_format = "hls")
  /\ (yle_id <> "yle-areena" ->
      run = ([], Ok (JStr (get_live_tv_url yle_id), "hls"))).
Proof.
  cbv zeta. unfold get_live_stream_manifest.
  destruct (String.eqb yle_id "yle-areena") eqn:E.
  - apply String.eqb_eq in E. subst yle_id.
    unfold get_live_broadcast, get_url_response. cbn [truthy].
    destruct (http_get (get_api_live_url "yle-areena" locale)) as [site|e];
      cbn [bind fst snd app page_fetches post_requests];
      [|repeat split; try lia; try discriminate; intros H; now elim H].
    unfold lift.
    destruct (get_live_stream_media_id site) as [id|e];
      cbn [bind fst snd app page_fetches post_requests];
      [|repeat split; try lia; try discriminate; intros H; now elim H].
    pose proof (get_hls_requests http_get http_post
                  (py_str container_str id)) as [Hg Hp].
    destruct (get_hls_stream_manifest http_get http_post
                (py_str container_str id)) as [t [[m k]|e]];
      cbn [fst] in Hg, Hp;
      cbn [bind ret fst snd app page_fetches post_requests];
      rewrite ?app_nil_r, ?Hg, ?Hp.
    + repeat split; try lia; [|intros H; now elim H].
      now intros manifest f [= <- <-].
    + repeat split; try lia; [discriminate | intros H; now elim H].
  - cbn [ret bind fst snd app page_fetches post_requests].
    repeat split; try lia. now intros manifest f [= <- <-].
Qed.

Lemma get_live_stream_manifest_requests_witness :
  get_live_stream_manifest (fun _ => "") (sample_preview "") sample_kaltura
    "yle-tv1" "fi"
  = ([], Ok (JStr "https://yletv.akamaized.net/hls/live/yle-tv1/master.m3u8",
             "hls")).
Proof.
  apply (proj2 (proj2 (proj2 (get_live_stream_manifest_requests
           (fun _ => "") (sample_preview "") sample_kaltura "yle-tv1" "fi")))).
  discriminate.
Defined.

(* ===================================================================== *)
(** * Further properties: pagination against any server                   *)
(* ===================================================================== *)

(** With counts that are no floats a run of the loop stays within the
    model: the count of every page it reads is an int, or a value on which
    the code raises [TypeError]. *)
Lemma count_in_model (container_str : json -> string)
  (http_get : string -> res json) (url locale : string) (site : json)
  (cc : list media_data * json) (e : exn) :
  no_float_count http_get -> http_get url = Ok site ->
  get_query_content container_str site locale = Ok cc ->
  int_of_count (snd cc) = Raise e -> e = TypeError.
Proof.
  intros Hcount Hsite Hcc He.
  assert (Hc : count_of site = Ok (snd cc)).
  { unfold get_query_content in Hcc. unfold count_of.
    destruct (get_category_content container_str site locale JNull);
      [|discriminate].
    cbn [rbind] in Hcc. destruct (item site "meta") as [meta|];
      [|discriminate].
    cbn [rbind] in *. destruct (item meta "count") as [count|];
      [|discriminate].
    cbn [rbind] in Hcc. now injection Hcc as <-. }
  destruct (snd cc) as [| | |f| | |] eqn:Ecount; cbn [int_of_count] in He;
    try discriminate; try (now injection He as <-).
  exfalso. exact (Hcount url site f Hsite Hc).
Qed.

Lemma loop_requests (container_str : json -> string)
  (http_get : string -> res json) (http_post : string -> json -> res json)
  (base_url locale : string) :
  no_float_count http_get ->
  forall (n : nat) (ctx : list media_data) (offset total : Z),
    (Z.to_nat total <= n)%nat ->
    exists (k : nat) (last : list Z),
      fst (get_extended_content_from container_str http_get http_post
             ctx base_url locale offset total)
      = page_requests base_url offset (repeat 100 k ++ last)
      /\ short_page last
      /\ 100 * Z.of_nat k + sum_limits last <= Z.max total 0.
Proof.
  intros Hcount n.
  induction n as [n IH] using lt_wf_ind. intros ctx offset total Hn.
  rewrite loop_unfold. destruct (0 <? total) eqn:Hpos.
  2:{ exists O, []. cbn. repeat split; [now left | lia]. }
  apply Z.ltb_lt in Hpos. cbv zeta. unfold get_url_response. cbn [truthy].
  (* the request of this turn, alone *)
  assert (Halone : exists (k : nat) (last : list Z),
            [HttpGet (create_api_query base_url (Z.min total 100) offset)]
            = page_requests base_url offset (repeat 100 k ++ last)
            /\ short_page last
            /\ 100 * Z.of_nat k + sum_limits last <= Z.max total 0).
  { destruct (Z_lt_ge_dec total 100) as [Hlt|Hge].
    - exists O, [total]. rewrite Z.min_l by lia. cbn. repeat split; [|lia].
      right. exists total. split; [reflexivity | lia].
    - exists 1%nat, []. rewrite Z.min_r by lia. cbn. repeat split;
        [now left | lia]. }
  destruct (http_get _) as [site|e]; cbn [bind fst app]; [|exact Halone].
  unfold lift.
  destruct (get_query_content container_str site locale) as [cc|e];
    cbn [bind fst app]; [|exact Halone].
  destruct (int_of_count (snd cc)) as [count|e];
    cbn [bind fst app]; [|exact Halone].
  destruct (Z_lt_ge_dec total 100) as [Hlt|Hge].
  - (* a short page ends the loop *)
    rewrite loop_unfold.
    replace (0 <? Z.min total count - Z.min total 100) with false
      by (symmetry; apply Z.ltb_ge; lia).
    cbn [ret fst app]. exact Halone.
  - destruct (IH (Z.to_nat (Z.min total count - Z.min total 100)))
      with (ctx := (ctx ++ fst cc)%list)
           (offset := offset + Z.min total 100)
           (total := Z.min total count - Z.min total 100)
      as [k [last [Ht [Hshort Hsum]]]]; [lia | lia |].
    destruct (get_extended_content_from _ _ _ _ _ _ _ _) as [t r].
    cbn [fst] in *. exists (S k), last. rewrite Ht.
    rewrite Z.min_r by lia. cbn [repeat app page_requests].
    repeat split; [exact Hshort | lia].
Qed.

(** X8: for every server whose pages carry no floating-point count, the
    requests of [get_extended_content] are GETs of consecutive pages and
    nothing else: full pages of 100 entries at the offsets offset,
    offset + 100, ..., followed by at most one shorter page, and together
    they never ask for more than [total] entries (so there are at most
    ceil(total / 100) requests, and none for a total that is not
    positive).  Such a server cannot make the loop run on by reporting
    large counts. *)
Theorem get_extended_content_requests
  (container_str : json -> string) (http_get : string -> res json)
  (http_post : string -> json -> res json)
  (base_url locale : string) (offset total : Z) :
  no_float_count http_get ->
  exists (k : nat) (last : list Z),
    fst (get_extended_content container_str http_get http_post
           base_url locale offset total)
    = page_requests base_url offset (repeat 100 k ++ last)
    /\ short_page last
    /\ 100 * Z.of_nat k + sum_limits last <= Z.max total 0.
Proof.
  intros Hcount. unfold get_extended_content.
  apply (loop_requests container_str http_get http_post base_url locale
           Hcount (Z.to_nat total) [] offset total (le_n _)).
Qed.

Lemma get_extended_content_requests_witness :
  exists (k : nat) (last : list Z),
    fst (get_extended_content (fun _ => "") sample_counting_server
           sample_kaltura "https://x/list?token=t" "fi" 0 250)
    = page_requests "https://x/list?token=t" 0 (repeat 100 k ++ last)
    /\ short_page last
    /\ 100 * Z.of_nat k + sum_limits last <= Z.max 250 0.
Proof.
  apply (get_extended_content_requests (fun _ => "") sample_counting_server
           sample_kaltura "https://x/list?token=t" "fi" 0 250).
  intros url site f H. injection H as <-. discriminate.
Defined.

(* ===================================================================== *)
(** * Further properties: subcategories and seasons                       *)
(* ===================================================================== *)

Lemma handled_list_item {A} (l : list A) (i : Z) : handled (list_item l i).
Proof.
  unfold list_item. destruct (_ || _); simpl; auto.
  destruct (nth_error l _); simpl; auto.
Qed.

Lemma handled_item_int (v : json) (i : Z) : handled (item_int v i).
Proof.
  destruct v; simpl; auto using handled_list_item.
  pose proof (handled_list_item (list_ascii_of_string s) i) as H.
  destruct (list_item (list_ascii_of_string s) i); simpl; auto.
Qed.

Lemma handled_last_segment (v : json) : handled (last_segment v).
Proof.
  unfold last_segment. apply handled_bind.
  - destruct v; simpl; auto.
  - intros segs. apply handled_list_item.
Qed.

Lemma handled_destination_uri (entry : json) : handled (destination_uri entry).
Proof.
  unfold destination_uri.
  apply handled_bind; [apply handled_item | intros ?].
  apply handled_bind; [apply handled_item_int | intros ?].
  apply handled_bind; [apply handled_item | intros ?]. apply handled_item.
Qed.

Lemma handled_source_uri (entry : json) : handled (source_uri entry).
Proof.
  unfold source_uri.
  apply handled_bind; [apply handled_item | intros ?]. apply handled_item.
Qed.

(** The [try] block in terms of the two addresses. *)
Lemma sub_category_ids_paths (entry : json) :
  sub_category_ids entry
  = (uri <~ destination_uri entry ;;
     _id <~ last_segment uri ;;
     source_uri <~ source_uri entry ;;
     _api_tok <~ extract_token_of source_uri ;;
     Ok (_id, _api_tok)).
Proof.
  unfold sub_category_ids, destination_uri, source_uri.
  destruct (item entry "controls") as [controls|]; cbn [rbind]; [|reflexivity].
  destruct (item_int controls 0) as [c0|]; cbn [rbind]; [|reflexivity].
  destruct (item c0 "destination") as [d|]; cbn [rbind]; [|reflexivity].
  destruct (item d "uri") as [uri|]; cbn [rbind]; [|reflexivity].
  destruct (last_segment uri) as [i|]; cbn [rbind]; [|reflexivity].
  destruct (item entry "source") as [src|]; cbn [rbind]; reflexivity.
Qed.

Lemma sub_category_ids_usable (entry : json) :
  usable entry = true ->
  exists u s i,
    destination_uri entry = Ok (JStr u) /\ source_uri entry = Ok (JStr s)
    /\ last_segment (JStr u) = Ok i
    /\ sub_category_ids entry = Ok (i, extract_token s).
Proof.
  unfold usable. rewrite sub_category_ids_paths.
  destruct (destination_uri entry) as [[| | | |u| |]|]; try discriminate.
  destruct (source_uri entry) as [[| | | |s| |]|]; try discriminate.
  intros _. destruct (last_segment_ok u) as [i Hi].
  exists u, s, i. cbn [rbind]. rewrite Hi. cbn [rbind extract_token_of].
  auto.
Qed.

Lemma sub_category_ids_unusable (entry : json) :
  usable entry = false ->
  exists e, sub_category_ids entry = Raise e /\ caught_by_parser e = true.
Proof.
  unfold usable. rewrite sub_category_ids_paths.
  pose proof (handled_destination_uri entry) as Hd.
  pose proof (handled_source_uri entry) as Hs.
  destruct (destination_uri entry) as [uri|e]; cbn [rbind];
    [|intros _; exists e; auto].
  assert (Hl := handled_last_segment uri).
  destruct uri as [| | | |u| |];
    try (intros _; cbn [last_segment py_split rbind]; eexists; split;
         [reflexivity | reflexivity]).
  destruct (last_segment (JStr u)) as [i|e]; cbn [rbind];
    [|intros _; exists e; auto].
  destruct (source_uri entry) as [src|e]; cbn [rbind];
    [|intros _; exists e; auto].
  destruct src; try discriminate; intros _; cbn [extract_token_of rbind];
    eexists; split; reflexivity.
Qed.

Lemma sub_categories_of_spec (l : list json) :
  Forall is_object l ->
  exists categories,
    sub_categories_of l = Ok categories
    /\ Forall2 read_from (filter usable l) categories.
Proof.
  induction 1 as [|entry l Hobj _ IH]; [exists []; split; constructor|].
  destruct IH as [cats [Hcats Hall]]. cbn [sub_categories_of filter].
  destruct entry as [| | | | | |kv]; try contradiction.
  cbn [get rbind]. destruct (usable (JDict kv)) eqn:Hu.
  - destruct (sub_category_ids_usable _ Hu) as [u [s [i [Hd [Hs [Hi ->]]]]]].
    rewrite Hcats. cbn [rbind]. eexists; split; [reflexivity|].
    constructor; [|exact Hall]. exists u, s. cbn [sc_yle_id sc_api_tok sc_name].
    repeat split; auto.
  - destruct (sub_category_ids_unusable _ Hu) as [e [-> He]]. rewrite He.
    exists cats. auto.
Qed.

(** X9: on a page view whose entries are objects, [get_sub_categories]
    never raises: an entry whose destination or source address is missing,
    or is not a string, is passed over silently, and the result holds
    exactly one record for each of the other entries, in the order of the
    page, with the last path segment of the destination as id and the
    token of the source address. *)
Theorem get_sub_categories_skips (view : json) (l : list json) :
  view_content view l ->
  Forall is_object l ->
  exists categories,
    get_sub_categories view = Ok categories
    /\ Forall2 read_from (filter usable l) categories.
Proof.
  intros [tabs [tab [Ht [Ht0 Hc]]]] Hobj. unfold get_sub_categories.
  rewrite Ht. cbn [rbind]. rewrite Ht0. cbn [rbind]. rewrite Hc.
  cbn [rbind iter]. now apply sub_categories_of_spec.
Qed.

Lemma get_sub_categories_skips_witness :
  exists categories,
    get_sub_categories sample_view = Ok categories
    /\ Forall2 read_from (filter usable sample_sub_entries) categories.
Proof.
  apply (get_sub_categories_skips sample_view sample_sub_entries).
  - eexists; eexists; repeat split; reflexivity.
  - repeat constructor.
Defined.

Lemma find_last_none (w s : string) :
  StrMore.find_last w s = None -> ~ contains w s.
Proof.
  induction s as [|c s IH]; cbn [StrMore.find_last].
  - destruct (Str.starts_with w "") eqn:E; [discriminate|].
    intros _ [pre [post H]]. destruct pre; [|discriminate].
    assert (Str.starts_with w "" = true)
      by (apply starts_with_iff; now exists post).
    congruence.
  - destruct (StrMore.find_last w s) eqn:F; [discriminate|].
    destruct (Str.starts_with w (String c s)) eqn:E; [discriminate|].
    intros _ [pre [post H]]. destruct pre as [|c' pre]; cbn [append] in H.
    + assert (Str.starts_with w (String c s) = true)
        by (apply starts_with_iff; now exists post).
      congruence.
    + injection H as _ H. apply IH; [reflexivity|]. now exists pre, post.
Qed.

Lemma find_last_some (w s : string) (i : nat) :
  StrMore.find_last w s = Some i ->
  exists pre, String.length pre = i /\ last_occurrence w s pre.
Proof.
  revert i; induction s as [|c s IH]; intros i; cbn [StrMore.find_last].
  - destruct (Str.starts_with w "") eqn:E; [|discriminate].
    intros [= <-]. exists "". split; [reflexivity|]. split.
    + apply starts_with_iff in E. exact E.
    + intros pre' [post H]. destruct pre'; [cbn; lia | discriminate].
  - destruct (StrMore.find_last w s) as [j|] eqn:F.
    + intros [= <-]. destruct (IH j eq_refl) as [pre [Hl [[post Ho] Hm]]].
      exists (String c pre). split; [cbn; congruence|]. split.
      * exists post. cbn [append]. congruence.
      * intros pre' [post' H]. destruct pre' as [|c' pre']; [cbn; lia|].
        cbn [append] in H. injection H as _ H. cbn [String.length].
        apply le_n_S, Hm. now exists post'.
    + destruct (Str.starts_with w (String c s)) eqn:E; [|discriminate].
      intros [= <-]. exists "". split; [reflexivity|]. split.
      * apply starts_with_iff in E. exact E.
      * intros pre' [post' H]. destruct pre' as [|c' pre']; [cbn; lia|].
        cbn [append] in H. injection H as _ H.
        exfalso. apply (find_last_none _ _ F). now exists pre', post'.
Qed.

Lemma take_append (a b : string) : StrMore.take (String.length a) (a ++ b) = a.
Proof. induction a; cbn; [now destruct b | congruence]. Qed.

Lemma take_but_last (s : string) :
  but_last s (StrMore.take (String.length s - 1) s).
Proof.
  destruct s as [|c s]; [left; split; reflexivity|]. right.
  cbn [String.length]. replace (S (String.length s) - 1)%nat
    with (String.length s) by lia.
  revert c. induction s as [|d s IH]; intros c.
  - exists c. reflexivity.
  - destruct (IH d) as [x Hx]. exists x. cbn [String.length StrMore.take append].
    now rewrite <- Hx.
Qed.

(** [s[:s.rfind(w)]]: the part before the last occurrence of [w]; without
    any occurrence the index is -1 and the last character is cut off. *)
Lemma slice_to_rfind (w s : string) :
  let cut := StrMore.slice_to (StrMore.rfind w s) s in
  (forall pre, last_occurrence w s pre -> cut = pre)
  /\ (~ contains w s -> but_last s cut).
Proof.
  cbv zeta. unfold StrMore.rfind.
  destruct (StrMore.find_last w s) as [i|] eqn:F.
  - split.
    + intros pre [[post Ho] Hm].
      destruct (find_last_some _ _ _ F) as [p [Hl [[post' Ho'] Hm']]].
      assert (String.length p = String.length pre).
      { apply Nat.le_antisymm; [apply Hm; now exists post'
                               | apply Hm'; now exists post]. }
      unfold StrMore.slice_to.
      replace (0 <=? Z.of_nat i) with true by (symmetry; apply Z.leb_le; lia).
      rewrite Nat2Z.id. subst i. rewrite H. rewrite Ho. apply take_append.
    + intros Hn. exfalso. apply Hn.
      destruct (find_last_some _ _ _ F) as [p [_ [Ho _]]]. now exists p.
  - split.
    + intros pre [Ho _]. exfalso. apply (find_last_none _ _ F). now exists pre.
    + intros _. unfold StrMore.slice_to. change (0 <=? -1) with false.
      cbv iota.
      replace (Z.to_nat (Z.of_nat (String.length s) + -1))
        with (String.length s - 1)%nat by lia.
      apply take_but_last.
Qed.

Lemma season_paths_options (options : list json)
  (payload : list (json * json)) :
  Forall2 season_option options payload ->
  season_paths options = Ok payload.
Proof.
  induction 1 as [|x ts options payload [Ht [p [Hp Hs]]] _ IH];
    [reflexivity|].
  cbn [season_paths]. rewrite Ht. cbn [rbind]. rewrite Hp. cbn [rbind].
  rewrite Hs. cbn [rbind]. rewrite IH. cbn [rbind]. now destruct ts.
Qed.

(** X10: on a season page, [get_season_ids] returns the token of the
    source address cut before its last "&path"; a token without "&path" loses
    its last character instead (the index is then -1).  Without season
    filters the payload is the single pseudo-season ("", "") when clips are
    shown and empty otherwise; with filters it lists the title and season
    of every option of the first filter, whatever the clips setting. *)
Theorem get_season_ids_contract (json_data show_clips : json)
  (jwt_url : string) (filters : json) :
  season_page json_data jwt_url filters ->
  exists token,
    (forall pre, last_occurrence "&path" (extract_token jwt_url) pre ->
                 token = pre)
    /\ (~ contains "&path" (extract_token jwt_url) ->
        but_last (extract_token jwt_url) token)
    /\ (truthy filters = false ->
        get_season_ids json_data show_clips
        = Ok (token, if truthy show_clips then [(JStr "", JStr "")] else []))
    /\ (forall options payload,
          first_filter_options filters options ->
          Forall2 season_option options payload ->
          get_season_ids json_data show_clips = Ok (token, payload)).
Proof.
  intros [c [source [Hc [Hs [Hu Hf]]]]].
  exists (StrMore.slice_to (StrMore.rfind "&path" (extract_token jwt_url))
            (extract_token jwt_url)).
  destruct (slice_to_rfind "&path" (extract_token jwt_url)) as [Hcut Hnone].
  split; [exact Hcut|]. split; [exact Hnone|].
  unfold get_season_ids. rewrite Hc. cbn [rbind]. rewrite Hs. cbn [rbind].
  rewrite Hu. cbn [rbind extract_token_of]. rewrite Hf. cbn [rbind]. split.
  - intros ->. now destruct (truthy show_clips).
  - intros options payload [s0 [H0 Ho]] Hopts.
    assert (Ht : truthy filters = true).
    { destruct filters as [| | | |s|l|kv]; try discriminate.
      - cbn [item_int] in H0.
        destruct (list_item (list_ascii_of_string s) 0); [|discriminate].
        cbn [rbind] in H0. injection H0 as <-. discriminate.
      - destruct l; [discriminate | reflexivity]. }
    rewrite Ht, H0. cbn [rbind]. rewrite Ho. cbn [rbind iter].
    now rewrite (season_paths_options _ _ Hopts).
Qed.

Lemma get_season_ids_contract_witness :
  exists token,
    get_season_ids
      (sample_season_page "https://x/list?token=abc&path.season=1" (JList []))
      (JBool true)
    = Ok (token, [(JStr "", JStr "")]).
Proof.
  destruct (get_season_ids_contract
              (sample_season_page "https://x/list?token=abc&path.season=1"
                 (JList []))
              (JBool true) "https://x/list?token=abc&path.season=1" (JList []))
    as [token [_ [_ [Hfalsy _]]]].
  - eexists; eexists; repeat split; reflexivity.
  - exists token. apply Hfalsy. reflexivity.
Defined.

(* ===================================================================== *)
(** * Further properties: the memory cache                                *)
(* ===================================================================== *)

Lemma length_take (n : nat) (s : string) :
  String.length (StrMore.take n s) = Nat.min n (String.length s).
Proof.
  revert s; induction n as [|n IH]; intros [|c s]; cbn; auto.
Qed.

Lemma free_of_take (c : ascii) (n : nat) (s : string) :
  free_of c s = true -> free_of c (StrMore.take n s) = true.
Proof.
  revert s; induction n as [|n IH]; intros [|a s]; cbn; auto.
  intros H. apply andb_true_iff in H as [Ha Hs]. now rewrite Ha, IH.
Qed.

Lemma set_property_same (k v : string) (m : store) :
  get_property k (set_property k v m) = v.
Proof. unfold get_property, set_property. now rewrite String.eqb_refl. Qed.

Lemma set_property_other (k k' v : string) (m : store) :
  k' <> k -> get_property k' (set_property k v m) = get_property k' m.
Proof.
  intros H. unfold get_property, set_property.
  apply String.eqb_neq in H. now rewrite H.
Qed.

Section CacheFacts.

Variable addon_id : string.
Variable blake2s_hexdigest : string -> string.
Variable dumps : json -> string.

Hypothesis digest_length :
  forall p, String.length (blake2s_hexdigest p) = 64%nat.

Let cache_id := get_cache_id addon_id blake2s_hexdigest.
Let cache_key := get_cache_key addon_id.

(** An id is never the key of the id list: it ends in ten characters, the
    key in nine. *)
Lemma cache_id_not_key (p : string) : cache_id p <> cache_key.
Proof.
  unfold cache_id, cache_key, get_cache_id, get_cache_key. intros H.
  apply append_inv_head in H. apply (f_equal String.length) in H.
  cbn [append String.length] in H. unfold StrMore.slice_to in H.
  change (0 <=? 10) with true in H. cbv iota in H.
  rewrite length_take, digest_length in H. cbn in H. lia.
Qed.

Lemma cache_id_same (p q : string) :
  cache_id q = cache_id p
  <-> StrMore.slice_to 10 (blake2s_hexdigest q)
      = StrMore.slice_to 10 (blake2s_hexdigest p).
Proof.
  unfold cache_id, get_cache_id. split.
  - intros H. apply append_inv_head in H. now injection H.
  - now intros ->.
Qed.

Lemma add_data_id (p : string) (c t : json) (m : store) :
  get_property (cache_id p) (add_data addon_id blake2s_hexdigest dumps p c t m)
  = dumps (JList [c; t]).
Proof.
  unfold add_data. cbv zeta.
  rewrite set_property_other by apply cache_id_not_key.
  apply set_property_same.
Qed.

Lemma add_data_key (p : string) (c t : json) (m : store) :
  get_property cache_key (add_data addon_id blake2s_hexdigest dumps p c t m)
  = get_property cache_key m ++ "," ++ cache_id p.
Proof.
  unfold add_data. cbv zeta. rewrite set_property_same.
  rewrite set_property_other; [reflexivity|].
  intros H. symmetry in H. now apply cache_id_not_key in H.
Qed.

Lemma add_data_other (p k : string) (c t : json) (m : store) :
  k <> cache_id p -> k <> cache_key ->
  get_property k (add_data addon_id blake2s_hexdigest dumps p c t m)
  = get_property k m.
Proof.
  intros H1 H2. unfold add_data. cbv zeta.
  rewrite set_property_other by exact H2.
  now rewrite set_property_other by exact H1.
Qed.

Lemma add_all_key (adds : list (string * json * json)) (m : store) :
  get_property cache_key (add_all addon_id blake2s_hexdigest dumps adds m)
  = get_property cache_key m
    ++ id_list (map (fun a => cache_id (fst (fst a))) adds).
Proof.
  revert m. induction adds as [|[[p c] t] adds IH]; intros m.
  - cbn. now rewrite append_nil_r.
  - unfold add_all in *. cbn [fold_left map id_list fst snd].
    rewrite IH, add_data_key. now rewrite !append_assoc.
Qed.

Lemma add_all_other (adds : list (string * json * json)) (k : string)
  (m : store) :
  ~ In k (map (fun a => cache_id (fst (fst a))) adds) -> k <> cache_key ->
  get_property k (add_all addon_id blake2s_hexdigest dumps adds m)
  = get_property k m.
Proof.
  revert m. induction adds as [|[[p c] t] adds IH]; intros m Hin Hk;
    [reflexivity|].
  unfold add_all in *. cbn [fold_left map fst snd] in *.
  rewrite IH; [|intros H; apply Hin; now right | exact Hk].
  apply add_data_other; [|exact Hk].
  intros ->. apply Hin. now left.
Qed.

End CacheFacts.

Lemma clear_all (ids : list string) (k : string) (m : store) :
  get_property k (fold_left (fun m _id => clear_property _id m) ids m)
  = if existsb (String.eqb k) ids then "" else get_property k m.
Proof.
  revert m. induction ids as [|i ids IH]; intros m; [reflexivity|].
  cbn [fold_left existsb]. rewrite IH.
  destruct (existsb (String.eqb k) ids); [now rewrite orb_true_r|].
  rewrite orb_false_r. unfold clear_property, get_property, set_property.
  reflexivity.
Qed.

Lemma split_id_list (i : string) (ids : list string) :
  Forall (fun x => free_of "," x = true) (i :: ids) ->
  Str.split "," (i ++ id_list ids) = i :: ids.
Proof.
  revert i. induction ids as [|j ids IH]; intros i H.
  - cbn [id_list]. rewrite append_nil_r. apply split_free.
    now inversion H.
  - cbn [id_list]. change ("," ++ j ++ id_list ids)
      with (String "," (j ++ id_list ids)).
    inversion H as [|? ? Hi Hrest]; subst.
    rewrite split_at_first by exact Hi. now rewrite IH.
Qed.

(** X11: what [add_data] stores under a parameter string is what
    [get_data] returns for it, and for every parameter string whose digest
    starts with the same ten characters: entries are told apart by that
    prefix only.  The data of every other parameter string is left as it
    was. *)
Theorem cache_round_trip (addon_id : string)
  (blake2s_hexdigest : string -> string) (dumps : json -> string)
  (loads : string -> res json) (p q : string) (content content_type : json)
  (memcache : store) :
  (forall x, String.length (blake2s_hexdigest x) = 64%nat) ->
  dumps (JList [content; content_type]) <> "" ->
  loads (dumps (JList [content; content_type]))
  = Ok (JList [content; content_type]) ->
  let memcache' :=
    add_data addon_id blake2s_hexdigest dumps p content content_type memcache
  in
  get_data addon_id blake2s_hexdigest loads p memcache'
  = Ok (JList [content; content_type])
  /\ (StrMore.slice_to 10 (blake2s_hexdigest q)
      = StrMore.slice_to 10 (blake2s_hexdigest p) ->
      get_data addon_id blake2s_hexdigest loads q memcache'
      = Ok (JList [content; content_type]))
  /\ (StrMore.slice_to 10 (blake2s_hexdigest q)
      <> StrMore.slice_to 10 (blake2s_hexdigest p) ->
      get_data addon_id blake2s_hexdigest loads q memcache'
      = get_data addon_id blake2s_hexdigest loads q memcache).
Proof.
  intros Hlen Hne Hload. cbv zeta.
  assert (Hsame : forall q',
            StrMore.slice_to 10 (blake2s_hexdigest q')
            = StrMore.slice_to 10 (blake2s_hexdigest p) ->
            get_data addon_id blake2s_hexdigest loads q'
              (add_data addon_id blake2s_hexdigest dumps p content
                 content_type memcache)
            = Ok (JList [content; content_type])).
  { intros q' Hq. unfold get_data. cbv zeta.
    rewrite (proj2 (cache_id_same addon_id blake2s_hexdigest p q') Hq).
    rewrite add_data_id by exact Hlen. cbn [truthy].
    apply String.eqb_neq in Hne. rewrite Hne. exact Hload. }
  split; [now apply Hsame|]. split; [apply Hsame|].
  intros Hq. unfold get_data. cbv zeta.
  rewrite add_data_other; [reflexivity | | now apply cache_id_not_key].
  intros H. now apply cache_id_same in H.
Qed.

Lemma cache_round_trip_witness :
  get_data "plugin.video.areena" (fun _ => sample_digest)
    (fun _ => Ok (JList [JStr "content"; JStr "videos"])) "a=1"
    (add_data "plugin.video.areena" (fun _ => sample_digest)
       (fun _ => "[1]") "a=1" (JStr "content") (JStr "videos") empty_store)
  = Ok (JList [JStr "content"; JStr "videos"]).
Proof.
  apply (proj1 (cache_round_trip "plugin.video.areena"
                  (fun _ => sample_digest) (fun _ => "[1]")
                  (fun _ => Ok (JList [JStr "content"; JStr "videos"]))
                  "a=1" "a=1" (JStr "content") (JStr "videos") empty_store
                  (fun _ => eq_refl) ltac:(discriminate) eq_refl)).
Defined.

(** X12: [erase] forgets everything that was added: after any sequence of
    [add_data] calls on a window without cached ids, followed by [erase],
    [get_data] returns [None] for each of the added parameter strings and
    the list of cached ids is empty again.  (The ids hold no comma, being
    the add-on id and hexadecimal digits.) *)
Theorem erase_forgets (addon_id : string)
  (blake2s_hexdigest : string -> string) (dumps : json -> string)
  (loads : string -> res json) (adds : list (string * json * json))
  (memcache : store) :
  (forall x, String.length (blake2s_hexdigest x) = 64%nat) ->
  (forall x, free_of "," (blake2s_hexdigest x) = true) ->
  free_of "," addon_id = true ->
  get_property (get_cache_key addon_id) memcache = "" ->
  let erased :=
    erase addon_id (add_all addon_id blake2s_hexdigest dumps adds memcache) in
  get_property (get_cache_key addon_id) erased = ""
  /\ forall p content content_type,
       In (p, content, content_type) adds ->
       get_data addon_id blake2s_hexdigest loads p erased = Ok JNull.
Proof.
  intros Hlen Hhex Haddon Hempty. cbv zeta. unfold erase. cbv zeta. split.
  - unfold clear_property. apply set_property_same.
  - intros p c t Hin. unfold get_data. cbv zeta.
    unfold clear_property at 1.
    rewrite set_property_other by now apply cache_id_not_key.
    rewrite clear_all. rewrite add_all_key by exact Hlen. rewrite Hempty.
    cbn [append].
    set (ids := map (fun a => get_cache_id addon_id blake2s_hexdigest
                                (fst (fst a))) adds).
    assert (Hp : In (get_cache_id addon_id blake2s_hexdigest p) ids).
    { unfold ids. apply in_map_iff. now exists (p, c, t). }
    assert (Hfree : Forall (fun x => free_of "," x = true) ids).
    { unfold ids. apply Forall_forall. intros x Hx.
      apply in_map_iff in Hx as [a [<- _]]. unfold get_cache_id.
      rewrite !free_of_append, Haddon. cbn [free_of andb].
      unfold StrMore.slice_to. change (0 <=? 10) with true. cbv iota.
      rewrite free_of_take by apply Hhex. reflexivity. }
    destruct ids as [|i ids']; [contradiction|].
    cbn [id_list]. change (Str.slice_from 1 ("," ++ i ++ id_list ids'))
      with (i ++ id_list ids').
    rewrite split_id_list by exact Hfree.
    replace (existsb _ (i :: ids')) with true; [reflexivity|].
    symmetry. apply existsb_exists. eexists. split; [exact Hp|].
    apply String.eqb_refl.
Qed.

Lemma erase_forgets_witness :
  get_data "plugin.video.areena" (fun _ => sample_digest)
    (fun _ => Ok (JList [JStr "content"; JStr "videos"])) "a=1"
    (erase "plugin.video.areena"
       (add_all "plugin.video.areena" (fun _ => sample_digest)
          (fun _ => "[1]") [("a=1", JStr "content", JStr "videos")]
          empty_store))
  = Ok JNull.
Proof.
  apply (proj2 (erase_forgets "plugin.video.areena"
                  (fun _ => sample_digest) (fun _ => "[1]")
                  (fun _ => Ok (JList [JStr "content"; JStr "videos"]))
                  [("a=1", JStr "content", JStr "videos")] empty_store
                  (fun _ => eq_refl) (fun _ => eq_refl) eq_refl eq_refl)
           "a=1" (JStr "content") (JStr "videos")).
  now left.
Defined.

(* ===================================================================== *)
(** * Further properties: durations                                       *)
(* ===================================================================== *)

Lemma span_digits_spec (s : string) :
  s = fst (Iso8601.span_digits s) ++ snd (Iso8601.span_digits s)
  /\ digits_only (fst (Iso8601.span_digits s)) = true
  /\ starts_with_digit (snd (Iso8601.span_digits s)) = false.
Proof.
  induction s as [|c s [IH1 [IH2 IH3]]]; [repeat split|].
  cbn [Iso8601.span_digits]. destruct (Str.is_digit c) eqn:Hc.
  - destruct (Iso8601.span_digits s) as [d r]. cbn [fst snd] in *.
    cbn [append digits_only]. rewrite Hc, IH2. repeat split; congruence.
  - cbn [fst snd append digits_only starts_with_digit]. auto.
Qed.

Lemma decimal_sign_not_digit (c : ascii) :
  Iso8601.is_decimal_sign c = true -> Str.is_digit c = false.
Proof.
  unfold Iso8601.is_decimal_sign. intros H.
  apply orb_true_iff in H as [H|H]; apply Ascii.eqb_eq in H; subst c;
    reflexivity.
Qed.

Lemma scan_number_spec (s n r : string) :
  Iso8601.scan_number s = Some (n, r) -> is_number n /\ s = n ++ r.
Proof.
  unfold Iso8601.scan_number.
  destruct (span_digits_spec s) as [Hs [Hd _]].
  destruct (Iso8601.span_digits s) as [d r0]. cbn [fst snd] in *.
  destruct d as [|c d]; [discriminate|].
  assert (Hall : all_digits (String c d) = true) by exact Hd.
  destruct r0 as [|x r'].
  - intros [= <- <-]. split; [now apply digits_are_number | exact Hs].
  - destruct (Iso8601.is_decimal_sign x) eqn:Hx.
    + destruct (span_digits_spec r') as [Hr [Hf _]].
      destruct (Iso8601.span_digits r') as [f r'']. cbn [fst snd] in *.
      destruct f as [|y f].
      * intros [= <- <-]. split; [now apply digits_are_number | exact Hs].
      * intros [= <- <-]. split.
        -- exists (String c d). split; [exact Hall|]. right.
           exists x, (String y f). repeat split; auto.
        -- rewrite Hs, Hr. cbn [append]. f_equal.
           rewrite append_assoc. reflexivity.
    + intros [= <- <-]. split; [now apply digits_are_number | exact Hs].
Qed.

(** [float] accepts the text of a number unless its decimal sign is a
    comma. *)
Lemma float_of_number (n : string) :
  is_number n -> free_of "," n = true ->
  exists f, Iso8601.float_of_text n = Ok f.
Proof.
  intros [i [Hi [-> | [c [f [Hc [Hf ->]]]]]]] Hfree;
    apply all_digits_inv in Hi as [Hi _]; unfold Iso8601.float_of_text.
  - assert (E : Iso8601.span_digits i = (i, "")).
    { rewrite <- (append_nil_r i) at 1. now apply span_digits_run. }
    rewrite E. eauto.
  - rewrite span_digits_run;
      [|exact Hi | cbn; now apply decimal_sign_not_digit].
    rewrite free_of_append in Hfree. apply andb_true_iff in Hfree as [_ Hfree].
    cbn [free_of] in Hfree. apply andb_true_iff in Hfree as [Hcomma _].
    unfold Iso8601.is_decimal_sign in Hc. apply negb_true_iff in Hcomma.
    rewrite Hcomma in Hc. cbn [orb] in Hc. rewrite Hc. eauto.
Qed.

Lemma component_free (x : ascii) (s : string) :
  free_of "," s = true ->
  (exists f, Iso8601.float_or_zero (fst (Iso8601.component x s)) = Ok f)
  /\ free_of "," (snd (Iso8601.component x s)) = true.
Proof.
  intros Hfree. unfold Iso8601.component.
  destruct (Iso8601.scan_number s) as [[n r]|] eqn:Hscan;
    [|split; [now eexists | exact Hfree]].
  destruct (scan_number_spec _ _ _ Hscan) as [Hn Hs].
  destruct r as [|c r]; [split; [now eexists | exact Hfree]|].
  destruct (Ascii.eqb c x); [|split; [now eexists | exact Hfree]].
  rewrite Hs, free_of_append in Hfree.
  apply andb_true_iff in Hfree as [Hfn Hfr]. cbn [fst snd]. split.
  - now apply float_of_number.
  - cbn [free_of] in Hfr. now apply andb_true_iff in Hfr as [_ Hfr].
Qed.

Lemma date_component_free (x : ascii) (s : string) :
  free_of "," s = true ->
  free_of "," (snd (Iso8601.date_component x s)) = true.
Proof.
  intros H. unfold Iso8601.date_component.
  destruct (component_free x s H) as [_ Hr].
  destruct (Iso8601.component x s) as [[n|] r]; exact Hr.
Qed.

(** On a string without a comma, every number the pattern reads for the
    time part is one [float] accepts. *)
Lemma match_period_free (s : string) (g : Iso8601.groups) :
  free_of "," s = true -> Iso8601.match_period s = Some g ->
  (exists f, Iso8601.float_or_zero (Iso8601.g_hours g) = Ok f)
  /\ (exists f, Iso8601.float_or_zero (Iso8601.g_minutes g) = Ok f)
  /\ (exists f, Iso8601.float_or_zero (Iso8601.g_seconds g) = Ok f).
Proof.
  intros Hfree. unfold Iso8601.match_period.
  set (signed := match s with
                 | String c r =>
                     if Ascii.eqb c "+" || Ascii.eqb c "-"
                     then (Some (String c EmptyString), r) else (None, s)
                 | EmptyString => (None, s)
                 end).
  assert (H1 : free_of "," (snd signed) = true).
  { unfold signed. destruct s as [|c r]; [reflexivity|].
    destruct (Ascii.eqb c "+" || Ascii.eqb c "-"); [|exact Hfree].
    cbn [free_of snd] in *. now apply andb_true_iff in Hfree as [_ ?]. }
  destruct signed as [sign s1]. cbn [snd] in H1.
  destruct s1 as [|p s2]; [discriminate|].
  destruct (Ascii.eqb_spec p "P") as [->|Hp].
  2:{ destruct p as [[] [] [] [] [] [] [] []]; try discriminate.
      now elim Hp. }
  cbn [free_of] in H1. apply andb_true_iff in H1 as [_ H2].
  destruct (Iso8601.boundary_after_word s2); [discriminate|].
  pose proof (date_component_free "Y" s2 H2) as H3.
  destruct (Iso8601.date_component "Y" s2) as [years s3]. cbn [snd] in H3.
  pose proof (date_component_free "M" s3 H3) as H4.
  destruct (Iso8601.date_component "M" s3) as [months s4]. cbn [snd] in H4.
  pose proof (date_component_free "W" s4 H4) as H5.
  destruct (Iso8601.date_component "W" s4) as [weeks s5]. cbn [snd] in H5.
  pose proof (date_component_free "D" s5 H5) as H6.
  destruct (Iso8601.date_component "D" s5) as [days s6]. cbn [snd] in H6.
  assert (Hdate : (if Iso8601.at_end s6
                   then Some (Iso8601.Groups sign years months weeks days
                                None None None None)
                   else None) = Some g ->
                  (exists f, Iso8601.float_or_zero (Iso8601.g_hours g) = Ok f)
                  /\ (exists f,
                        Iso8601.float_or_zero (Iso8601.g_minutes g) = Ok f)
                  /\ (exists f,
                        Iso8601.float_or_zero (Iso8601.g_seconds g) = Ok f)).
  { destruct (Iso8601.at_end s6); [|discriminate]. intros [= <-].
    repeat split; now eexists. }
  destruct s6 as [|t s7]; [exact Hdate|].
  destruct (Ascii.eqb_spec t "T") as [->|Ht].
  2:{ destruct t as [[] [] [] [] [] [] [] []]; try exact Hdate.
      now elim Ht. }
  cbn [free_of] in H6. apply andb_true_iff in H6 as [_ H7].
  destruct (component_free "H" s7 H7) as [Hh H8].
  destruct (Iso8601.component "H" s7) as [hours s8]. cbn [fst snd] in *.
  destruct (component_free "M" s8 H8) as [Hm H9].
  destruct (Iso8601.component "M" s8) as [minutes s9]. cbn [fst snd] in *.
  destruct (component_free "S" s9 H9) as [Hsec _].
  destruct (Iso8601.component "S" s9) as [seconds s10]. cbn [fst snd] in *.
  destruct (Iso8601.at_end s10); [|discriminate]. intros [= <-].
  cbn [Iso8601.g_hours Iso8601.g_minutes Iso8601.g_seconds]. auto.
Qed.

Lemma float_or_zero_raises (g : option string) (e : exn) :
  Iso8601.float_or_zero g = Raise e -> e = ValueError.
Proof.
  destruct g as [text|]; [|discriminate]. cbn [Iso8601.float_or_zero].
  unfold Iso8601.float_of_text.
  destruct (Iso8601.span_digits text) as [d [|c f]]; [discriminate|].
  destruct (Ascii.eqb c "."); [discriminate|]. now intros [= <-].
Qed.

(** X13: [get_duration_seconds] raises nothing but [ValueError], and only
    on a string that holds a comma: every value that is no string, and
    every string without a comma, gives a result. *)
Theorem get_duration_seconds_raises (time_stamp : json) (e : exn) :
  get_duration_seconds time_stamp = Raise e ->
  e = ValueError
  /\ exists s, time_stamp = JStr s /\ free_of "," s = false.
Proof.
  destruct time_stamp as [| | | |s| |]; try discriminate.
  cbn [get_duration_seconds].
  destruct (Iso8601.match_period s) as [g|] eqn:Hg; [|discriminate].
  intros H. split.
  - destruct (Iso8601.float_or_zero (Iso8601.g_hours g)) eqn:Hh;
      cbn [rbind] in H; [|injection H as <-; eapply float_or_zero_raises; eauto].
    destruct (Iso8601.float_or_zero (Iso8601.g_minutes g)) eqn:Hm;
      cbn [rbind] in H; [|injection H as <-; eapply float_or_zero_raises; eauto].
    destruct (Iso8601.float_or_zero (Iso8601.g_seconds g)) eqn:Hs;
      cbn [rbind] in H; [|injection H as <-; eapply float_or_zero_raises; eauto].
    discriminate.
  - exists s. split; [reflexivity|].
    destruct (free_of "," s) eqn:Hfree; [|reflexivity]. exfalso.
    destruct (match_period_free s g Hfree Hg) as [[h Hh] [[m Hm] [sec Hs]]].
    rewrite Hh, Hm, Hs in H. discriminate.
Qed.

Lemma get_duration_seconds_raises_witness :
  ValueError = ValueError
  /\ exists s, JStr "PT1,5S" = JStr s /\ free_of "," s = false.
Proof.
  apply (get_duration_seconds_raises (JStr "PT1,5S") ValueError).
  reflexivity.
Defined.

(* ===================================================================== *)
(** * Further properties: the secondary id                                *)
(* ===================================================================== *)

Lemma split_segments_free (c : ascii) (s : string) :
  Forall (fun x => free_of c x = true) (Str.split c s).
Proof.
  induction s as [|a s IH]; cbn [Str.split]; [repeat constructor|].
  destruct (Ascii.eqb a c) eqn:E; [constructor; [reflexivity | exact IH]|].
  destruct (Str.split c s) as [|seg rest].
  - repeat constructor. cbn [free_of]. now rewrite E.
  - inversion IH; subst. constructor; [|assumption].
    cbn [free_of]. rewrite E. assumption.
Qed.

Lemma split_head (c : ascii) (s h x : string) (l : list string) :
  Str.split c s = h :: x :: l -> exists t, s = h ++ String c t.
Proof.
  revert h. induction s as [|a s IH]; intros h; cbn [Str.split];
    [discriminate|].
  destruct (Ascii.eqb_spec a c) as [->|Hne].
  - intros [= <- _]. now exists s.
  - destruct (Str.split c s) as [|seg rest] eqn:E; [discriminate|].
    intros [= <- ->]. destruct (IH seg eq_refl) as [t ->].
    now exists t.
Qed.

Lemma list_item_in {A} (l : list A) (i : Z) (x : A) :
  list_item l i = Ok x -> In x l.
Proof.
  unfold list_item. destruct (_ || _); [discriminate|].
  destruct (nth_error l _) eqn:E; [|discriminate].
  intros [= <-]. eapply nth_error_In; eauto.
Qed.

(** X14: an id that [get_kaltura_id_or_none] returns never holds a "-",
    and it is non-empty only for a media id that starts with "29-": every
    other value that is accepted gives the empty id. *)
Theorem get_kaltura_id_or_none_shape (media_data : json) (kaltura_id : string) :
  snd (get_kaltura_id_or_none media_data) = Ok kaltura_id ->
  free_of "-" kaltura_id = true
  /\ (kaltura_id <> "" ->
      exists rest, media_data = JStr ("29-" ++ rest)).
Proof.
  unfold get_kaltura_id_or_none.
  destruct (negb (truthy media_data));
    [intros [= <-]; split; [reflexivity | congruence]|].
  destruct media_data as [| | | |s| |]; try discriminate.
  cbn [py_split lift bind].
  destruct (Str.split "-" s) as [|host rest] eqn:Hsplit;
    [discriminate|].
  rewrite list_item_head. cbn [bind app].
  destruct (String.eqb host "29") eqn:Hhost.
  - apply String.eqb_eq in Hhost. subst host.
    destruct (list_item ("29" :: rest) 1) as [x|] eqn:Hx; [|discriminate].
    cbn [snd]. intros [= <-]. split.
    + pose proof (split_segments_free "-" s) as Hall.
      rewrite Hsplit in Hall. rewrite Forall_forall in Hall.
      apply Hall. eapply list_item_in; eauto.
    + intros _. destruct rest as [|y rest]; [discriminate|].
      destruct (split_head _ _ _ _ _ Hsplit) as [t ->]. now exists t.
  - destruct (str_in host ["55"; "67"]); [|discriminate].
    intros [= <-]. split; [reflexivity | congruence].
Qed.

Lemma get_kaltura_id_or_none_shape_witness :
  free_of "-" "1_abc" = true
  /\ ("1_abc" <> "" -> exists rest, JStr "29-1_abc-x" = JStr ("29-" ++ rest)).
Proof.
  apply (get_kaltura_id_or_none_shape (JStr "29-1_abc-x") "1_abc").
  reflexivity.
Defined.

(* ===================================================================== *)
(** * Further properties: the records of a listing                        *)
(* ===================================================================== *)

Lemma split_two (c : ascii) (s : string) :
  free_of c s = false -> exists x y l, Str.split c s = x :: y :: l.
Proof.
  induction s as [|a s IH]; cbn [free_of Str.split]; [discriminate|].
  destruct (Ascii.eqb a c) eqn:E; cbn [negb andb].
  - intros _. pose proof (split_nonempty c s) as Hne.
    destruct (Str.split c s) as [|y l]; [congruence|]. now exists "", y, l.
  - intros H. destruct (IH H) as [x [y [l ->]]]. now exists (String a x), y, l.
Qed.

(** The last segment of a split is what follows the last separator. *)
Lemma split_last (c : ascii) (s : string) :
  free_of c (last (Str.split c s) "") = true
  /\ (s = last (Str.split c s) ""
      \/ exists p, s = p ++ String c (last (Str.split c s) "")).
Proof.
  induction s as [|a s [IHf IHs]]; cbn [Str.split]; [split; auto|].
  pose proof (split_nonempty c s) as Hne.
  destruct (Ascii.eqb_spec a c) as [->|Hac].
  - destruct (Str.split c s) as [|y l] eqn:E; [congruence|].
    change (last ("" :: y :: l) "") with (last (y :: l) "").
    split; [exact IHf|]. right. destruct IHs as [Hs | [p Hp]].
    + exists "". cbn [append]. now rewrite <- Hs.
    + exists (String c p). cbn [append]. now rewrite <- Hp.
  - destruct (free_of c s) eqn:Hfree.
    + rewrite (split_free c s Hfree). cbn [last free_of].
      apply Ascii.eqb_neq in Hac. rewrite Hac, Hfree. auto.
    + destruct (split_two c s Hfree) as [x [y [l E]]]. rewrite E in *.
      change (last (String a x :: y :: l) "") with (last (y :: l) "").
      change (last (x :: y :: l) "") with (last (y :: l) "") in IHf, IHs.
      split; [exact IHf|]. right. destruct IHs as [Hs | [p Hp]].
      * exfalso. rewrite Hs in Hfree. congruence.
      * exists (String a p). cbn [append]. now rewrite <- Hp.
Qed.

Lemma nth_error_last {A} (l : list A) (d : A) :
  l <> [] -> nth_error l (List.length l - 1) = Some (last l d).
Proof.
  induction l as [|x l IH]; [congruence|]. intros _.
  destruct l as [|y l]; [reflexivity|].
  change (last (x :: y :: l) d) with (last (y :: l) d).
  rewrite <- IH by discriminate. cbn [List.length].
  replace (S (S (List.length l)) - 1)%nat with (S (S (List.length l) - 1))
    by lia.
  reflexivity.
Qed.

Lemma list_item_last {A} (l : list A) (d : A) :
  l <> [] -> list_item l (-1) = Ok (last l d).
Proof.
  intros Hne. unfold list_item. change (-1 <? 0) with true. cbv iota.
  set (n := Z.of_nat (List.length l)).
  assert (Hn : 1 <= n).
  { unfold n. destruct l; [congruence | cbn [List.length]; lia]. }
  replace ((-1 + n <? 0) || (n <=? -1 + n)) with false.
  2:{ symmetry. apply orb_false_iff. split; [apply Z.ltb_ge | apply Z.leb_gt];
      lia. }
  replace (Z.to_nat (-1 + n)) with (List.length l - 1)%nat by (unfold n; lia).
  now rewrite (nth_error_last l d Hne).
Qed.

(** [u.split("/")[-1]] is what follows the last "/" of [u]. *)
Lemma last_segment_spec (u : string) :
  exists seg, last_segment (JStr u) = Ok seg /\ after_last_slash u seg.
Proof.
  exists (last (Str.split "/" u) ""). split.
  - unfold last_segment. cbn [py_split rbind].
    apply list_item_last, split_nonempty.
  - exact (split_last "/" u).
Qed.

Lemma parse_entry_id (container_str : json -> string) (locale : string)
  (title_prefix entry : json) :
  required_fields_ok locale entry ->
  exists md,
    parse_entry container_str locale title_prefix entry = Ok md
    /\ record_of_entry locale entry md.
Proof.
  intros [kv [p [u [-> [Hp [Hu Hloc]]]]]]. unfold parse_entry.
  unfold record_of_entry, pointer_field. rewrite !Hp. cbn [rbind].
  rewrite !Hu. cbn [rbind].
  destruct (last_segment_spec u) as [seg [Hseg Hlast]]. rewrite Hseg.
  cbn [rbind get].
  destruct (entry_image_total container_str (JDict kv)) as [img Himg].
  destruct (entry_duration_total (JDict kv)) as [dur Hdur].
  set (tp := match assoc "type" p with Some x => x | None => JStr "" end).
  destruct (py_eq_str tp "package") eqn:Hpkg.
  - destruct Hloc as [-> | ->]; cbn [get_package_path String.eqb Ascii.eqb
      Bool.eqb rbind]; simpl String.eqb; cbv iota; cbn [rbind];
      rewrite Himg, Hdur; cbn [rbind]; eexists; (split; [reflexivity|]);
      exists u, seg; cbn [md_api_data api_yle_id api_type];
      rewrite ?Hpkg; repeat split; auto; apply Hlast.
  - cbn [rbind]. rewrite Himg, Hdur. cbn [rbind]. eexists.
    split; [reflexivity|]. exists u, seg.
    cbn [md_api_data api_yle_id api_type]. rewrite ?Hpkg.
    repeat split; auto; apply Hlast.
Qed.

(** X15: every record of a well-formed listing carries the type of its
    entry, and as id what follows the last "/" of the entry's pointer
    address (all of the address when it holds no "/"), so a segment without
    "/"; only the id of a package is prefixed, with the package path of the
    locale. *)
Theorem get_category_content_ids
  (container_str : json -> string) (locale : string) (title_prefix : json)
  (site : json) (entries : list json) :
  item site "data" = Ok (JList entries) ->
  Forall (required_fields_ok locale) entries ->
  exists records,
    get_category_content container_str site locale title_prefix = Ok records
    /\ Forall2 (record_of_entry locale) entries records.
Proof.
  intros Hd Hreq. unfold get_category_content. rewrite Hd. cbn [rbind iter].
  set (tp := py_or title_prefix (JStr "")). clearbody tp. clear Hd.
  induction Hreq as [|e l He _ IH].
  - exists []. split; [reflexivity | constructor].
  - destruct IH as [records [Hr Hall]].
    destruct (parse_entry_id container_str locale tp e He) as [md [Hmd Hid]].
    exists (md :: records). cbn [parse_entries]. rewrite Hmd. cbn [rbind].
    rewrite Hr. split; [reflexivity | now constructor].
Qed.

Lemma get_category_content_ids_witness :
  exists records,
    get_category_content (fun _ => "")
      (JDict [("data", JList [sample_package; sample_entry 7])]) "fi" JNull
    = Ok records
    /\ Forall2 (record_of_entry "fi") [sample_package; sample_entry 7] records.
Proof.
  apply (get_category_content_ids (fun _ => "")
           "fi" JNull
           (JDict [("data", JList [sample_package; sample_entry 7])])
           [sample_package; sample_entry 7]).
  - reflexivity.
  - repeat constructor;
      (eexists; eexists; eexists; repeat split; try reflexivity; now left).
Defined.

Lemma parse_entries_not_object (container_str : json -> string)
  (locale : string) (title_prefix : json) (l : list json) :
  Exists (fun e => ~ is_object e) l ->
  exists e, parse_entries container_str locale title_prefix l = Raise e.
Proof.
  induction 1 as [x l Hx | x l _ [e IH]]; cbn [parse_entries].
  - destruct x; try (unfold parse_entry; cbn [get rbind]; now eexists).
    elim Hx. exact I.
  - destruct (parse_entry container_str locale title_prefix x);
      cbn [rbind]; [|now eexists].
    rewrite IH. cbn [rbind]. now eexists.
Qed.

(** X16: a listing is parsed as a whole or not at all: a result holds
    exactly one record for each entry of the page, none is dropped, and a
    single entry that is no object makes the whole listing fail. *)
Theorem get_category_content_all_or_nothing
  (container_str : json -> string) (locale : string) (title_prefix : json)
  (site : json) (entries : list json) :
  item site "data" = Ok (JList entries) ->
  (forall records,
     get_category_content container_str site locale title_prefix = Ok records
     -> List.length records = List.length entries)
  /\ (Exists (fun e => ~ is_object e) entries ->
      exists e,
        get_category_content container_str site locale title_prefix
        = Raise e).
Proof.
  intros Hd. unfold get_category_content. rewrite Hd. cbn [rbind iter].
  split.
  - intros records H. eapply parse_entries_length; eauto.
  - apply parse_entries_not_object.
Qed.

Lemma get_category_content_all_or_nothing_witness :
  exists e,
    get_category_content (fun _ => "")
      (JDict [("data", JList [sample_entry 1; JStr "x"])]) "fi" JNull
    = Raise e.
Proof.
  apply (proj2 (get_category_content_all_or_nothing (fun _ => "") "fi" JNull
                  (JDict [("data", JList [sample_entry 1; JStr "x"])])
                  [sample_entry 1; JStr "x"] eq_refl)).
  apply Exists_cons_tl, Exists_cons_hd. intros H. exact H.
Defined.

(* ===================================================================== *)
(** * Further properties: the forwarded address                           *)
(* ===================================================================== *)

(** X17: whatever the three draws, the forwarded address is a well-formed
    dotted IPv4 address of the network 91.152.0.0/13, as the function
    promises. *)
Theorem random_elisa_ipv4_network (r1 r2 r3 : Z) :
  2 <= r1 <= 9 -> 0 <= r2 <= 255 -> 1 <= r3 <= 254 ->
  exists second,
    random_elisa_ipv4 r1 r2 r3 = dotted 91 second r2 r3
    /\ 0 <= second <= 255
    /\ in_network (ipv4_value 91 152 0 0) 13 (ipv4_value 91 second r2 r3).
Proof.
  intros H1 H2 H3. exists (150 + r1). split; [|split; [lia|]].
  - unfold random_elisa_ipv4, dotted.
    assert (E : "91.15" ++ Float.dec r1 = Float.dec 91 ++ "." ++ Float.dec (150 + r1)).
    { assert (Hc : r1 = 2 \/ r1 = 3 \/ r1 = 4 \/ r1 = 5 \/ r1 = 6 \/ r1 = 7
                   \/ r1 = 8 \/ r1 = 9) by lia.
      repeat (destruct Hc as [-> | Hc]; [reflexivity|]). subst r1.
      reflexivity. }
    change ("91.15" ++ Float.dec r1 ++ "." ++ Float.dec r2 ++ "." ++ Float.dec r3)
      with (("91.15" ++ Float.dec r1) ++ "." ++ Float.dec r2 ++ "."
            ++ Float.dec r3).
    rewrite E. now rewrite !append_assoc.
  - unfold in_network, ipv4_value.
    change (32 - 13) with 19. rewrite !Z.shiftr_div_pow2 by lia.
    transitivity 2931.
    + symmetry. apply Z.div_unique with
        (r := ((91 * 256 + (150 + r1)) * 256 + r2) * 256 + r3
              - 2 ^ 19 * 2931); lia.
    + reflexivity.
Qed.

Lemma random_elisa_ipv4_network_witness :
  exists second,
    random_elisa_ipv4 4 17 200 = dotted 91 second 17 200
    /\ 0 <= second <= 255
    /\ in_network (ipv4_value 91 152 0 0) 13 (ipv4_value 91 second 17 200).
Proof.
  apply (random_elisa_ipv4_network 4 17 200); lia.
Defined.
